(** * ClarityNLP value extraction and COVID case finding

    A shallow embedding of [nlp/algorithms/value_extraction/value_extractor.py]
    and [nlp/algorithms/finder/covid_finder.py], together with the part of
    Python's [str] and [re] that the two modules rely on.

    Conventions.
    - A Python [str] is a [string]; characters are 8-bit and the character
      classes ([\s], [\d], [\w], [lower]) are those of ASCII.
    - A function that may raise returns a [result]; [Raise] carries the name
      of the Python exception.
    - A regular expression is kept as the pattern text of the source and is
      compiled by [Re.compile]; matching is a backtracking matcher with the
      priorities of Python's [re] (leftmost alternative first, greedy
      repetition longest first, lazy repetition shortest first). *)

From Stdlib Require Import ZArith Ascii String List Bool Lia.
From stdpp Require Import base option list strings gmap.

Set Default Proof Using "Type".

(** ** Exceptions *)

Inductive result (A : Type) : Type :=
| Ok (a : A)
| Raise (exn : string).
Arguments Ok {A} a.
Arguments Raise {A} exn.

Global Instance result_ret : MRet result := fun _ a => Ok a.

Global Instance result_bind : MBind result := fun _ _ f x =>
  match x with
  | Ok a => f a
  | Raise e => Raise e
  end.

Global Instance result_fmap : FMap result := fun _ _ f x =>
  match x with
  | Ok a => Ok (f a)
  | Raise e => Raise e
  end.

(** [for x in l: acc = f(acc, x)] where the body may raise. *)
Fixpoint rfold {A B} (f : B -> A -> result B) (acc : B) (l : list A) : result B :=
  match l with
  | [] => Ok acc
  | x :: l' => acc' ← f acc x; rfold f acc' l'
  end.

(** ** Python [str] *)

Module Py.

Definition code (c : ascii) : N := N_of_ascii c.

Definition between (lo hi c : ascii) : bool :=
  ((code lo <=? code c) && (code c <=? code hi))%N.

(** [str.isspace] on one ASCII character: TAB..CR, FS..US and the blank. *)
Definition isspace_char (c : ascii) : bool :=
  between "009" "013" c || between "028" " " c.

Definition isdigit_char (c : ascii) : bool := between "0" "9" c.

Definition isalpha_char (c : ascii) : bool :=
  between "a" "z" c || between "A" "Z" c.

(** The class [\w]. *)
Definition isword_char (c : ascii) : bool :=
  isalpha_char c || isdigit_char c || Ascii.eqb c "_".

Definition lower_char (c : ascii) : ascii :=
  if between "A" "Z" c then ascii_of_N (code c + 32) else c.

Definition upper_char (c : ascii) : ascii :=
  if between "a" "z" c then ascii_of_N (code c - 32) else c.

Fixpoint lower (s : string) : string :=
  match s with
  | "" => ""
  | String c s' => String (lower_char c) (lower s')
  end.

(** [s[:n]] *)
Fixpoint take (n : nat) (s : string) : string :=
  match n, s with
  | S n', String c s' => String c (take n' s')
  | _, _ => ""
  end.

(** [s[n:]] *)
Fixpoint drop (n : nat) (s : string) : string :=
  match n, s with
  | S n', String _ s' => drop n' s'
  | _, _ => s
  end.

(** [s[a:b]] for non-negative [a] and [b]. *)
Definition slice (a b : nat) (s : string) : string := take (b - a) (drop a s).

Fixpoint lstrip (s : string) : string :=
  match s with
  | String c s' => if isspace_char c then lstrip s' else s
  | "" => ""
  end.

Definition rstrip (s : string) : string := String.rev (lstrip (String.rev s)).

Definition strip (s : string) : string := rstrip (lstrip s).

(** [s.startswith(p)] *)
Fixpoint startswith (p s : string) : bool :=
  match p, s with
  | "", _ => true
  | String a p', String b s' => Ascii.eqb a b && startswith p' s'
  | String _ _, "" => false
  end.

(** [s.endswith(p)] *)
Definition endswith (p s : string) : bool :=
  startswith (String.rev p) (String.rev s).

Fixpoint find_from (sub s : string) (i : nat) : option nat :=
  if startswith sub s then Some i
  else match s with
       | "" => None
       | String _ s' => find_from sub s' (S i)
       end.

(** [s.find(sub)]; Python's [-1] is [None]. *)
Definition find (sub s : string) : option nat := find_from sub s 0.

(** [s.split(c)] for a one-character separator. *)
Fixpoint split_on (sep : ascii) (s : string) : list string :=
  match s with
  | "" => [""]
  | String c s' =>
      if Ascii.eqb c sep then "" :: split_on sep s'
      else match split_on sep s' with
           | w :: ws => String c w :: ws
           | [] => [String c ""]
           end
  end.

(** [s.split()]: maximal runs of non-blank characters. *)
Fixpoint words_go (cur : option string) (s : string) : list string :=
  match s with
  | "" => option_list (String.rev <$> cur)
  | String c s' =>
      if isspace_char c
      then option_list (String.rev <$> cur) ++ words_go None s'
      else words_go (Some (String c (default "" cur))) s'
  end.

Definition split (s : string) : list string := words_go None s.

Fixpoint all_space (s : string) : bool :=
  match s with
  | "" => true
  | String c s' => isspace_char c && all_space s'
  end.

(** [s.isspace()]: false on the empty string. *)
Definition isspace (s : string) : bool :=
  match s with "" => false | _ => all_space s end.

(** [' ' * n] *)
Fixpoint spaces (n : nat) : string :=
  match n with
  | 0 => ""
  | S n' => String " " (spaces n')
  end.

Fixpoint all_digits (s : string) : bool :=
  match s with
  | "" => true
  | String c s' => isdigit_char c && all_digits s'
  end.

Fixpoint digits_value (acc : N) (s : string) : N :=
  match s with
  | "" => acc
  | String c s' => digits_value (acc * 10 + (code c - 48)) s'
  end.

(** [int(s)] for a decimal numeral: surrounding blanks are ignored and a
    sign is accepted. *)
Definition int (s : string) : result Z :=
  let t := strip s in
  let '(neg, ds) := match t with
                    | String "-" ds => (true, ds)
                    | String "+" ds => (false, ds)
                    | _ => (false, t)
                    end in
  match ds with
  | "" => Raise "ValueError"
  | _ => if all_digits ds
         then Ok (if neg then (- Z.of_N (digits_value 0 ds))%Z
                  else Z.of_N (digits_value 0 ds))
         else Raise "ValueError"
  end.

End Py.

(** ** Python [re] *)

Module Re.

(** *** Abstract syntax *)

Inductive citem :=
| CChar (c : ascii)
| CRange (lo hi : ascii)
| CDigit (neg : bool)            (* \d, \D *)
| CSpace (neg : bool)            (* \s, \S *)
| CWord (neg : bool).            (* \w, \W *)

Inductive regex :=
| Eps
| Chr (c : ascii)
| Any                                            (* . *)
| Cls (neg : bool) (items : list citem)          (* [...] and [^...] *)
| Seq (r1 r2 : regex)
| Alt (r1 r2 : regex)
| Rep (r : regex) (lo : nat) (hi : option nat) (greedy : bool)
| Group (name : option string) (r : regex)       (* (...) and (?P<name>...) *)
| Look (ahead neg : bool) (r : regex)            (* (?=) (?!) (?<=) (?<!) *)
| WordB (neg : bool)                             (* \b, \B *)
| Bos                                            (* \A and ^ *)
| Eos                                            (* \Z *)
| Eol.                                           (* $ *)

(** *** Parsing of pattern text *)

Definition newline : ascii := "010".

Definition class_escape (c : ascii) : option citem :=
  match c with
  | "d" => Some (CDigit false) | "D" => Some (CDigit true)
  | "s" => Some (CSpace false) | "S" => Some (CSpace true)
  | "w" => Some (CWord false)  | "W" => Some (CWord true)
  | "n" => Some (CChar newline)
  | "t" => Some (CChar "009")
  | "r" => Some (CChar "013")
  | "f" => Some (CChar "012")
  | "v" => Some (CChar "011")
  | _ => if Py.isalpha_char c || Py.isdigit_char c then None
         else Some (CChar c)
  end%char.

Definition atom_escape (c : ascii) : option regex :=
  match c with
  | "b" => Some (WordB false) | "B" => Some (WordB true)
  | "A" => Some Bos | "Z" => Some Eos
  | _ => match class_escape c with
         | Some (CChar x) => Some (Chr x)
         | Some it => Some (Cls false [it])
         | None => None
         end
  end%char.

(** One member of a bracket expression, without its possible range. *)
Definition class_member (s : string) : option (citem * string) :=
  match s with
  | String "\" (String c s') =>
      match class_escape c with Some it => Some (it, s') | None => None end
  | String c s' => Some (CChar c, s')
  | "" => None
  end.

(** The members of a bracket expression up to the closing bracket;
    [first] tells that a bracket here is still a literal. *)
Fixpoint class_items (fuel : nat) (first : bool) (s : string)
  : option (list citem * string) :=
  match fuel with
  | 0 => None
  | S fuel' =>
      match s with
      | "" => None
      | String "]" s' =>
          if first then
            match class_items fuel' false s' with
            | Some (its, rest) => Some (CChar "]" :: its, rest)
            | None => None
            end
          else Some ([], s')
      | _ =>
          match class_member s with
          | None => None
          | Some (CChar lo, String "-" s1) =>
              match s1 with
              | String "]" _ =>
                  match class_items fuel' false s1 with
                  | Some (its, rest) => Some (CChar lo :: CChar "-" :: its, rest)
                  | None => None
                  end
              | _ =>
                  match class_member s1 with
                  | Some (CChar hi, s2) =>
                      match class_items fuel' false s2 with
                      | Some (its, rest) => Some (CRange lo hi :: its, rest)
                      | None => None
                      end
                  | _ => None
                  end
              end
          | Some (it, s1) =>
              match class_items fuel' false s1 with
              | Some (its, rest) => Some (it :: its, rest)
              | None => None
              end
          end
      end
  end.

Definition parse_class (s : string) : option (regex * string) :=
  let '(neg, s1) := match s with
                    | String "^" s' => (true, s')
                    | _ => (false, s)
                    end in
  match class_items (S (String.length s1)) true s1 with
  | Some (its, rest) => Some (Cls neg its, rest)
  | None => None
  end.

Fixpoint read_digits (s : string) : string * string :=
  match s with
  | String c s' =>
      if Py.isdigit_char c
      then let '(ds, rest) := read_digits s' in (String c ds, rest)
      else ("", s)
  | "" => ("", "")
  end.

Definition nat_of_digits (ds : string) : nat := N.to_nat (Py.digits_value 0 ds).

(** The bounds of [{m}], [{m,}], [{,n}] and [{m,n}]; [s] follows the
    opening brace. *)
Definition parse_braces (s : string) : option (nat * option nat * string) :=
  let '(d1, s1) := read_digits s in
  match s1 with
  | String "}" s2 =>
      match d1 with
      | "" => None
      | _ => Some (nat_of_digits d1, Some (nat_of_digits d1), s2)
      end
  | String "," s2 =>
      let '(d2, s3) := read_digits s2 in
      match s3 with
      | String "}" s4 =>
          Some (nat_of_digits d1,
                match d2 with "" => None | _ => Some (nat_of_digits d2) end,
                s4)
      | _ => None
      end
  | _ => None
  end.

Definition lazy_suffix (s : string) : bool * string :=
  match s with
  | String "?" s' => (false, s')
  | _ => (true, s)
  end.

(** An optional quantifier after the atom [a]. *)
Definition parse_quant (a : regex) (s : string) : regex * string :=
  match s with
  | String "*" s1 => let '(g, s2) := lazy_suffix s1 in (Rep a 0 None g, s2)
  | String "+" s1 => let '(g, s2) := lazy_suffix s1 in (Rep a 1 None g, s2)
  | String "?" s1 => let '(g, s2) := lazy_suffix s1 in (Rep a 0 (Some 1) g, s2)
  | String "{" s1 =>
      match parse_braces s1 with
      | Some (lo, hi, s2) => let '(g, s3) := lazy_suffix s2 in (Rep a lo hi g, s3)
      | None => (a, s)
      end
  | _ => (a, s)
  end.

Fixpoint read_name (s : string) : option (string * string) :=
  match s with
  | String ">" s' => Some ("", s')
  | String c s' =>
      match read_name s' with
      | Some (n, rest) => Some (String c n, rest)
      | None => None
      end
  | "" => None
  end.

(** What an opening parenthesis starts; [s] follows the parenthesis. *)
Definition group_kind (s : string) : option ((regex -> regex) * string) :=
  match s with
  | String "?" (String ":" s') => Some (fun r => r, s')
  | String "?" (String "=" s') => Some (Look true false, s')
  | String "?" (String "!" s') => Some (Look true true, s')
  | String "?" (String "<" (String "=" s')) => Some (Look false false, s')
  | String "?" (String "<" (String "!" s')) => Some (Look false true, s')
  | String "?" (String "P" (String "<" s')) =>
      match read_name s' with
      | Some (n, rest) => Some (Group (Some n), rest)
      | None => None
      end
  | String "?" _ => None
  | _ => Some (Group None, s)
  end.

Fixpoint parse_alt (fuel : nat) (s : string) : option (regex * string) :=
  match fuel with
  | 0 => None
  | S f =>
      match parse_seq f s with
      | Some (r1, String "|" s1) =>
          match parse_alt f s1 with
          | Some (r2, s2) => Some (Alt r1 r2, s2)
          | None => None
          end
      | other => other
      end
  end
with parse_seq (fuel : nat) (s : string) : option (regex * string) :=
  match fuel with
  | 0 => None
  | S f =>
      match s with
      | "" | String "|" _ | String ")" _ => Some (Eps, s)
      | _ =>
          match parse_atom f s with
          | Some (a, s1) =>
              let '(q, s2) := parse_quant a s1 in
              match parse_seq f s2 with
              | Some (Eps, s3) => Some (q, s3)
              | Some (r, s3) => Some (Seq q r, s3)
              | None => None
              end
          | None => None
          end
      end
  end
with parse_atom (fuel : nat) (s : string) : option (regex * string) :=
  match fuel with
  | 0 => None
  | S f =>
      match s with
      | String "(" s1 =>
          match group_kind s1 with
          | Some (wrap, s2) =>
              match parse_alt f s2 with
              | Some (r, String ")" s3) => Some (wrap r, s3)
              | _ => None
              end
          | None => None
          end
      | String "[" s1 => parse_class s1
      | String "\" (String c s1) =>
          match atom_escape c with
          | Some r => Some (r, s1)
          | None => None
          end
      | String "\" "" => None
      | String "." s1 => Some (Any, s1)
      | String "^" s1 => Some (Bos, s1)
      | String "$" s1 => Some (Eol, s1)
      | String "*" _ | String "+" _ | String "?" _ => None
      | String c s1 => Some (Chr c, s1)
      | "" => None
      end
  end.

(** The syntax tree of a pattern text, if it is well formed. *)
Definition parse (text : string) : option regex :=
  match parse_alt (3 * String.length text + 3) text with
  | Some (r, "") => Some r
  | _ => None
  end.

(** *** Matching *)

(** A position in the subject: the offset, the text before it (nearest
    character first) and the text after it. *)
Record cursor := Cursor { pos : nat; before : string; after : string }.

Definition start_of (s : string) : cursor := Cursor 0 "" s.

Definition advance (c : cursor) : cursor :=
  match after c with
  | String y rest => Cursor (S (pos c)) (String y (before c)) rest
  | "" => c
  end.

Fixpoint advance_n (n : nat) (c : cursor) : cursor :=
  match n with
  | 0 => c
  | S n' => advance_n n' (advance c)
  end.

(** [w] characters back, if there are that many. *)
Fixpoint rewind (w : nat) (c : cursor) : option cursor :=
  match w with
  | 0 => Some c
  | S w' =>
      match before c with
      | String y b => rewind w' (Cursor (pred (pos c)) b (String y (after c)))
      | "" => None
      end
  end.

(** Named groups matched so far, the latest binding first. *)
Definition caps := list (string * (nat * nat)).

Definition bind_group (name : option string) (s e : nat) (g : caps) : caps :=
  match name with
  | Some n => (n, (s, e)) :: g
  | None => g
  end.

Fixpoint lookup_group (n : string) (g : caps) : option (nat * nat) :=
  match g with
  | [] => None
  | (n', se) :: g' => if String.eqb n n' then Some se else lookup_group n g'
  end.

Definition citem_has (it : citem) (c : ascii) : bool :=
  match it with
  | CChar x => Ascii.eqb x c
  | CRange lo hi => Py.between lo hi c
  | CDigit neg => xorb neg (Py.isdigit_char c)
  | CSpace neg => xorb neg (Py.isspace_char c)
  | CWord neg => xorb neg (Py.isword_char c)
  end.

Definition items_have (its : list citem) (c : ascii) : bool :=
  existsb (fun it => citem_has it c) its.

(** [ic] is the flag [re.IGNORECASE]. *)
Definition chr_matches (ic : bool) (x c : ascii) : bool :=
  if ic then Ascii.eqb (Py.lower_char x) (Py.lower_char c) else Ascii.eqb x c.

Definition cls_matches (ic neg : bool) (its : list citem) (c : ascii) : bool :=
  xorb neg (if ic
            then items_have its c || items_have its (Py.lower_char c)
                 || items_have its (Py.upper_char c)
            else items_have its c).

Definition word_before (c : cursor) : bool :=
  match before c with String y _ => Py.isword_char y | "" => false end.

Definition word_after (c : cursor) : bool :=
  match after c with String y _ => Py.isword_char y | "" => false end.

Definition at_boundary (c : cursor) : bool := xorb (word_before c) (word_after c).

(** The width of a look-behind body, which has to be fixed. *)
Fixpoint width (r : regex) : option nat :=
  match r with
  | Eps | Look _ _ _ | WordB _ | Bos | Eos | Eol => Some 0
  | Chr _ | Any | Cls _ _ => Some 1
  | Seq r1 r2 =>
      match width r1, width r2 with
      | Some a, Some b => Some (a + b)
      | _, _ => None
      end
  | Alt r1 r2 =>
      match width r1, width r2 with
      | Some a, Some b => if a =? b then Some a else None
      | _, _ => None
      end
  | Rep r' lo (Some hi) _ =>
      match width r' with
      | Some a => if lo =? hi then Some (lo * a) else None
      | None => None
      end
  | Rep _ _ None _ => None
  | Group _ r' => width r'
  end.

Definition may_repeat (hi : option nat) (count : nat) : bool :=
  match hi with
  | Some n => count <? n
  | None => true
  end.

(** An iteration of an unbounded repetition has to consume input. *)
Definition iteration_ok (hi : option nat) (c c' : cursor) : bool :=
  match hi with
  | Some _ => true
  | None => pos c <? pos c'
  end.

Section Matcher.
Context {R : Type}.

(** The matcher of a body with the continuation [k] of what follows. *)
Definition matcher := cursor -> caps -> (cursor -> caps -> option R) -> option R.

(** [count] iterations of [body] are done; a greedy repetition tries
    one more first, a lazy one tries to stop first. *)
Fixpoint rep (body : matcher) (lo : nat) (hi : option nat) (greedy : bool)
    (k : cursor -> caps -> option R)
    (fuel count : nat) (c : cursor) (g : caps) {struct fuel} : option R :=
  match fuel with
  | 0 => None
  | S fuel' =>
      if greedy then
        match (if may_repeat hi count
               then body c g (fun c' g' =>
                      if iteration_ok hi c c'
                      then rep body lo hi greedy k fuel' (S count) c' g'
                      else None)
               else None) with
        | Some x => Some x
        | None => if lo <=? count then k c g else None
        end
      else
        match (if lo <=? count then k c g else None) with
        | Some x => Some x
        | None =>
            if may_repeat hi count
            then body c g (fun c' g' =>
                   if iteration_ok hi c c'
                   then rep body lo hi greedy k fuel' (S count) c' g'
                   else None)
            else None
        end
  end.
End Matcher.

Definition rep_fuel (lo : nat) (hi : option nat) (c : cursor) : nat :=
  match hi with
  | Some n => S n
  | None => S (lo + String.length (after c))
  end.

Fixpoint m {R : Type} (ic : bool) (r : regex) (c : cursor) (g : caps)
    (k : cursor -> caps -> option R) {struct r} : option R :=
  match r with
  | Eps => k c g
  | Chr x =>
      match after c with
      | String y _ => if chr_matches ic x y then k (advance c) g else None
      | "" => None
      end
  | Any =>
      match after c with
      | String y _ => if Ascii.eqb y newline then None else k (advance c) g
      | "" => None
      end
  | Cls neg its =>
      match after c with
      | String y _ => if cls_matches ic neg its y then k (advance c) g else None
      | "" => None
      end
  | Seq r1 r2 => m ic r1 c g (fun c' g' => m ic r2 c' g' k)
  | Alt r1 r2 =>
      match m ic r1 c g k with
      | Some x => Some x
      | None => m ic r2 c g k
      end
  | Rep r' lo hi greedy =>
      rep (fun c0 g0 k0 => m ic r' c0 g0 k0) lo hi greedy k
          (rep_fuel lo hi c) 0 c g
  | Group name r' =>
      m ic r' c g (fun c' g' => k c' (bind_group name (pos c) (pos c') g'))
  | Look true neg r' =>
      match m ic r' c g (fun _ g' => Some g') with
      | Some g' => if neg then None else k c g'
      | None => if neg then k c g else None
      end
  | Look false neg r' =>
      match width r' with
      | None => None
      | Some w =>
          match rewind w c with
          | None => if neg then k c g else None
          | Some c0 =>
              match m ic r' c0 g
                      (fun c' g' => if pos c' =? pos c then Some g' else None) with
              | Some g' => if neg then None else k c g'
              | None => if neg then k c g else None
              end
          end
      end
  | WordB neg => if xorb neg (at_boundary c) then k c g else None
  | Bos => if pos c =? 0 then k c g else None
  | Eos => match after c with "" => k c g | _ => None end
  | Eol =>
      match after c with
      | "" => k c g
      | String y "" => if Ascii.eqb y newline then k c g else None
      | _ => None
      end
  end.

(** *** Searching *)

(** What a successful match leaves: its span, the named groups and the
    position behind it. *)
Record found := Found {
  f_start : nat;
  f_end : nat;
  f_groups : caps;
  f_rest : cursor
}.

(** A match of [r] that starts at [c]; [must_advance] asks for a
    non-empty one. *)
Definition match_here (ic : bool) (r : regex) (c : cursor) (must_advance : bool)
  : option found :=
  m ic r c [] (fun c' g =>
    if must_advance && (pos c' =? pos c) then None
    else Some (Found (pos c) (pos c') g c')).

(** The leftmost match at or after [c]. *)
Fixpoint scan (ic : bool) (r : regex) (fuel : nat) (c : cursor) (must_advance : bool)
  : option found :=
  match match_here ic r c must_advance with
  | Some f => Some f
  | None =>
      match fuel, after c with
      | S fuel', String _ _ => scan ic r fuel' (advance c) false
      | _, _ => None
      end
  end.

Definition search_from (ic : bool) (r : regex) (c : cursor) (must_advance : bool)
  : option found :=
  scan ic r (String.length (after c)) c must_advance.

(** The non-overlapping matches from left to right; after an empty match
    the next one has to be non-empty or further on. *)
Fixpoint all_from (ic : bool) (r : regex) (fuel : nat) (c : cursor)
    (must_advance : bool) : list found :=
  match fuel with
  | 0 => []
  | S fuel' =>
      match search_from ic r c must_advance with
      | None => []
      | Some f => f :: all_from ic r fuel' (f_rest f) (f_end f =? f_start f)
      end
  end.

(** The names of the named groups in the order of their definition. *)
Fixpoint group_names (r : regex) : list string :=
  match r with
  | Seq r1 r2 | Alt r1 r2 => group_names r1 ++ group_names r2
  | Rep r' _ _ _ | Look _ _ r' => group_names r'
  | Group (Some n) r' => n :: group_names r'
  | Group None r' => group_names r'
  | _ => []
  end.

(** *** Pattern and match objects *)

(** A compiled pattern; [p_ic] is the flag [re.IGNORECASE]. *)
Record pattern := Pattern { p_text : string; p_ic : bool; p_code : regex }.

(** [re.compile(text, flags)] *)
Definition compile (text : string) (ic : bool) : result pattern :=
  match parse text with
  | Some r => Ok (Pattern text ic r)
  | None => Raise "re.error"
  end.

(** A pattern of the source that is compiled when the module is loaded. *)
Definition compiled (text : string) (ic : bool) : pattern :=
  Pattern text ic (default Eps (parse text)).

(** [p == q] on pattern objects. *)
Definition pattern_eqb (p q : pattern) : bool :=
  String.eqb (p_text p) (p_text q) && Bool.eqb (p_ic p) (p_ic q).

Record pymatch := PyMatch {
  subject : string;
  m_pattern : pattern;
  m_found : found
}.

(** [match.start()], [match.end()], [match.group()] *)
Definition start (mo : pymatch) : nat := f_start (m_found mo).
Definition end_ (mo : pymatch) : nat := f_end (m_found mo).
Definition group0 (mo : pymatch) : string :=
  Py.slice (start mo) (end_ mo) (subject mo).

(** [match.group(name)] for a group of the pattern; [None] when the group
    took no part in the match. *)
Definition group (mo : pymatch) (name : string) : option string :=
  match lookup_group name (f_groups (m_found mo)) with
  | Some (a, b) => Some (Py.slice a b (subject mo))
  | None => None
  end.

(** [match.start(name)] *)
Definition group_start (mo : pymatch) (name : string) : option nat :=
  fst <$> lookup_group name (f_groups (m_found mo)).

Definition has_group (mo : pymatch) (name : string) : bool :=
  bool_decide (name ∈ group_names (p_code (m_pattern mo))).

(** [match.groupdict().items()] *)
Definition groupdict (mo : pymatch) : list (string * option string) :=
  (fun n => (n, group mo n)) <$> group_names (p_code (m_pattern mo)).

(** [pattern.search(s)] *)
Definition search (p : pattern) (s : string) : option pymatch :=
  PyMatch s p <$> search_from (p_ic p) (p_code p) (start_of s) false.

(** [pattern.match(s)] *)
Definition match_ (p : pattern) (s : string) : option pymatch :=
  PyMatch s p <$> match_here (p_ic p) (p_code p) (start_of s) false.

(** [pattern.finditer(s)] *)
Definition finditer (p : pattern) (s : string) : list pymatch :=
  PyMatch s p <$>
    all_from (p_ic p) (p_code p) (2 * String.length s + 2) (start_of s) false.

(** The pieces of [s] between the matches [ms], [from] being the end of
    the previous match. *)
Fixpoint pieces (s : string) (from : nat) (ms : list pymatch) : list string :=
  match ms with
  | [] => [Py.drop from s]
  | mo :: ms' => Py.slice from (start mo) s :: pieces s (end_ mo) ms'
  end.

(** [pattern.split(s)] for a pattern without groups. *)
Definition split (p : pattern) (s : string) : list string :=
  pieces s 0 (finditer p s).

Fixpoint join (sep : string) (l : list string) : string :=
  match l with
  | [] => ""
  | [x] => x
  | x :: l' => x +:+ sep +:+ join sep l'
  end.

(** [pattern.sub(repl, s)] for a replacement text without escapes. *)
Definition sub (p : pattern) (repl s : string) : string :=
  join repl (split p s).

(** [re.escape(s)] *)
Definition is_special (c : ascii) : bool :=
  bool_decide (c ∈ ["(";")";"[";"]";"{";"}";"?";"*";"+";"-";"|";"^";"$";
                    "\";".";"&";"~";"#";" ";"009";"010";"013";"011";"012"]%char).

Fixpoint escape (s : string) : string :=
  match s with
  | "" => ""
  | String c s' =>
      if is_special c then String "\" (String c (escape s'))
      else String c (escape s')
  end.

End Re.

(** ** Python numbers *)

(** The floating-point numbers of the interpreter.  Only what the two
    modules use is asked for; [float_of_str] is [float(s)] and answers
    [None] where Python raises [ValueError]. *)
Class PyFloat := {
  pyfloat : Type;
  float_of_str : string -> option pyfloat;
  float_of_int : Z -> pyfloat;
  float_mul : pyfloat -> pyfloat -> pyfloat;
  float_cmp : pyfloat -> pyfloat -> comparison;
  int_float_cmp : Z -> pyfloat -> comparison;
  float_cmp_refl : forall f, float_cmp f f = Eq
}.

(** An [int] or a [float]. *)
Inductive pynum {F : PyFloat} :=
| PInt (z : Z)
| PFloat (f : pyfloat).

Definition num_cmp {F : PyFloat} (a b : pynum) : comparison :=
  match a, b with
  | PInt x, PInt y => Z.compare x y
  | PInt x, PFloat g => int_float_cmp x g
  | PFloat f, PInt y => CompOpp (int_float_cmp y f)
  | PFloat f, PFloat g => float_cmp f g
  end.

(** [a <= b], [a < b] and [a == b] on numbers. *)
Definition num_le {F : PyFloat} (a b : pynum) : bool :=
  match num_cmp a b with Gt => false | _ => true end.
Definition num_lt {F : PyFloat} (a b : pynum) : bool :=
  match num_cmp a b with Lt => true | _ => false end.
Definition num_eqb {F : PyFloat} (a b : pynum) : bool :=
  match num_cmp a b with Eq => true | _ => false end.

(** [float(s)] *)
Definition float {F : PyFloat} (s : string) : result pyfloat :=
  match float_of_str s with
  | Some f => Ok f
  | None => Raise "ValueError"
  end.

(** *** Decimal numbers as a model of [float]

    A number [mant * 10 ^ expo]; rounding is not modelled. *)
Module Decimal.

Record t := Dec { mant : Z; expo : Z }.

Definition scale (d : t) (e : Z) : Z := (mant d * 10 ^ (expo d - e))%Z.

Definition cmp (a b : t) : comparison :=
  let e := Z.min (expo a) (expo b) in
  Z.compare (scale a e) (scale b e).

Definition mul (a b : t) : t := Dec (mant a * mant b) (expo a + expo b).

Definition of_int (z : Z) : t := Dec z 0.

Definition signed (s : string) : bool * string :=
  match s with
  | String "-" s' => (true, s')
  | String "+" s' => (false, s')
  | _ => (false, s)
  end.

Definition apply_sign (neg : bool) (z : Z) : Z := if neg then (- z)%Z else z.

(** The exponent part, which follows the letter [e]. *)
Definition exponent (s : string) : option Z :=
  let '(neg, ds) := signed s in
  match ds with
  | "" => None
  | _ => if Py.all_digits ds
         then Some (apply_sign neg (Z.of_N (Py.digits_value 0 ds)))
         else None
  end.

(** Digits, an optional fraction and an optional exponent, with a sign
    in front and blanks around. *)
Definition of_str (s : string) : option t :=
  let '(neg, body) := signed (Py.strip s) in
  let '(ip, r1) := Re.read_digits body in
  let '(fp, r2) := match r1 with
                   | String "." r => Re.read_digits r
                   | _ => ("", r1)
                   end in
  match (ip +:+ fp)%string with
  | "" => None
  | ds =>
      let m := apply_sign neg (Z.of_N (Py.digits_value 0 ds)) in
      let e := (- Z.of_nat (String.length fp))%Z in
      match r2 with
      | "" => Some (Dec m e)
      | String c r3 =>
          if Ascii.eqb (Py.lower_char c) "e"
          then match exponent r3 with
               | Some x => Some (Dec m (e + x))
               | None => None
               end
          else None
      end
  end.

Definition cmp_int (z : Z) (d : t) : comparison := cmp (of_int z) d.

End Decimal.

(** ** Collaborators *)

(** A record of [date_finder], [time_finder] or [size_measurement_finder]:
    the matched text, its character offsets in the sentence that was
    searched and, for a size measurement, the unit. *)
Record FinderValue := {
  fv_text : string;
  fv_start : nat;
  fv_end : nat;
  fv_units : string
}.

(** The finders of [nlp/algorithms/finder] that the two modules import;
    each reads a sentence and lists what it found. *)
Class Finders := {
  run_date_finder : string -> list FinderValue;
  run_size_measurement : string -> list FinderValue;
  run_time_finder : string -> list FinderValue
}.

(** Python's [sorted], which is stable: [le x y] tells that [x] may stand
    before [y]. *)
Section Sorted.
Context {A : Type} (le : A -> A -> bool).

Fixpoint insert_by (x : A) (l : list A) : list A :=
  match l with
  | [] => [x]
  | y :: l' => if le x y then x :: y :: l' else y :: insert_by x l'
  end.

Definition sorted_with (l : list A) : list A := foldr insert_by [] l.
End Sorted.

(** [sorted(l, key=key)] *)
Definition sorted_by {A} (key : A -> nat) (l : list A) : list A :=
  sorted_with (fun x y => key x <=? key y) l.

(** [sorted(l, key=key, reverse=True)] *)
Definition sorted_by_desc {A} (key : A -> nat) (l : list A) : list A :=
  sorted_with (fun x y => key y <=? key x) l.

(** ** [finder_overlap] *)

Module FinderOverlap.

(** [overlap.Candidate(start, end, match_text, regex, other=match)] *)
Record Candidate := {
  start : nat;
  end_ : nat;
  match_text : string;
  regex : Re.pattern;
  other : Re.pymatch
}.

Definition has_overlap (a b : Candidate) : bool :=
  (start a <? end_ b) && (start b <? end_ a).

(** Modelled from the spec: [finder_overlap.remove_overlap] is not among
    the sources.  With [keep_longest=False] the candidates arrive in
    ascending order of span length and, among overlapping candidates,
    the one with the smallest span is retained: a candidate is kept
    unless it overlaps one that was kept before it. *)
Fixpoint keep_shortest (kept : list Candidate) (candidates : list Candidate)
  : list Candidate :=
  match candidates with
  | [] => kept
  | c :: cs =>
      if existsb (has_overlap c) kept then keep_shortest kept cs
      else keep_shortest (kept ++ [c]) cs
  end.

Definition remove_overlap (candidates : list Candidate) : list Candidate :=
  keep_shortest [] candidates.

End FinderOverlap.

(** ** [covid_finder.py] *)

Module CovidFinder.
Import FinderOverlap.

Definition _TRACE : bool := false.

Definition _STR_THOUSAND := "thousand".
Definition _STR_MILLION := "million".

Definition _THROWAWAY_SET : gset string := list_to_set [
  "i"; "me"; "my"; "myself"; "we"; "our"; "ours"; "ourselves"; "you"; "your";
  "yours"; "yourself"; "yourselves"; "he"; "him"; "his"; "himself"; "she";
  "her"; "hers"; "herself"; "it"; "its"; "itself"; "they"; "them"; "their";
  "theirs"; "themselves"; "what"; "which"; "who"; "whom"; "this"; "that";
  "these"; "those"; "am"; "is"; "are"; "was"; "were"; "be"; "been"; "being";
  "have"; "has"; "had"; "having"; "do"; "does"; "did"; "doing"; "a"; "an";
  "the"; "and"; "but"; "if"; "or"; "because"; "as"; "until"; "while"; "of";
  "at"; "by"; "for"; "with"; "against"; "between"; "into"; "through";
  "during"; "before"; "after"; "above"; "below"; "from"; "up"; "down";
  "in"; "out"; "on"; "off"; "over"; "under"; "again"; "further"; "then";
  "once"; "here"; "there"; "when"; "where"; "why"; "how"; "all"; "any";
  "both"; "each"; "few"; "more"; "most"; "other"; "some"; "such"; "no";
  "nor"; "not"; "only"; "own"; "same"; "so"; "than"; "too"; "very"; "can";
  "will"; "just"; "dont"; "should"; "shouldve"; "now"; "arent"; "couldnt";
  "didnt"; "doesnt"; "hadnt"; "hasnt"; "havent"; "isnt"; "shouldnt";
  "wasnt"; "werent"; "wont"; "wouldnt" ].

(** *** Pattern texts *)

Definition _str_word := "[-a-z]+\.?\s?".
Definition _str_words := "(" +:+ _str_word +:+ "){0,5}?".
Definition _str_one_or_more_words := "(" +:+ _str_word +:+ "){1,5}?".

Definition _str_tnum_digit := "\b(one|two|three|four|five|six|seven|eight|nine|zero)".
Definition _str_tnum_10s :=
  "\b(ten|eleven|twelve|(thir|four|fif|six|seven|eight|nine)teen)".
Definition _str_tnum_20s := "\b(twenty[-\s]?" +:+ _str_tnum_digit +:+ "|twenty)".
Definition _str_tnum_30s := "\b(thirty[-\s]?" +:+ _str_tnum_digit +:+ "|thirty)".
Definition _str_tnum_40s := "\b(forty[-\s]?" +:+ _str_tnum_digit +:+ "|forty)".
Definition _str_tnum_50s := "\b(fifty[-\s]?" +:+ _str_tnum_digit +:+ "|fifty)".
Definition _str_tnum_60s := "\b(sixty[-\s]?" +:+ _str_tnum_digit +:+ "|sixty)".
Definition _str_tnum_70s := "\b(seventy[-\s]?" +:+ _str_tnum_digit +:+ "|seventy)".
Definition _str_tnum_80s := "\b(eighty[-\s]?" +:+ _str_tnum_digit +:+ "|eighty)".
Definition _str_tnum_90s := "\b(ninety[-\s]?" +:+ _str_tnum_digit +:+ "|ninety)".
Definition _str_tnum_100s :=
  _str_tnum_digit +:+ "[-\s]hundred[-\s](and[-\s])?" +:+
  "(" +:+
  _str_tnum_90s +:+ "|" +:+ _str_tnum_80s +:+ "|" +:+ _str_tnum_70s +:+ "|" +:+
  _str_tnum_60s +:+ "|" +:+ _str_tnum_50s +:+ "|" +:+ _str_tnum_40s +:+ "|" +:+
  _str_tnum_30s +:+ "|" +:+ _str_tnum_20s +:+ "|" +:+ _str_tnum_20s +:+ "|" +:+
  _str_tnum_10s +:+ "|" +:+ _str_tnum_digit +:+
  ")?".
Definition _str_tnum :=
  "(" +:+
  _str_tnum_100s +:+ "|" +:+ _str_tnum_90s +:+ "|" +:+ _str_tnum_80s +:+ "|" +:+
  _str_tnum_70s +:+ "|" +:+ _str_tnum_60s +:+ "|" +:+ _str_tnum_50s +:+ "|" +:+
  _str_tnum_40s +:+ "|" +:+ _str_tnum_30s +:+ "|" +:+ _str_tnum_20s +:+ "|" +:+
  _str_tnum_10s +:+ "|" +:+ _str_tnum_digit +:+
  ")(?!\-)".

Definition _regex_hundreds :=
  Re.compiled (_str_tnum_digit +:+ "[-\s]?hundred[-\s]?") true.

Definition _tnum_to_int_map : gmap string Z := list_to_map [
  ("one", 1); ("two", 2); ("three", 3); ("four", 4); ("five", 5); ("six", 6);
  ("seven", 7); ("eight", 8); ("nine", 9); ("ten", 10); ("eleven", 11);
  ("twelve", 12); ("thirteen", 13); ("fourteen", 14); ("fifteen", 15);
  ("sixteen", 16); ("seventeen", 17); ("eighteen", 18); ("nineteen", 19);
  ("twenty", 20); ("thirty", 30); ("forty", 40); ("fifty", 50);
  ("sixty", 60); ("seventy", 70); ("eighty", 80); ("ninety", 90);
  ("zero", 0) ]%Z.

Definition _str_enum :=
  "(first|second|third|fourth|fifth|sixth|seventh|eighth|" +:+
  "ninth|tenth|eleventh|twelfth|" +:+
  "(thir|four|fif|six|seven|eight|nine)teenth|" +:+
  "1[0-9]th|[2-9]0th|[4-9]th|3rd|2nd|1st|" +:+
  "(twen|thir|for|fif|six|seven|eigh|nine)tieth)".

Definition _enum_to_int_map : gmap string Z := list_to_map [
  ("zeroth", 0);
  ("first", 1); ("1st", 1); ("second", 2); ("2nd", 2); ("third", 3); ("3rd", 3);
  ("fourth", 4); ("4th", 4); ("fifth", 5); ("5th", 5); ("sixth", 6); ("6th", 6);
  ("seventh", 7); ("7th", 7); ("eighth", 8); ("8th", 8); ("ninth", 9); ("9th", 9);
  ("tenth", 10); ("10th", 10); ("eleventh", 11); ("11th", 11);
  ("twelfth", 12); ("12th", 12);
  ("thirteenth", 13); ("13th", 13); ("fourteenth", 14); ("14th", 14);
  ("fifteenth", 15); ("15th", 15); ("sixteenth", 16); ("16th", 16);
  ("seventeenth", 17); ("17th", 17); ("eighteenth", 18); ("18th", 18);
  ("ninenteenth", 19); ("19th", 19); ("twentieth", 20); ("20th", 20);
  ("thirtieth", 30); ("30th", 30); ("fortieth", 40); ("40th", 40);
  ("fiftieth", 50); ("50th", 50); ("sixtieth", 60); ("60th", 60);
  ("seventieth", 70); ("70th", 70); ("eightieth", 80); ("80th", 80);
  ("ninetieth", 90); ("90th", 90) ]%Z.

Definition _str_int := "(?<!covid)(?<!covid-)(?<!\d)(\d{1,3}(,\d{3})+|(?<!,)\d+)".

Definition _str_float_word :=
  "(?<!\d)(?P<floatnum>\d+(\.\d+)?)\s" +:+
  "(?P<floatunits>(thousand|million))".

Definition _make_num_regex (a b c : string) : string :=
  "(" +:+
  "(?P<" +:+ a +:+ ">" +:+ _str_int +:+ ")|" +:+
  "(?P<" +:+ b +:+ ">" +:+ _str_tnum +:+ ")|" +:+
  "(?P<" +:+ c +:+ ">" +:+
  "(" +:+ _str_enum +:+ "(?= case)" +:+ "|" +:+
  _str_enum +:+ "(?= (confirmed|positive) case)" +:+
  "))" +:+
  ")(?!%)(?! %)(?! percent)(?! pct)".

Definition _str_num :=
  "(" +:+ "(\bfrom\s)?" +:+
  _make_num_regex "int_from" "tnum_from" "enum_from" +:+
  "\s?to\s?" +:+
  _make_num_regex "int_to" "tnum_to" "enum_to" +:+
  "|" +:+ "\b(?P<no>no)\b" +:+ "|" +:+ _str_float_word +:+
  "|" +:+ _make_num_regex "int" "tnum" "enum" +:+ ")".

Definition _str_duration :=
  "(?<!\d)\d+\s(year|yr\.?|month|mo\.?|week|wk\.?|day|" +:+
  "hour|hr\.?|minute|min\.?|second|sec\.?)(?![a-z])s?".
Definition _regex_duration := Re.compiled _str_duration true.

Definition _str_am_pm := "[ap]\.?m\.?".
Definition _str_tz := "(ak|ha|e|c|m|p|h)[sd]t\b".
Definition _str_clock :=
  "(?<!\d)(2[0-3]|1[0-9]|0[0-9])[-:\s][0-5][0-9]\s?" +:+
  _str_am_pm +:+ "\s?" +:+ _str_tz.
Definition _regex_clock := Re.compiled _str_clock true.

Definition _str_coronavirus := "(covid([-\s]?19)?|(novel\s)?(corona)?virus)\s?".

Definition _str_who :=
  "\b(babies|baby|boy|captive|child|children|citizen|client|" +:+
  "convict|customer|detainee|employee|girl|guest|holidaymaker|" +:+
  "individual|infant|inhabitant|inmate|internee|laborer|man|men|native|" +:+
  "national|neighbor|newborn|occupant|passenger|patient|patron|people|" +:+
  "personnel|prisoner|regular|resident|shopper|staff|tourist|traveler|" +:+
  "victim|visitor|voter|woman|women|worker)s?\s?".
Definition _regex_who := Re.compiled _str_who true.

Definition _str_case0 :=
  _str_num +:+ "\s" +:+ "(?P<words>" +:+ _str_words +:+ ")" +:+
  "(?<!\bnot tested )positive\sfor\s" +:+ _str_words +:+ _str_coronavirus.
Definition _regex_case0 := Re.compiled _str_case0 true.

Definition _str_case1 :=
  _str_num +:+ "\s" +:+ "(?P<words>" +:+ _str_words +:+ ")" +:+
  "(?<!\bnot )tested\spositive".
Definition _regex_case1 := Re.compiled _str_case1 true.

Definition _str_case2 :=
  _str_num +:+ "\s" +:+ _str_words +:+ _str_coronavirus +:+ "cases?".
Definition _regex_case2 := Re.compiled _str_case2 true.

Definition _str_case3 :=
  _str_num +:+ "\s" +:+ _str_words +:+ "cases?\s" +:+ _str_words +:+ _str_coronavirus.
Definition _regex_case3 := Re.compiled _str_case3 true.

Definition _str_case4 :=
  _str_num +:+ "\s" +:+ _str_who +:+ "with\s" +:+ _str_coronavirus.
Definition _regex_case4 := Re.compiled _str_case4 true.

Definition _str_case5 :=
  "(total|number\sof)\s" +:+ _str_words +:+ _str_coronavirus +:+ "cases?\s" +:+
  _str_words +:+ _str_num.
Definition _regex_case5 := Re.compiled _str_case5 true.

Definition _str_case6 :=
  "(total|number\sof)\s" +:+ _str_words +:+ "cases?\s" +:+ _str_words +:+ _str_num.
Definition _regex_case6 := Re.compiled _str_case6 true.

Definition _str_case7 :=
  _str_coronavirus +:+ "cases?\s" +:+
  "(?P<words>" +:+ _str_one_or_more_words +:+ ")" +:+ _str_num.
Definition _regex_case7 := Re.compiled _str_case7 true.

Definition _str_case8 := "(cases|total)\s(at|to(\sover))\s" +:+ _str_num.
Definition _regex_case8 := Re.compiled _str_case8 true.

Definition _str_case9 := _str_num +:+ "\s?" +:+ _str_words +:+ "cases?".
Definition _regex_case9 := Re.compiled _str_case9 true.

Definition _CASE_REGEXES : list Re.pattern := [
  _regex_case0; _regex_case1; _regex_case2; _regex_case3; _regex_case4;
  _regex_case5; _regex_case6; _regex_case7; _regex_case8; _regex_case9 ].

(** The pattern texts that the module compiles, when loaded or when
    called. *)
Definition pattern_texts : list string := [
  _str_tnum_digit +:+ "[-\s]?hundred[-\s]?"; _str_duration; _str_clock;
  _str_who; _str_case0; _str_case1; _str_case2; _str_case3; _str_case4;
  _str_case5; _str_case6; _str_case7; _str_case8; _str_case9;
  "\s+"; "\A\d+\Z"; "(?<!\d)(0?[0-9]|1[0-2])[-/]([0-2][0-9]|3[01])";
  "\sw/\s"; "[\']"; "[&(){}\[\]:~/@;]"; "\D,\D"; ","; "\-"; "test(ed)?" ].

(** *** Cleaning the sentence *)

Section Functions.
Context {F : PyFloat} {E : Finders}.

(** [re.sub(pattern, repl, s)] with a pattern text of the source. *)
Definition re_sub (text repl s : string) : string :=
  Re.sub (Re.compiled text false) repl s.

Definition _erase (sentence : string) (candidates : list Candidate)
  : string :=
  let new_sentence :=
    foldl (fun new_sentence c =>
             let s1 := Py.take (start c) new_sentence in
             let s2 := " " in
             let s3 := Py.drop (end_ c) new_sentence in
             s1 +:+ s2 +:+ s3)
          sentence candidates in
  re_sub "\s+" " " new_sentence.

Definition _erase_segment (sentence : string) (start end_ : nat) : string :=
  let s1 := Py.take start sentence in
  let s2 := Py.spaces (end_ - start) in
  let s3 := Py.drop end_ sentence in
  s1 +:+ s2 +:+ s3.

Definition erase_segments (sentence : string) (segments : list (nat * nat))
  : string :=
  foldl (fun sentence '(start, end_) => _erase_segment sentence start end_)
        sentence segments.

Definition spans (ms : list Re.pymatch) : list (nat * nat) :=
  (fun mo => (Re.start mo, Re.end_ mo)) <$> ms.

Definition _erase_time_expressions (sentence : string) : string :=
  let segments :=
    spans (Re.finditer _regex_duration sentence)
    ++ spans (Re.finditer _regex_clock sentence) in
  erase_segments sentence segments.

Definition _erase_dates (sentence : string) : string :=
  let dates := run_date_finder sentence in
  let all_digits := Re.compiled "\A\d+\Z" false in
  let sentence :=
    foldl (fun sentence date =>
             match Re.match_ all_digits (fv_text date) with
             | Some _ => sentence
             | None => _erase_segment sentence (fv_start date) (fv_end date)
             end)
          sentence dates in
  let _str_month_day := "(?<!\d)(0?[0-9]|1[0-2])[-/]([0-2][0-9]|3[01])" in
  let _regex_month_day := Re.compiled _str_month_day false in
  let segments := spans (Re.finditer _regex_month_day sentence) in
  erase_segments sentence segments.

Definition _cleanup (sentence : string) : string :=
  let sentence := Py.lower sentence in
  let sentence := _erase_dates sentence in
  let sentence := _erase_time_expressions sentence in
  let sentence := re_sub "\sw/\s" " with " sentence in
  let sentence := re_sub "[\']" "" sentence in
  let sentence := re_sub "[&(){}\[\]:~/@;]" " " sentence in
  let comma := Re.compiled "\D,\D" true in
  let comma_pos := (fun mo => Re.start mo + 1) <$> Re.finditer comma sentence in
  let sentence :=
    foldl (fun sentence pos =>
             Py.take pos sentence +:+ " " +:+ Py.drop (pos + 1) sentence)
          sentence comma_pos in
  re_sub "\s+" " " sentence.

(** *** Numbers in words *)

Definition _to_int (str_int : string) : result Z :=
  match Py.find "," _str_int with
  | None => Py.int str_int
  | Some _ => let text := re_sub "," "" str_int in Py.int text
  end.

Definition _enum_to_int (_str_enum : string) : option Z :=
  let text := Py.strip _str_enum in
  _enum_to_int_map !! text.

(** [d[k]] *)
Definition getitem (d : gmap string Z) (k : string) : result Z :=
  match d !! k with
  | Some v => Ok v
  | None => Raise "KeyError"
  end.

Definition _tnum_to_int (_str_tnum : string) : result (option Z) :=
  let text := re_sub "\-" " " _str_tnum in
  let text := re_sub "\s+" " " text in
  let text := Py.strip text in
  match _tnum_to_int_map !! text with
  | Some v => Ok (Some v)
  | None =>
      let hundreds :=
        match Re.match_ _regex_hundreds text with
        | Some mo =>
            match Py.split (Re.group0 mo) with
            | w :: _ =>
                let tnum := Py.strip w in
                match _tnum_to_int_map !! tnum with
                | Some v => Ok (inr (v, Py.strip (Py.drop (Re.end_ mo) text)))
                | None => if _TRACE then Ok (inl tt) else Ok (inr (0%Z, text))
                end
            | [] => Raise "IndexError"
            end
        | None => Ok (inr (0%Z, text))
        end in
      h ← hundreds;
      match h with
      | inl _ => Ok None
      | inr (val_h, text) =>
          if 0 <? String.length text then
            let text := match Py.find "and" text with
                        | Some pos => Py.strip (Py.drop (pos + 3) text)
                        | None => text
                        end in
            let words := Py.split text in
            if negb (length words <=? 2) then Raise "AssertionError"
            else
              match words with
              | [w0; w1] =>
                  if negb (bool_decide (is_Some (_tnum_to_int_map !! w0)))
                     || negb (bool_decide (is_Some (_tnum_to_int_map !! w1)))
                     then (if _TRACE then Ok None
                           else val_t ← getitem _tnum_to_int_map w0;
                                val_o ← getitem _tnum_to_int_map w1;
                                Ok (Some (100 * val_h + val_t + val_o)%Z))
                  else val_t ← getitem _tnum_to_int_map w0;
                       val_o ← getitem _tnum_to_int_map w1;
                       Ok (Some (100 * val_h + val_t + val_o)%Z)
              | w0 :: _ =>
                  if negb (bool_decide (is_Some (_tnum_to_int_map !! w0)))
                  then (if _TRACE then Ok None
                        else val_o ← getitem _tnum_to_int_map w0;
                             Ok (Some (100 * val_h + 0 + val_o)%Z))
                  else val_o ← getitem _tnum_to_int_map w0;
                       Ok (Some (100 * val_h + 0 + val_o)%Z)
              | [] => Raise "IndexError"
              end
          else Ok (Some (100 * val_h + 0 + 0)%Z)
      end
  end.

(** *** Candidates *)

(** The body of the loop over the matches of one pattern: [None] is
    [continue]. *)
Definition candidate_of (sentence : string) (regex : Re.pattern)
    (mo : Re.pymatch) : result (option Candidate) :=
  let match_text := Py.strip (Re.group0 mo) in
  skip01 ←
    (if Re.pattern_eqb _regex_case0 regex || Re.pattern_eqb _regex_case1 regex
     then
       match Re.group mo "words" with
       | None => Raise "AttributeError"
       | Some words =>
           let words := Py.strip words in
           let words := re_sub "test(ed)?" " " words in
           let match2 := Re.search _regex_who words in
           Ok (negb (bool_decide (is_Some match2)) && negb (Py.isspace words))
       end
     else Ok false);
  if skip01 : bool then Ok None
  else
    let mo :=
      if Re.pattern_eqb _regex_case2 regex then
        match Py.find " " match_text with
        | Some offset =>
            let sentence2 := Py.drop (Re.start mo + offset) sentence in
            match Re.search _regex_case2 sentence2 with
            | Some match2 => match2
            | None => mo
            end
        | None => mo
        end
      else mo in
    skip7 ←
      (if Re.pattern_eqb _regex_case7 regex
       then
         match Re.group mo "words" with
         | None => Raise "AttributeError"
         | Some w =>
             let words := Py.strip <$> Py.split w in
             match last words with
             | Some last_word => Ok (bool_decide (last_word ∈ _THROWAWAY_SET))
             | None => Raise "IndexError"
             end
         end
       else Ok false);
    if skip7 : bool then Ok None
    else
      let start := Re.start mo in
      let end_ := start + String.length match_text in
      Ok (Some (Build_Candidate start end_ match_text regex mo)).

Definition _regex_match (sentence : string) (regex_list : list Re.pattern)
  : result (list Candidate) :=
  candidates ←
    rfold (fun candidates regex =>
             rfold (fun candidates mo =>
                      c ← candidate_of sentence regex mo;
                      Ok (candidates ++ option_list c))
                   candidates (Re.finditer regex sentence))
          [] regex_list;
  if length candidates =? 0 then Ok []
  else
    let candidates := sorted_by (fun x => end_ x - start x) candidates in
    let pruned_candidates := remove_overlap candidates in
    Ok pruned_candidates.

(** *** The entry point *)

Record CovidTuple := {
  sentence : string;
  case_start : option nat;
  case_end : option nat;
  hosp_start : option nat;
  hosp_end : option nat;
  death_start : option nat;
  death_end : option nat;
  text_case : option string;
  text_hosp : option string;
  text_death : option string;
  value_case : option pynum;
  value_hosp : option pynum;
  value_death : option pynum
}.

(** The conversion of one entry [(k, v)] of [match.groupdict()], where
    [v] is not [None]: the value to append, if any. *)
Definition convert_capture (groupdict : list (string * option string))
    (k v : string) : result (option pynum) :=
  let val := if String.eqb "no" k then Some (PInt 0) else None in
  if String.eqb "int_to" k || String.eqb "int" k then
    z ← _to_int v; Ok (Some (PInt z))
  else if String.eqb "tnum_to" k || String.eqb "tnum" k then
    z ← _tnum_to_int v; Ok (PInt <$> (z : option Z))
  else if String.eqb "enum_to" k || String.eqb "enum" k then
    Ok (PInt <$> _enum_to_int v)
  else if String.eqb "floatnum" k then
    val ← float v;
    match list_find (fun kv : string * option string => kv.1 = "floatunits")
                    groupdict with
    | Some (_, (_, str_units)) =>
        if bool_decide (str_units = Some _STR_THOUSAND)
        then Ok (Some (PFloat (float_mul val (float_of_int 1000))))
        else if bool_decide (str_units = Some _STR_MILLION)
        then Ok (Some (PFloat (float_mul val (float_of_int 1000000))))
        else Ok (Some (PFloat val))
    | None => Ok (Some (PFloat val))
    end
  else Ok val.

(** The loop over [match.groupdict().items()] for one candidate: the
    values it appends to [value_case_list]. *)
Definition case_values (groupdict : list (string * option string))
  : result (list pynum) :=
  rfold (fun values '(k, v) =>
           match v with
           | None => Ok values
           | Some v =>
               val ← convert_capture groupdict k v;
               match val with
               | Some x => Ok (values ++ [x])
               | None => Ok values
               end
           end)
        [] groupdict.

(** [l.pop(0)] *)
Definition pop0 {A} (l : list A) : result (A * list A) :=
  match l with
  | x :: l' => Ok (x, l')
  | [] => Raise "IndexError"
  end.

Fixpoint assemble (cleaned_sentence : string) (count : nat)
    (case_start_list case_end_list : list nat) (text_case_list : list string)
    (value_case_list : list pynum) : result (list CovidTuple) :=
  match count with
  | 0 => Ok []
  | S count' =>
      '(case_start, case_start_list) ← pop0 case_start_list;
      '(case_end, case_end_list) ← pop0 case_end_list;
      '(text_case, text_case_list) ← pop0 text_case_list;
      '(value_case, value_case_list) ← pop0 value_case_list;
      let covid_tuple := {|
        sentence := cleaned_sentence;
        case_start := Some case_start;
        case_end := Some case_end;
        hosp_start := None;
        hosp_end := None;
        death_start := None;
        death_end := None;
        text_case := Some text_case;
        text_hosp := None;
        text_death := None;
        value_case := Some value_case;
        value_hosp := None;
        value_death := None
      |} in
      results ← assemble cleaned_sentence count' case_start_list case_end_list
                         text_case_list value_case_list;
      Ok (covid_tuple :: results)
  end.

(** [run(sentence)]; the result is the list that [json.dumps] prints. *)
Definition run (sentence : string) : result (list CovidTuple) :=
  let cleaned_sentence := _cleanup sentence in
  case_candidates ← _regex_match cleaned_sentence _CASE_REGEXES;
  let remaining_sentence := _erase cleaned_sentence case_candidates in
  let case_start_list := (fun c => Re.start (other c)) <$> case_candidates in
  let case_end_list := (fun c => Re.end_ (other c)) <$> case_candidates in
  let text_case_list := (fun c => Re.group0 (other c)) <$> case_candidates in
  value_case_list ←
    rfold (fun values c =>
             vs ← case_values (Re.groupdict (other c)); Ok (values ++ vs))
          [] case_candidates;
  let case_count := length value_case_list in
  let hosp_count := 0 in
  let death_count := 0 in
  let count := Nat.max (Nat.max case_count hosp_count) death_count in
  results ← assemble cleaned_sentence count case_start_list case_end_list
                     text_case_list value_case_list;
  Ok (sorted_by (fun x => default 0 (case_start x)) results).

End Functions.

End CovidFinder.

(** ** [value_extractor.py] *)

(** A JSON document, as [json.dumps] prints it. *)
#[warnings="-register-all"]
Inductive json {F : PyFloat} :=
| JNull
| JBool (b : bool)
| JNum (n : pynum)
| JStr (s : string)
| JList (l : list json)
| JDict (fields : list (string * json)).

(** [d.get(k)] on a JSON object. *)
Fixpoint json_field {F : PyFloat} (k : string) (fields : list (string * json))
  : option json :=
  match fields with
  | [] => None
  | (k', v) :: fields' => if String.eqb k k' then Some v else json_field k fields'
  end.

Module ValueExtractor.

Definition _TRACE : bool := false.

Definition STR_APPROX := "APPROX".
Definition STR_LT := "LESS_THAN".
Definition STR_LTE := "LESS_THAN_OR_EQUAL".
Definition STR_GT := "GREATER_THAN".
Definition STR_GTE := "GREATER_THAN_OR_EQUAL".
Definition STR_EQUAL := "EQUAL".
Definition STR_RANGE := "RANGE".
Definition STR_FRACTION_RANGE := "FRACTION_RANGE".

(** *** Pattern texts *)

Definition _regex_whitespace_replace := Re.compiled "[%(){}\[\]]" false.

Definition _str_text_word := "[-a-zA-Z.]+".
Definition _str_enumlist_value := "[-a-zA-Z:\d/\+()]+".
Definition _str_words := "([-a-zA-Z.]+\s+){0,8}?".
Definition _str_digits := "\d+".
Definition _str_op := "((is|of|was|approx\.?|approximately|~=|>=|<=|[<>=~\?])\s*)?".
Definition _str_approx := "(~=|~|\b(approx\.?|approximately|near(ly)?|about))".
Definition _str_equal := "\b(equal|eq\.?)".
Definition _str_less_than := "\b(less\s+than|lt\.?|up\s+to|under)".
Definition _str_gt_than := "\b(greater\s+than|gt\.?|exceed(ing|s)|above|over)".
Definition _str_lt := "(<|" +:+ _str_less_than +:+ ")".
Definition _str_lte := "(<=|" +:+ _str_less_than +:+ "\s+or\s+" +:+ _str_equal +:+ ")".
Definition _str_gt := "(>|" +:+ _str_gt_than +:+ ")".
Definition _str_gte := "(>=|" +:+ _str_gt_than +:+ "\s+or\s+" +:+ _str_equal +:+ ")".
Definition _str_separator := "([-:=\s]\s*)?".

Definition _str_comma_num := "\d{1,3}(,\d{3})+".
Definition _str_int_float := "(\d+(\.\d+)?|\.\d+)".
Definition _str_num := _str_comma_num +:+ "|" +:+ _str_int_float.

Definition _str_cond := "(?P<cond>" +:+ _str_op +:+ ")".
Definition _str_suffix := "(k|K|s|\'s)?".
Definition _str_suffix1 := "(?P<suffix1>" +:+ _str_suffix +:+ ")".
Definition _str_suffix2 := "(?P<suffix2>" +:+ _str_suffix +:+ ")".
Definition _str_val :=
  "(?P<val>" +:+ _str_num +:+ ")(?P<suffix>" +:+ _str_suffix +:+ ")".
Definition _str_range_sep := "\s*(-|to(\s+the)?)\s*".
Definition _str_range :=
  "(?P<num1>" +:+ _str_num +:+ ")" +:+ _str_suffix1 +:+
  _str_range_sep +:+
  "(?P<num2>" +:+ _str_num +:+ ")" +:+ _str_suffix2.

Definition _str_bf := "\b(between|from)\s*".
Definition _str_bf_sep := "\s*(-|to|and)\s*".

Definition _str_bf_range :=
  _str_bf +:+
  "(?P<num1>" +:+ _str_num +:+ ")" +:+ _str_suffix1 +:+ _str_bf_sep +:+
  "(?P<num2>" +:+ _str_num +:+ ")" +:+ _str_suffix2.

Definition _str_units_range :=
  "(" +:+ _str_bf +:+ ")?" +:+
  "(?P<num1>" +:+ _str_num +:+ ")" +:+ "\s*" +:+
  "(?P<units1>(" +:+ _str_text_word +:+ ")?)" +:+
  _str_bf_sep +:+
  "(?P<num2>" +:+ _str_num +:+ ")" +:+ "\s*" +:+
  "(?P<units2>" +:+ _str_text_word +:+ ")".

Definition _str_fraction := "\d+\s*/\s*\d+".
Definition _str_fraction_range :=
  "(?P<frac1>" +:+ _str_fraction +:+ ")(\'?s)?" +:+
  _str_range_sep +:+
  "(?P<frac2>" +:+ _str_fraction +:+ ")(\'?s)?".

Definition _str_bf_fraction_range :=
  _str_bf +:+
  "(?P<frac1>" +:+ _str_fraction +:+ ")(\'?s)?" +:+
  _str_bf_sep +:+
  "(?P<frac2>" +:+ _str_fraction +:+ ")(\'?s)?".

(** The bracket expression of common punctuation; its double quote is
    written as character 34. *)
Definition _str_punct := "[.;,?\'\" +:+ String "034" "" +:+ "!$%~]".
Definition _regex_punct := Re.compiled _str_punct false.

Definition _regex_digits := Re.compiled _str_digits false.
Definition _regex_approx := Re.compiled _str_approx false.
Definition _regex_lt := Re.compiled _str_lt false.
Definition _regex_lte := Re.compiled _str_lte false.
Definition _regex_gt := Re.compiled _str_gt false.
Definition _regex_gte := Re.compiled _str_gte false.

Definition _str_vitals :=
  "\b(temperature|temp|t|hr|bp|pulse|p|rr?|" +:+
  "o2sats?|o2 sats?|spo2|o2|fio2|wt|ht)".
Definition _regex_vitals := Re.compiled _str_vitals false.

Definition _str_duration_start :=
  "\b(for|over|last|lasting|lasted|within|" +:+
  "q\.?|each|every|once)".
Definition _str_duration_amt :=
  "(hours?|hrs|hr\.?|minutes?|mins|min\.?|" +:+
  "seconds?|secs|sec\.?|" +:+
  "days?|weeks?|wks|wk\.?|" +:+
  "months?|mos|mo\.|years?|yrs\.?|yr\.?)".

Definition _str_duration_range :=
  _str_duration_start +:+
  "\s*" +:+
  _str_words +:+
  _str_range +:+
  "\s*" +:+
  "(?P<dur_amt>" +:+ _str_duration_amt +:+ ")".

Definition _str_duration1 :=
  "(?P<dur_num1>" +:+ _str_num +:+ ")" +:+
  "\s*" +:+
  "(?P<dur_amt1>" +:+ _str_duration_amt +:+ ")".

Definition _str_duration2 :=
  _str_duration_start +:+
  "\s*" +:+
  _str_words +:+
  "(" +:+ _str_num +:+ ")" +:+
  "\s*" +:+
  _str_duration_amt.

Definition _str_duration :=
  _str_duration_range +:+ "|" +:+
  _str_duration1 +:+ "|" +:+ _str_duration2.
Definition _regex_duration := Re.compiled _str_duration false.

(** The pattern texts that the module compiles, apart from those built
    from a query term. *)
Definition pattern_texts : list string := [
  "[%(){}\[\]]"; _str_punct; _str_digits; _str_approx; _str_lt; _str_lte;
  _str_gt; _str_gte; _str_vitals; _str_duration; _str_bf; "[,;\s]+"; ",";
  "\A\d+\Z"; "\A\d+[\-\+]\d+\Z"; "\A[\d\.]+\Z";
  "(@|\b(at|around))\s*" +:+ "(approximately|approx\.?)?\d+\Z" ].

(** The default bounds [str(sys.float_info.max)] and its negation. *)
Definition str_float_max := "1.7976931348623157e+308".

Section Functions.
Context {F : PyFloat} {E : Finders}.

(** A field of a result: a number, a text or [EMPTY_FIELD]. *)
Inductive pyval :=
| VNone
| VNum (n : pynum)
| VStr (s : string).

Record ValueMeasurement := {
  text : string;
  start : nat;
  end_ : nat;
  num1 : pyval;
  num2 : pyval;
  cond : option string;
  matching_term : string
}.

(** [a == b] on fields and on the tuples of results. *)
Definition pyval_eqb (a b : pyval) : bool :=
  match a, b with
  | VNone, VNone => true
  | VNum x, VNum y => num_eqb x y
  | VStr s, VStr t => String.eqb s t
  | _, _ => false
  end.

Definition vm_eqb (a b : ValueMeasurement) : bool :=
  String.eqb (text a) (text b)
  && (start a =? start b) && (end_ a =? end_ b)
  && pyval_eqb (num1 a) (num1 b) && pyval_eqb (num2 a) (num2 b)
  && bool_decide (cond a = cond b)
  && String.eqb (matching_term a) (matching_term b).

(** [r in s] for a set of results. *)
Definition vm_in (r : ValueMeasurement) (s : list ValueMeasurement) : bool :=
  existsb (vm_eqb r) s.

(** [EMPTY_RESULT = '{}'] *)
Definition EMPTY_RESULT : json := JDict [].

Definition json_of_pyval (v : pyval) : json :=
  match v with
  | VNone => JNull
  | VNum n => JNum n
  | VStr s => JStr s
  end.

(** [min([a, b])] and [max([a, b])] *)
Definition min2 (a b : pyval) : result pyval :=
  match a, b with
  | VNum x, VNum y => Ok (if num_lt y x then b else a)
  | VStr s, VStr t => Ok (if String.ltb t s then b else a)
  | _, _ => Raise "TypeError"
  end.

Definition max2 (a b : pyval) : result pyval :=
  match a, b with
  | VNum x, VNum y => Ok (if num_lt x y then b else a)
  | VStr s, VStr t => Ok (if String.ltb s t then b else a)
  | _, _ => Raise "TypeError"
  end.

(** The dictionary of one result in [_to_json]. *)
Definition measurement_dict (_term_dict : gmap string string)
    (original_sentence : string) (is_text : bool) (m : ValueMeasurement)
  : result json :=
  matchingTerm ← match _term_dict !! matching_term m with
                 | Some t => Ok t
                 | None => Raise "KeyError"
                 end;
  let y := json_of_pyval (num2 m) in
  '(minval, maxval) ←
    (if is_text then Ok (VNone, VNone)
     else match num2 m with
          | VNone => Ok (num1 m, num1 m)
          | _ => lo ← min2 (num1 m) (num2 m);
                 hi ← max2 (num1 m) (num2 m);
                 Ok (lo, hi)
          end);
  Ok (JDict [
    ("text", JStr (Py.slice (start m) (end_ m) original_sentence));
    ("start", JNum (PInt (Z.of_nat (start m))));
    ("end", JNum (PInt (Z.of_nat (end_ m))));
    ("condition", match cond m with Some c => JStr c | None => JNull end);
    ("matchingTerm", JStr matchingTerm);
    ("x", json_of_pyval (num1 m));
    ("y", y);
    ("minValue", json_of_pyval minval);
    ("maxValue", json_of_pyval maxval) ]).

(** [_to_json]; [results] is [None] when [_resolve_overlap] returned
    nothing. *)
Definition _to_json (_term_dict : gmap string string)
    (original_terms : list string) (original_sentence : string)
    (results : option (list ValueMeasurement)) (is_text : bool) : result json :=
  match results with
  | None => Raise "TypeError"
  | Some results =>
      dict_list ←
        rfold (fun dict_list m =>
                 m_dict ← measurement_dict _term_dict original_sentence is_text m;
                 Ok (dict_list ++ [m_dict]))
              [] results;
      Ok (JDict [
        ("sentence", JStr original_sentence);
        ("measurementCount", JNum (PInt (Z.of_nat (length results))));
        ("terms", JList (JStr <$> original_terms));
        ("querySuccess", JBool (0 <? length results));
        ("measurementList", JList dict_list) ])
  end.

Definition found (p : Re.pattern) (s : string) : bool :=
  bool_decide (is_Some (Re.search p s)).

(** [pattern.match(s)] as a truth value. *)
Definition found_anchored (p : Re.pattern) (s : string) : bool :=
  bool_decide (is_Some (Re.match_ p s)).

Definition _cond_to_string (words cond : string) : string :=
  let s := words +:+ " " +:+ cond in
  if found _regex_approx s then STR_APPROX
  else if found _regex_lte s then STR_LTE
  else if found _regex_gte s then STR_GTE
  else if found _regex_lt s then STR_LT
  else if found _regex_gt s then STR_GT
  else STR_EQUAL.

Definition _get_num_and_denom (str_fraction : string) : result (Z * Z) :=
  let values := Py.split_on "/" (Py.strip str_fraction) in
  match values with
  | [v0; v1] => n ← Py.int v0; d ← Py.int v1; Ok (n, d)
  | _ => Raise "AssertionError"
  end.

(** [re.sub(pattern, repl, s)] and [re.search(pattern, s)] with a pattern
    text of the source. *)
Definition re_sub (ptext repl s : string) : string :=
  Re.sub (Re.compiled ptext false) repl s.

Definition re_search (ptext s : string) : bool :=
  found (Re.compiled ptext false) s.

(** [match.group(name)] where the text of the group is used at once. *)
Definition group_text (mo : Re.pymatch) (name : string) : result string :=
  match Re.group mo name with
  | Some s => Ok s
  | None => Raise "TypeError"
  end.

Definition _get_suffixed_num (match_obj : Re.pymatch) (num_grp suffix_grp : string)
  : result pyfloat :=
  num_str ← group_text match_obj num_grp;
  let num_str_no_commas := re_sub "," "" num_str in
  num ← float num_str_no_commas;
  match Re.group match_obj suffix_grp with
  | Some suffix =>
      if (0 <? String.length suffix) && String.eqb "k" (Py.lower suffix)
      then Ok (float_mul num (float_of_int 1000))
      else Ok num
  | None => Ok num
  end.

(** What the loops of [_extract_value] update: the spans and results so
    far, and the variable [words], which is unbound at first. *)
Record acc := {
  a_spans : list (nat * nat);
  a_results : list ValueMeasurement;
  a_words : option string
}.

Definition _update_match_results (mo : Re.pymatch) (a : acc)
    (num1 num2 : pyval) (cond : option string) (matching_term : string) : acc :=
  let match_text := Py.strip (Re.group0 mo) in
  let start := Re.start mo in
  let end_ := start + String.length match_text in
  let keep_it :=
    negb (existsb (fun '(start_i, end_i) => (start_i <=? start) && (end_ <=? end_i))
                  (a_spans a)) in
  if keep_it then
    let meas := Build_ValueMeasurement match_text start end_ num1 num2 cond
                                        matching_term in
    {| a_spans := a_spans a ++ [(start, end_)];
       a_results := a_results a ++ [meas];
       a_words := a_words a |}
  else a.

Definition _get_query_start (query_term : string) : string :=
  if 1 <? String.length query_term then
    let str_query :=
      "\b(" +:+ query_term +:+ "\s*" +:+ "|" +:+
      query_term +:+ "\s+([a-zA-Z]+\s*)" +:+ ")" +:+ _str_separator in
    str_query +:+ "(?P<words>" +:+ _str_words +:+ ")"
  else
    let str_query :=
      "\b(" +:+ query_term +:+ "(?![a-zA-Z])\s*" +:+ "|" +:+
      query_term +:+ "\s+([a-zA-Z]+\s*)" +:+ ")" +:+ _str_separator in
    str_query +:+ "(?P<words>" +:+ _str_words +:+ ")".

(** [minval <= x <= maxval] *)
Definition in_range (minval maxval : pyfloat) (x : pynum) : bool :=
  num_le (PFloat minval) x && num_le x (PFloat maxval).

(** [re.finditer(pattern, sentence)] followed by the loop with body [body]. *)
Definition for_matches (ptext sentence : string)
    (body : acc -> Re.pymatch -> result acc) (a : acc) : result acc :=
  p ← Re.compile ptext false;
  rfold body a (Re.finditer p sentence).

(** *** Hypothetical phrases *)

Definition WINDOW : nat := 6.

(** The words of [r_words] start the words of [words] from index [i]:
    the inner [while] of [_remove_hypotheticals]. *)
Fixpoint words_start_at (words r_words : list string) (i : nat) : bool :=
  match r_words with
  | [] => true
  | rw :: r_words' =>
      match words !! i with
      | Some w => Py.startswith rw w && words_start_at words r_words' (S i)
      | None => false
      end
  end.

(** The first index below [i + n] from [i] on at which the result's
    words are found. *)
Fixpoint find_words (words r_words : list string) (n i : nat) : option nat :=
  match n with
  | 0 => None
  | S n' =>
      if words_start_at words r_words i then Some i
      else find_words words r_words n' (S i)
  end.

(** The word spans [(i, i + r_word_count, r)] of the results. *)
Definition result_spans_of (split_re : Re.pattern) (words : list string)
    (results : list ValueMeasurement) : list (nat * nat * ValueMeasurement) :=
  let word_count := length words in
  foldl (fun result_spans r =>
           let r_words := Re.split split_re (Py.lower (text r)) in
           let r_word_count := length r_words in
           match find_words words r_words (word_count - (r_word_count - 1)) 0 with
           | Some i => result_spans ++ [(i, i + r_word_count, r)]
           | None => result_spans
           end)
        [] results.

Definition word_is (words : list string) (i : nat) (w : string) : bool :=
  bool_decide (words !! i = Some w).

(** The trigger phrase that starts at word [i], with its word offset. *)
Definition trigger_at (words : list string) (i : nat) : option (nat * string) :=
  let word_count := length words in
  if word_is words i "call" && (i <? word_count - 1) && word_is words (i + 1) "for"
  then Some (1, "call for")
  else if word_is words i "if" then
    if (0 <? i) && word_is words (i - 1) "know" then None
    else if (i <? word_count - 1) && word_is words (i + 1) "negative" then None
    else Some (0, "if")
  else if word_is words i "in" && (i <? word_count - 2) && word_is words (i + 1) "case"
  then Some (1, "in case")
  else if word_is words i "should" then Some (0, "should")
  else None.

(** The triggers [(i + word_offset, trigger)] in the order of the words. *)
Definition triggers_of (words : list string) : list (nat * string) :=
  omap (fun i => (fun '(word_offset, trigger) => (i + word_offset, trigger))
                   <$> trigger_at words i)
       (seq 0 (length words)).

(** The results that the triggers leave out. *)
Definition omitted (triggers : list (nat * string))
    (result_spans : list (nat * nat * ValueMeasurement)) : list ValueMeasurement :=
  foldl (fun omit_results hw =>
           let h_start := hw.1 in
           foldl (fun omit_results rs =>
                    let rs_start := rs.1.1 in
                    if rs_start <? h_start then omit_results
                    else if rs_start - h_start <? WINDOW
                         then omit_results ++ [rs.2]
                         else omit_results)
                 omit_results result_spans)
        [] triggers.

Definition _remove_hypotheticals (sentence : string)
    (results : list ValueMeasurement) : list ValueMeasurement :=
  let sentence_lc := Py.lower sentence in
  let str_split := "[,;\s]+" in
  let split_re := Re.compiled str_split false in
  let words := Re.split split_re sentence_lc in
  let result_spans := result_spans_of split_re words results in
  let triggers := triggers_of words in
  let omit_results := omitted triggers result_spans in
  filter (fun r => negb (vm_in r omit_results)) results.

(** *** Values of one query term *)

Definition fraction_range_body (query_term : string) (minval maxval : pyfloat)
    (denom_only checked : bool) (a : acc) (mo : Re.pymatch) : result acc :=
  frac1 ← group_text mo "frac1";
  frac2 ← group_text mo "frac2";
  '(n1, d1) ← _get_num_and_denom frac1;
  '(n2, d2) ← _get_num_and_denom frac2;
  let x1 := if denom_only then d1 else n1 in
  let x2 := if denom_only then d2 else n2 in
  if in_range minval maxval (PInt x1) && in_range minval maxval (PInt x2) then
    let cond := STR_FRACTION_RANGE in
    if checked then
      Ok (_update_match_results mo a (VNum (PInt x1)) (VNum (PInt x2)) (Some cond)
                                query_term)
    else
      let match_text := Py.strip (Re.group0 mo) in
      let start := Re.start mo in
      let end_ := start + String.length match_text in
      let meas := Build_ValueMeasurement match_text start end_ (VNum (PInt x1))
                                          (VNum (PInt x2)) (Some cond) query_term in
      Ok {| a_spans := a_spans a ++ [(start, end_)];
            a_results := a_results a ++ [meas];
            a_words := a_words a |}
  else Ok a.

Definition fraction_body (query_term : string) (minval maxval : pyfloat)
    (denom_only : bool) (a : acc) (mo : Re.pymatch) : result acc :=
  frac ← group_text mo "frac";
  '(n, d) ← _get_num_and_denom frac;
  let x := if denom_only then d else n in
  if in_range minval maxval (PInt x) then
    words ← group_text mo "words";
    cond_words ← Py.strip <$> group_text mo "cond";
    let cond := _cond_to_string words cond_words in
    let a := {| a_spans := a_spans a; a_results := a_results a;
                a_words := Some words |} in
    Ok (_update_match_results mo a (VNum (PInt x)) VNone (Some cond) query_term)
  else Ok a.

Definition units_range_body (query_term : string) (minval maxval : pyfloat)
    (a : acc) (mo : Re.pymatch) : result acc :=
  units1 ← (fun u => Py.lower (Py.strip u)) <$> group_text mo "units1";
  units2 ← (fun u => Py.lower (Py.strip u)) <$> group_text mo "units2";
  let units1 := Re.sub _regex_punct "" units1 in
  let units2 := Re.sub _regex_punct "" units2 in
  let units1 := if String.length units1 =? 0 then units2 else units1 in
  if String.eqb units1 units2 then
    num1 ← group_text mo "num1" ≫= float;
    num2 ← group_text mo "num2" ≫= float;
    let '(num1, num2) :=
      if String.eqb "k" (Py.lower units1)
      then (float_mul num1 (float_of_int 1000), float_mul num2 (float_of_int 1000))
      else (num1, num2) in
    if in_range minval maxval (PFloat num1) && in_range minval maxval (PFloat num2)
    then Ok (_update_match_results mo a (VNum (PFloat num1)) (VNum (PFloat num2))
                                   (Some STR_RANGE) query_term)
    else Ok a
  else Ok a.

Definition range_body (query_term : string) (minval maxval : pyfloat)
    (a : acc) (mo : Re.pymatch) : result acc :=
  num1 ← _get_suffixed_num mo "num1" "suffix1";
  num2 ← _get_suffixed_num mo "num2" "suffix2";
  if in_range minval maxval (PFloat num1) && in_range minval maxval (PFloat num2)
  then Ok (_update_match_results mo a (VNum (PFloat num1)) (VNum (PFloat num2))
                                 (Some STR_RANGE) query_term)
  else Ok a.

Definition op_val_body (query_term : string) (minval maxval : pyfloat)
    (a : acc) (mo : Re.pymatch) : result acc :=
  val ← _get_suffixed_num mo "val" "suffix";
  if in_range minval maxval (PFloat val) then
    words ← group_text mo "words";
    cond_words ← Py.strip <$> group_text mo "cond";
    let a := {| a_spans := a_spans a; a_results := a_results a;
                a_words := Some words |} in
    if re_search _str_bf words || re_search _str_bf cond_words then Ok a
    else
      let cond := _cond_to_string words cond_words in
      Ok (_update_match_results mo a (VNum (PFloat val)) VNone (Some cond)
                                query_term)
  else Ok a.

Definition wds_val_body (query_term : string) (minval maxval : pyfloat)
    (a : acc) (mo : Re.pymatch) : result acc :=
  val ← _get_suffixed_num mo "val" "suffix";
  if in_range minval maxval (PFloat val) then
    match a_words a with
    | None => Raise "UnboundLocalError"
    | Some words =>
        if re_search _str_bf words then Ok a
        else Ok (_update_match_results mo a (VNum (PFloat val)) VNone None
                                       query_term)
    end
  else Ok a.

Definition _extract_value (query_term sentence : string)
    (minval maxval : pyfloat) (denom_only : bool)
  : result (list ValueMeasurement) :=
  match Re.search _regex_digits sentence with
  | None => Ok []
  | Some _ =>
      let str_start := _get_query_start query_term in
      let str_fraction_query :=
        str_start +:+ _str_cond +:+ "(?P<frac>" +:+ _str_fraction +:+ ")" in
      let str_fraction_range_query :=
        str_start +:+ _str_cond +:+ _str_fraction_range in
      let str_bf_fraction_range_query :=
        str_start +:+ _str_cond +:+ _str_bf_fraction_range in
      let str_op_val_query := str_start +:+ _str_cond +:+ _str_val in
      let str_range_query := str_start +:+ _str_cond +:+ _str_range in
      let str_bf_range_query := str_start +:+ _str_cond +:+ _str_bf_range in
      let str_units_range_query := str_start +:+ _str_cond +:+ _str_units_range in
      let str_wds_val_query := str_start +:+ _str_val in
      let a := {| a_spans := []; a_results := []; a_words := None |} in
      a ← for_matches str_bf_fraction_range_query sentence
            (fraction_range_body query_term minval maxval denom_only false) a;
      a ← for_matches str_fraction_range_query sentence
            (fraction_range_body query_term minval maxval denom_only true) a;
      a ← for_matches str_fraction_query sentence
            (fraction_body query_term minval maxval denom_only) a;
      a ← for_matches str_units_range_query sentence
            (units_range_body query_term minval maxval) a;
      a ← for_matches str_bf_range_query sentence
            (range_body query_term minval maxval) a;
      a ← for_matches str_range_query sentence
            (range_body query_term minval maxval) a;
      a ← for_matches str_op_val_query sentence
            (op_val_body query_term minval maxval) a;
      a ← for_matches str_wds_val_query sentence
            (wds_val_body query_term minval maxval) a;
    Ok (_remove_hypotheticals sentence (a_results a))
  end.

(** *** Words of an enumerated list *)

(** [l.index(x)] *)
Fixpoint index_of (x : nat) (l : list nat) : option nat :=
  match l with
  | [] => None
  | y :: l' => if x =? y then Some 0 else S <$> index_of x l'
  end.

(** The loop over the matches of one query term; [found_it] is set before
    the loop and never reset in it. *)
Definition enum_match_body (query_term : string) (filter_words : list string)
    (boundaries : list nat)
    (st : bool * list ValueMeasurement) (mo : Re.pymatch)
  : result (bool * list ValueMeasurement) :=
  let '(found_it, results) := st in
  let num_boundaries := length boundaries in
  let start := Re.start mo in
  match index_of start boundaries with
  | None => Ok st
  | Some index =>
      let end_ :=
        if index <? num_boundaries - 1 then
          match boundaries !! (index + 1) with
          | Some b => if b <? Re.end_ mo then b else Re.end_ mo
          | None => Re.end_ mo
          end
        else Re.end_ mo in
      words ← group_text mo "words";
      words_start ← match Re.group_start mo "words" with
                    | Some n => Ok n
                    | None => Raise "TypeError"
                    end;
      let '(found_it, word) :=
        foldl (fun '(found_it, word) fw =>
                 match Py.find fw words with
                 | Some pos =>
                     if words_start + pos <? end_
                     then (true, if String.length word <? String.length fw
                                 then fw else word)
                     else (found_it, word)
                 | None => (found_it, word)
                 end)
              (found_it, "") filter_words in
      if found_it : bool then
        let meas := Build_ValueMeasurement word start end_ (VStr word) VNone
                                            (Some STR_EQUAL) query_term in
        Ok (found_it, results ++ [meas])
      else Ok (found_it, results)
  end.

Definition _extract_enumlist_values (query_terms : list string)
    (sentence : string) (filter_words : list string)
  : result (list ValueMeasurement) :=
  boundaries ←
    rfold (fun boundaries query_term =>
             let str_word_query := Re.escape query_term in
             p ← Re.compile str_word_query false;
             Ok (boundaries ++ (Re.start <$> Re.finditer p sentence)))
          [] query_terms;
  if length boundaries =? 0 then Ok []
  else
    let boundaries := sorted_by (fun b => b) boundaries in
    rfold (fun results query_term =>
             let str_word_query := Re.escape query_term in
             let str_enum_query :=
               str_word_query +:+
               "(?P<words>" +:+
               "\s*(" +:+ _str_enumlist_value +:+ "\s*){0,8}" +:+
               ")" in
             p ← Re.compile str_enum_query false;
             '(_, results) ←
               rfold (enum_match_body query_term filter_words boundaries)
                     (false, results) (Re.finditer p sentence);
             Ok results)
          [] query_terms.

(** *** Overlapping results *)

(** The result to discard of two overlapping results, the first of which
    stands before the second in the list. *)
Definition to_discard (ri rj : ValueMeasurement) : ValueMeasurement :=
  let s1 := start ri in
  let e1 := end_ ri in
  let s2 := start rj in
  let e2 := end_ rj in
  let term1 := matching_term ri in
  let term2 := matching_term rj in
  if (s1 =? s2) && (e1 =? e2) then
    if String.length term2 <? String.length term1 then rj else ri
  else
    if Py.endswith term2 (text ri) then ri
    else
      let span1 := (s1, s1 + String.length term1) in
      let span2 := (s2, s2 + String.length term2) in
      if span2.1 <? span1.2 then
        if String.length term1 <? String.length term2 then ri else rj
      else ri.

(** The inner loop over [j] for the result [ri] at index [i]. *)
Definition discard_against (ri : ValueMeasurement)
    (discard_set : list ValueMeasurement) (later : list ValueMeasurement)
  : result (list ValueMeasurement) :=
  rfold (fun discard_set rj =>
           if negb (start ri <=? start rj) then Raise "AssertionError"
           else if start rj <? end_ ri
                then Ok (discard_set ++ [to_discard ri rj])
                else Ok discard_set)
        discard_set later.

(** The outer loop over [i]. *)
Fixpoint discard_pairs (discard_set : list ValueMeasurement)
    (results : list ValueMeasurement) : result (list ValueMeasurement) :=
  match results with
  | [] => Ok discard_set
  | ri :: later =>
      discard_set ← discard_against ri discard_set later;
      discard_pairs discard_set later
  end.

(** [_resolve_overlap]; the answer is [None] for an empty list. *)
Definition _resolve_overlap (terms : list string)
    (results : list ValueMeasurement) : result (option (list ValueMeasurement)) :=
  let n := length results in
  if n =? 0 then Ok None
  else
    discard_set ← discard_pairs [] results;
    if length discard_set =? 0 then Ok (Some results)
    else Ok (Some (filter (fun r => negb (vm_in r discard_set)) results)).

(** *** Cleaning the sentence *)

Definition _erase (sentence : string) (start end_ : nat) : string :=
  let piece1 := Py.take start sentence in
  let piece2 := Py.spaces (end_ - start) in
  let piece3 := Py.drop end_ sentence in
  piece1 +:+ piece2 +:+ piece3.

(** The time unit of a duration: the group [dur_amt1], since the pattern
    has no group [dur_amt2] or [dur_amt3]. *)
Definition duration_of (mo : Re.pymatch) : option string :=
  foldl (fun duration group_name =>
           if Re.has_group mo group_name then
             match Re.group mo group_name with
             | Some d => Some d
             | None => duration
             end
           else duration)
        None ["dur_amt1"; "dur_amt2"; "dur_amt3"].

Definition _erase_durations (sentence : string) : string :=
  foldl (fun sentence mo =>
           let duration := duration_of mo in
           let erase_it :=
             if bool_decide (duration = Some "hr") then
               let vitals_count :=
                 length (filter (fun match2 => Re.group0 match2 ≠ "hr")
                                (Re.finditer _regex_vitals sentence)) in
               negb (0 <? vitals_count)
             else true in
           if erase_it then _erase sentence (Re.start mo) (Re.end_ mo)
           else sentence)
        sentence (Re.finditer _regex_duration sentence).

(** [_common_clean] on one text of the list. *)
Definition _common_clean (is_case_sensitive : bool) (text : string) : string :=
  let text := Re.sub _regex_whitespace_replace " " text in
  if negb is_case_sensitive then Py.lower text else text.

Definition _clean_sentence (sentence : string) (is_case_sensitive : bool)
  : string :=
  let sentence := _common_clean is_case_sensitive sentence in
  let dates := run_date_finder sentence in
  let all_digits := Re.compiled "\A\d+\Z" false in
  let sentence :=
    foldl (fun sentence date =>
             match Re.match_ all_digits (fv_text date) with
             | Some _ => sentence
             | None => _erase sentence (fv_start date) (fv_end date)
             end)
          sentence dates in
  let measurements := run_size_measurement sentence in
  let sentence :=
    foldl (fun sentence m =>
             if String.eqb "CUBIC_MILLIMETERS" (fv_units m)
                && bool_decide (is_Some (Py.find "cc" (fv_text m)))
             then sentence
             else if String.eqb "MILLIMETERS" (fv_units m)
                     && bool_decide (is_Some (Py.find "in" (fv_text m)))
             then sentence
             else _erase sentence (fv_start m) (fv_end m))
          sentence measurements in
  let times := run_time_finder sentence in
  let re_a := Re.compiled "\A\d+[\-\+]\d+\Z" false in
  let re_c := Re.compiled "\A[\d\.]+\Z" false in
  let re_at :=
    Re.compiled ("(@|\b(at|around))\s*" +:+ "(approximately|approx\.?)?\d+\Z")
                false in
  let sentence :=
    foldl (fun sentence t =>
             let end_ := fv_end t in
             let match_a := found_anchored re_a (fv_text t) in
             let match_b := found_anchored all_digits (fv_text t) in
             let match_c := found_anchored re_c (fv_text t) in
             let erase_it := negb match_a && negb match_b && negb match_c in
             let erase_it :=
               if match_b then
                 let frag := Py.take end_ sentence in
                 if found re_at frag then true else erase_it
               else erase_it in
             if erase_it then _erase sentence (fv_start t) end_ else sentence)
          sentence times in
  _erase_durations sentence.

(** *** The entry point *)

(** The argument [enumlist]: a comma-separated text or a list. *)
Inductive enumlist_arg :=
| EnumStr (s : string)
| EnumList (l : list string).

(** The truth value of [enumlist]. *)
Definition given (enumlist : option enumlist_arg) : bool :=
  match enumlist with
  | None => false
  | Some (EnumStr s) => 0 <? String.length s
  | Some (EnumList l) => 0 <? length l
  end.

(** A bound given as text: the numerator if it is a fraction. *)
Definition bound (str_val : option string) : result pyfloat :=
  match str_val with
  | None => Raise "TypeError"
  | Some str_val =>
      let str_val :=
        match Py.find "/" str_val with
        | Some _ => default "" (head (Py.split_on "/" str_val))
        | None => str_val
        end in
      float str_val
  end.

(** The part of [run] up to the test for an empty list: the terms as
    given, the terms as searched, and the results found. *)
Definition extract (term_string sentence : string)
    (str_minval str_maxval : option string) (enumlist : option enumlist_arg)
    (is_case_sensitive is_denom_only : bool)
  : list string * list string * result (list ValueMeasurement) :=
  let str_minval :=
    match enumlist, str_minval with
    | None, None => Some ("-" +:+ str_float_max)
    | _, _ => str_minval
    end in
  let str_maxval :=
    match enumlist, str_maxval with
    | None, None => Some str_float_max
    | _, _ => str_maxval
    end in
  let terms := Py.split_on "," term_string in
  let terms := Py.strip <$> terms in
  let terms := sorted_by_desc String.length terms in
  let original_terms := terms in
  let terms := _common_clean is_case_sensitive <$> terms in
  let filter_terms :=
    if given enumlist then
      match enumlist with
      | Some (EnumStr s) => Py.strip <$> Py.split_on "," s
      | Some (EnumList l) => Py.strip <$> l
      | None => []
      end
    else [] in
  let terms := if negb is_case_sensitive then Py.lower <$> terms else terms in
  let filter_terms :=
    if negb is_case_sensitive && given enumlist
    then Py.lower <$> filter_terms else filter_terms in
  (original_terms, terms,
   bounds ← (if negb (given enumlist)
             then minval ← bound str_minval;
                  maxval ← bound str_maxval;
                  Ok (Some (minval, maxval))
             else Ok None);
   let sentence := _clean_sentence sentence is_case_sensitive in
   match bounds with
   | None => _extract_enumlist_values terms sentence filter_terms
   | Some (minval, maxval) =>
       rfold (fun results term =>
                values ← _extract_value term sentence minval maxval is_denom_only;
                Ok (results ++ values))
             [] terms
   end).

(** The assignments [_term_dict[terms[i]] = original_terms[i]]. *)
Definition remember_terms (terms original_terms : list string)
    (_term_dict : gmap string string) : gmap string string :=
  foldl (fun d '(new_term, original_term) => <[new_term := original_term]> d)
        _term_dict (zip terms original_terms).

(** [run]: the document returned and the table [_term_dict] as the call
    leaves it. *)
Definition run (term_string sentence : string)
    (str_minval str_maxval : option string) (enumlist : option enumlist_arg)
    (is_case_sensitive is_denom_only : bool)
    (_term_dict : gmap string string) : result json * gmap string string :=
  let original_sentence := sentence in
  let '(original_terms, terms, extracted) :=
    extract term_string sentence str_minval str_maxval enumlist
            is_case_sensitive is_denom_only in
  let _term_dict := remember_terms terms original_terms _term_dict in
  (results ← extracted;
   if length results =? 0 then Ok EMPTY_RESULT
   else
     let results := sorted_by start results in
     results ← _resolve_overlap terms results;
     _to_json _term_dict original_terms original_sentence results (given enumlist),
   _term_dict).

End Functions.

End ValueExtractor.

(** ** [mongo_logic_ops.py] *)

Module MongoLogicOps.

(** What the stages are made of: texts, integers, lists, and dictionaries
    in the order in which their keys are written. *)
#[warnings="-register-all"]
Inductive value :=
| VStr (s : string)
| VInt (z : Z)
| VList (l : list value)
| VDoc (fields : list (string * value)).

(** [_append_logical_and]: the list [pipeline] after [pipeline.extend];
    the function itself returns [None]. *)
Definition _append_logical_and (pipeline : list value) (id_string : string)
    (n : nat) (nlpql_feature_list : list string) : list value :=
  let stages := [
    VDoc [("$match",
           VDoc [("nlpql_feature",
                  VDoc [("$in", VList (VStr <$> nlpql_feature_list))])])];
    VDoc [("$group",
           VDoc [("_id", VStr id_string);
                 ("ntuple", VDoc [("$push", VStr "$$ROOT")]);
                 ("count", VDoc [("$sum", VInt 1)])])];
    VDoc [("$match", VDoc [("count", VDoc [("$gte", VInt (Z.of_nat n))])])];
    VDoc [("$project", VDoc [("_id", VInt 0); ("ntuple", VInt 1)])]
  ] in
  pipeline ++ stages.

Definition _append_logical_a_not_b (pipeline : list value) (id_string : string)
    (nlpql_feature_a nlpql_feature_b : string) : list value :=
  let stages := [
    VDoc [("$match",
           VDoc [("nlpql_feature",
                  VDoc [("$in", VList [VStr nlpql_feature_a;
                                       VStr nlpql_feature_b])])])];
    VDoc [("$group",
           VDoc [("_id", VStr id_string);
                 ("ntuple", VDoc [("$push", VStr "$$ROOT")]);
                 ("count", VDoc [("$sum", VInt 1)])])];
    VDoc [("$match", VDoc [("count", VDoc [("$eq", VInt 1)])])];
    VDoc [("$match",
           VDoc [("ntuple.nlpql_feature",
                  VDoc [("$in", VList [VStr nlpql_feature_a])])])];
    VDoc [("$project", VDoc [("_id", VInt 0); ("ntuple", VStr "$ntuple")])]
  ] in
  pipeline ++ stages.

Definition _append_logical_or (pipeline : list value) (id_string : string)
    (nlpql_feature_list : list string) : list value :=
  let stages := [
    VDoc [("$match",
           VDoc [("nlpql_feature",
                  VDoc [("$in", VList (VStr <$> nlpql_feature_list))])])];
    VDoc [("$group",
           VDoc [("_id", VStr id_string);
                 ("ntuple", VDoc [("$push", VStr "$$ROOT")])])];
    VDoc [("$project", VDoc [("_id", VInt 0); ("ntuple", VInt 1)])]
  ] in
  pipeline ++ stages.

Definition _append_logical_not_a (pipeline : list value) (id_string : string)
    (nlpql_feature : string) : list value :=
  let stages := [
    VDoc [("$match",
           VDoc [("nlpql_feature",
                  VDoc [("$nin", VList [VStr nlpql_feature])])])];
    VDoc [("$group",
           VDoc [("_id", VStr id_string);
                 ("ntuple", VDoc [("$push", VStr "$$ROOT")])])];
    VDoc [("$project", VDoc [("_id", VInt 0); ("ntuple", VInt 1)])]
  ] in
  pipeline ++ stages.

Definition _logical_a_and_b (pipeline : list value) (field_to_join_on : string)
    (nlpql_feature_list : list string) : list value :=
  let id_string := "$" +:+ field_to_join_on in
  let n := length nlpql_feature_list in
  _append_logical_and pipeline id_string n nlpql_feature_list.

Definition _logical_a_or_b (pipeline : list value) (field_to_join_on : string)
    (nlpql_feature_list : list string) : list value :=
  let id_string := "$" +:+ field_to_join_on in
  _append_logical_or pipeline id_string nlpql_feature_list.

Definition _logical_a_not_b (pipeline : list value) (field_to_join_on : string)
    (nlpql_feature_a nlpql_feature_b : string) : list value :=
  let id_string := "$" +:+ field_to_join_on in
  _append_logical_a_not_b pipeline id_string nlpql_feature_a nlpql_feature_b.

(** [l[i]] *)
Definition item (l : list string) (i : nat) : result string :=
  match l !! i with
  | Some x => Ok x
  | None => Raise "IndexError"
  end.

(** What a call leaves: the list that the caller passed, as it is after
    the call, and the list returned, which is that same list or a new
    one. *)
Record outcome := {
  passed : list value;
  returned : list value;
  returned_is_passed : bool
}.

Definition logic_expr_a_b (pipeline : list value) (operator : string)
    (field_to_join_on : string) (nlpql_feature_list : list string)
  : result outcome :=
  if String.eqb "or" operator then
    let pipeline := _logical_a_or_b pipeline field_to_join_on nlpql_feature_list in
    Ok {| passed := pipeline; returned := pipeline; returned_is_passed := true |}
  else if String.eqb "and" operator then
    let pipeline := _logical_a_and_b pipeline field_to_join_on nlpql_feature_list in
    Ok {| passed := pipeline; returned := pipeline; returned_is_passed := true |}
  else if String.eqb "not" operator then
    a ← item nlpql_feature_list 0;
    b ← item nlpql_feature_list 1;
    let pipeline := _logical_a_not_b pipeline field_to_join_on a b in
    Ok {| passed := pipeline; returned := pipeline; returned_is_passed := true |}
  else
    Ok {| passed := pipeline; returned := []; returned_is_passed := false |}.

Definition logic_expr_not_a (pipeline : list value) (nlpql_feature : string)
  : outcome :=
  let id_string := nlpql_feature in
  let pipeline := _append_logical_not_a pipeline id_string nlpql_feature in
  {| passed := pipeline; returned := pipeline; returned_is_passed := true |}.

(** The operator of a stage: the one key of its dictionary. *)
Definition stage_operator (stage : value) : option string :=
  match stage with
  | VDoc [(k, _)] => Some k
  | _ => None
  end.

(** The value under [key] of a dictionary. *)
Fixpoint field (key : string) (fields : list (string * value)) : option value :=
  match fields with
  | [] => None
  | (k, v) :: fields' => if String.eqb key k then Some v else field key fields'
  end.

(** The field on which a [$group] stage groups. *)
Definition group_id (stage : value) : option value :=
  match stage with
  | VDoc [("$group", VDoc fields)] => field "_id" fields
  | _ => None
  end.

End MongoLogicOps.

(** * Statements *)

(** ** Instances for closed examples *)

(** Decimal numbers as the floats of the interpreter. *)
Definition decimal_float : PyFloat := {|
  pyfloat := Decimal.t;
  float_of_str := Decimal.of_str;
  float_of_int := Decimal.of_int;
  float_mul := Decimal.mul;
  float_cmp := Decimal.cmp;
  int_float_cmp := Decimal.cmp_int;
  float_cmp_refl := fun d => Z.compare_refl _
|}.

(** Collaborators that find nothing. *)
Definition no_finders : Finders := {|
  run_date_finder := fun _ => [];
  run_size_measurement := fun _ => [];
  run_time_finder := fun _ => []
|}.

(** ** Vocabulary *)

(** [R x y] for every [x] that stands before [y] in the list. *)
Fixpoint ordered_pairs {A} (R : A -> A -> Prop) (l : list A) : Prop :=
  match l with
  | [] => True
  | x :: l' => Forall (R x) l' /\ ordered_pairs R l'
  end.

(** The fields of a JSON object. *)
Definition fields_of {F : PyFloat} (doc : json) : list (string * json) :=
  match doc with
  | JDict fields => fields
  | _ => []
  end.

(** The array [measurementList] of a document; empty if there is none. *)
Definition measurements {F : PyFloat} (doc : json) : list json :=
  match json_field "measurementList" (fields_of doc) with
  | Some (JList l) => l
  | _ => []
  end.

(** An integer field of a measurement. *)
Definition offset_of {F : PyFloat} (k : string) (m : json) : option Z :=
  match json_field k (fields_of m) with
  | Some (JNum (PInt z)) => Some z
  | _ => None
  end.

(** The offsets [start] and [end] of a measurement. *)
Definition span_of {F : PyFloat} (m : json) : option (Z * Z) :=
  s ← offset_of "start" m; e ← offset_of "end" m; Some (s, e).


(** The spans of the measurements of the document returned, in the order
    of the array. *)
Definition returned_spans {F : PyFloat} (r : result json) : list (option (Z * Z)) :=
  match r with
  | Ok doc => span_of <$> measurements doc
  | Raise _ => []
  end.

(** The pattern at which [_remove_hypotheticals] splits into words. *)
Definition word_break : Re.pattern := Re.compiled "[,;\s]+" false.

Section CovidStatements.
Context {F : PyFloat}.

(** An entry of [match.groupdict()] that a range leaves without a value:
    a group that took no part in the match, the capture of the first
    endpoint, or the words between. *)
Definition inert (kv : string * option string) : Prop :=
  kv.2 = None \/ kv.1 ∈ ["int_from"; "tnum_from"; "enum_from"; "words"].

(** The conversion of the capture [v] of the second endpoint, by the name
    [k] of its group. *)
Definition endpoint (k v : string) : result (option pynum) :=
  if String.eqb k "int_to" then (fun z => Some (PInt z)) <$> CovidFinder._to_int v
  else if String.eqb k "tnum_to" then
    (fun z : option Z => PInt <$> z) <$> CovidFinder._tnum_to_int v
  else Ok (PInt <$> CovidFinder._enum_to_int v).

(** What a candidate shows of its match: the span, the text and the
    groups that took part. *)
Definition candidate_view (c : FinderOverlap.Candidate)
  : nat * nat * string * list (string * option string) :=
  (FinderOverlap.start c, FinderOverlap.end_ c, FinderOverlap.match_text c,
   filter (fun kv => is_Some kv.2) (Re.groupdict (FinderOverlap.other c))).

(** A view of each candidate of a list that was found without an error. *)
Definition on_candidates {B} (f : FinderOverlap.Candidate -> B)
    (r : result (list FinderOverlap.Candidate)) : result (list B) :=
  match r with
  | Ok cs => Ok (f <$> cs)
  | Raise e => Raise e
  end.

(** The values that the loop of [run] appends for a candidate. *)
Definition values_of (c : FinderOverlap.Candidate) : result (list pynum) :=
  CovidFinder.case_values (Re.groupdict (FinderOverlap.other c)).

End CovidStatements.

Section ValueStatements.
Context {F : PyFloat} {E : Finders}.
Import ValueExtractor.

(** Every result so far is a result of the query term [q]. *)
Definition results_of_term (q : string) (a : acc) : Prop :=
  Forall (fun r => matching_term r = q) (a_results a).

(** The three finders report nothing in [s]. *)
Definition quiet_on (s : string) : Prop :=
  run_date_finder s = [] /\ run_size_measurement s = []
  /\ run_time_finder s = [].



End ValueStatements.

(** ** Results of closed examples *)

(** The two results found for the terms "rr, sao2" in "BP 120/80 HR 60-80s
    RR  SaO2 96% 6L NC.": the value of the first is the digit of the second
    term. *)
Definition rr_result : ValueExtractor.ValueMeasurement (F := decimal_float) :=
  {| ValueExtractor.text := "rr  sao2";
     ValueExtractor.start := 20; ValueExtractor.end_ := 28;
     ValueExtractor.num1 := ValueExtractor.VNum (PFloat (float_of_int 2));
     ValueExtractor.num2 := ValueExtractor.VNone;
     ValueExtractor.cond := Some "EQUAL";
     ValueExtractor.matching_term := "rr" |}.

Definition sao2_result : ValueExtractor.ValueMeasurement (F := decimal_float) :=
  {| ValueExtractor.text := "sao2 96";
     ValueExtractor.start := 24; ValueExtractor.end_ := 31;
     ValueExtractor.num1 := ValueExtractor.VNum (PFloat (float_of_int 96));
     ValueExtractor.num2 := ValueExtractor.VNone;
     ValueExtractor.cond := Some "EQUAL";
     ValueExtractor.matching_term := "sao2" |}.

(** The two results found for the terms "fio2, fio" in "FiO2 40". *)
Definition fio2_result : ValueExtractor.ValueMeasurement (F := decimal_float) :=
  {| ValueExtractor.text := "fio2 40";
     ValueExtractor.start := 0; ValueExtractor.end_ := 7;
     ValueExtractor.num1 := ValueExtractor.VNum (PFloat (float_of_int 40));
     ValueExtractor.num2 := ValueExtractor.VNone;
     ValueExtractor.cond := Some "EQUAL";
     ValueExtractor.matching_term := "fio2" |}.

Definition fio_result : ValueExtractor.ValueMeasurement (F := decimal_float) :=
  {| ValueExtractor.text := "fio2";
     ValueExtractor.start := 0; ValueExtractor.end_ := 4;
     ValueExtractor.num1 := ValueExtractor.VNum (PFloat (float_of_int 2));
     ValueExtractor.num2 := ValueExtractor.VNone;
     ValueExtractor.cond := Some "EQUAL";
     ValueExtractor.matching_term := "fio" |}.


(** ** Vocabulary of the invariants *)

(** The cursor [c] is a position in the subject [s]. *)
Definition cursor_of (s : string) (c : Re.cursor) : Prop :=
  Re.pos c = String.length (Re.before c)
  /\ String.rev_app (Re.before c) (Re.after c) = s.

(** A continuation that yields only results in [P] when it is called at a
    position of [s] at or behind [c]. *)
Definition continues {R : Type} (s : string) (P : R -> Prop) (c : Re.cursor)
    (k : Re.cursor -> Re.caps -> option R) : Prop :=
  forall c' g' x, cursor_of s c' -> Re.pos c <= Re.pos c' -> k c' g' = Some x -> P x.

(** A match found in [s] at or behind the offset [lo]. *)
Definition found_in (s : string) (lo : nat) (f : Re.found) : Prop :=
  lo <= Re.f_start f <= Re.f_end f
  /\ cursor_of s (Re.f_rest f) /\ Re.pos (Re.f_rest f) = Re.f_end f.

(** A match object of the subject [s]: its span lies in [s]. *)
Definition match_in (s : string) (mo : Re.pymatch) : Prop :=
  Re.subject mo = s /\ Re.start mo <= Re.end_ mo <= String.length s.

(** The spans that a finder reports lie in the sentence it was given. *)
Definition spans_within (s : string) (l : list FinderValue) : Prop :=
  Forall (fun fv => fv_start fv <= fv_end fv <= String.length s) l.


(** No character of [s] is an upper-case letter. *)
Fixpoint no_upper (s : string) : bool :=
  match s with
  | "" => true
  | String c s' => negb (Py.between "A" "Z" c) && no_upper s'
  end.

(** A numeral: digits, and at least one. *)
Definition numeral (a : string) : Prop := a <> "" /\ Py.all_digits a = true.

Section ResultStatements.
Context {F : PyFloat}.
Import ValueExtractor.

(** A field that holds a number between the bounds. *)
Definition numeric_in (minval maxval : pyfloat) (v : pyval) : Prop :=
  exists x, v = VNum x /\ in_range minval maxval x = true.

(** What every result for the query term [q] in [sentence] satisfies. *)
Definition value_result (q sentence : string) (minval maxval : pyfloat)
    (r : ValueMeasurement) : Prop :=
  matching_term r = q
  /\ end_ r = start r + String.length (text r)
  /\ end_ r <= String.length sentence
  /\ numeric_in minval maxval (num1 r)
  /\ (num2 r = VNone \/ numeric_in minval maxval (num2 r)).

Definition value_results (q sentence : string) (minval maxval : pyfloat)
    (a : acc) : Prop :=
  Forall (value_result q sentence minval maxval) (a_results a).

(** What every result of [_extract_enumlist_values] satisfies. *)
Definition enum_result (terms filter_words : list string) (sentence : string)
    (r : ValueMeasurement) : Prop :=
  matching_term r ∈ terms
  /\ num1 r = VStr (text r) /\ num2 r = VNone /\ cond r = Some STR_EQUAL
  /\ (text r = "" \/ text r ∈ filter_words)
  /\ start r <= end_ r <= String.length sentence.

(** The span of a result lies in the sentence searched. *)
Definition span_within (sentence : string) (r : ValueMeasurement) : Prop :=
  start r <= end_ r <= String.length sentence.

(** A result with a number, and a second number or none. *)
Definition numeric_result (r : ValueMeasurement) : Prop :=
  (exists x, num1 r = VNum x) /\ (num2 r = VNone \/ exists y, num2 r = VNum y).

End ResultStatements.

Section TupleStatements.
Context {F : PyFloat}.
Import CovidFinder.

(** A tuple of case counts in the sentence [s]: it has a span, a text and a
    value for the cases, and nothing for hospitalizations and deaths. *)
Definition case_tuple (s : string) (t : CovidTuple) : Prop :=
  sentence t = s
  /\ is_Some (case_start t) /\ is_Some (case_end t)
  /\ is_Some (text_case t) /\ is_Some (value_case t)
  /\ hosp_start t = None /\ hosp_end t = None
  /\ death_start t = None /\ death_end t = None
  /\ text_hosp t = None /\ text_death t = None
  /\ value_hosp t = None /\ value_death t = None.

End TupleStatements.

Section PipelineStatements.
Import MongoLogicOps.

(** A stage that matches, groups or projects. *)
Definition plain_stage (stage : value) : Prop :=
  stage_operator stage ∈ [Some "$match"; Some "$group"; Some "$project"].

(** The stages [stages] were put behind those of [pipeline], in the list
    that was passed, and that list is returned. *)
Definition extended_by (pipeline stages : list value) (o : outcome) : Prop :=
  passed o = pipeline ++ stages /\ returned o = pipeline ++ stages
  /\ returned_is_passed o = true.

End PipelineStatements.

(** The two results found for the terms "o2, o2 sat" in "T=98 BP= 122/58
    HR= 7 RR= 20  O2 sat= 100% 2L NC": the same span for both terms. *)
Definition o2_sat_result : ValueExtractor.ValueMeasurement (F := decimal_float) :=
  {| ValueExtractor.text := "o2 sat= 100";
     ValueExtractor.start := 31; ValueExtractor.end_ := 42;
     ValueExtractor.num1 := ValueExtractor.VNum (PFloat (float_of_int 100));
     ValueExtractor.num2 := ValueExtractor.VNone;
     ValueExtractor.cond := Some "EQUAL";
     ValueExtractor.matching_term := "o2 sat" |}.

Definition o2_result : ValueExtractor.ValueMeasurement (F := decimal_float) :=
  {| ValueExtractor.text := "o2 sat= 100";
     ValueExtractor.start := 31; ValueExtractor.end_ := 42;
     ValueExtractor.num1 := ValueExtractor.VNum (PFloat (float_of_int 100));
     ValueExtractor.num2 := ValueExtractor.VNone;
     ValueExtractor.cond := Some "EQUAL";
     ValueExtractor.matching_term := "o2" |}.


(** The result found twice for the terms "bp,bp" in "bp 120". *)
Definition bp_result : ValueExtractor.ValueMeasurement (F := decimal_float) :=
  {| ValueExtractor.text := "bp 120";
     ValueExtractor.start := 0; ValueExtractor.end_ := 6;
     ValueExtractor.num1 := ValueExtractor.VNum (PFloat (float_of_int 120));
     ValueExtractor.num2 := ValueExtractor.VNone;
     ValueExtractor.cond := Some "EQUAL";
     ValueExtractor.matching_term := "bp" |}.

(** * Properties *)

(** Every pattern text of the two modules is well formed. *)
Lemma covid_patterns_compile :
  Forall (fun t => is_Some (Re.parse t)) CovidFinder.pattern_texts.
Proof. apply (bool_decide_unpack _). vm_compute. reflexivity. Qed.

Lemma value_patterns_compile :
  Forall (fun t => is_Some (Re.parse t)) ValueExtractor.pattern_texts.
Proof. apply (bool_decide_unpack _). vm_compute. reflexivity. Qed.

(** ** Loops that may raise *)

Lemma rfold_app {A B} (f : B -> A -> result B) (acc : B) (l1 l2 : list A) :
  rfold f acc (l1 ++ l2) = rfold f acc l1 ≫= fun acc' => rfold f acc' l2.
Proof.
  revert acc. induction l1 as [|x l1 IH]; intros acc; simpl; [reflexivity|].
  destruct (f acc x) as [acc'|e]; simpl; [apply IH|reflexivity].
Qed.

(** A loop whose body changes nothing on the elements it meets. *)
Lemma rfold_skip {A B} (f : B -> A -> result B) (acc : B) (l : list A) :
  Forall (fun x => forall a, f a x = Ok a) l -> rfold f acc l = Ok acc.
Proof.
  induction 1 as [|x l Hx _ IH]; simpl; [reflexivity|].
  rewrite Hx. exact IH.
Qed.

(** A property of the accumulator that every turn of the loop keeps. *)
Lemma rfold_invariant {A B} (P : B -> Prop) (f : B -> A -> result B)
    (acc acc' : B) (l : list A) :
  (forall a x a', x ∈ l -> P a -> f a x = Ok a' -> P a') ->
  P acc -> rfold f acc l = Ok acc' -> P acc'.
Proof.
  revert acc. induction l as [|x l IH]; intros acc Hf Hacc Hr; simpl in Hr.
  - congruence.
  - destruct (f acc x) as [a1|e] eqn:Hx; simpl in Hr; [|discriminate].
    apply (IH a1); [|eauto using list_elem_of_here|exact Hr].
    intros a y a' Hy. apply Hf. by apply list_elem_of_further.
Qed.

Section Covid.
Context {F : PyFloat}.

(** *** Quiet collaborators *)

Lemma covid_cleanup_quiet {E : Finders} (s : string) :
  run_date_finder (Py.lower s) = [] ->
  CovidFinder._cleanup s = CovidFinder._cleanup (E := no_finders) s.
Proof.
  intros Hq. unfold CovidFinder._cleanup, CovidFinder._erase_dates.
  rewrite Hq. reflexivity.
Qed.

Lemma covid_run_quiet {E : Finders} (s : string) :
  run_date_finder (Py.lower s) = [] ->
  CovidFinder.run s = CovidFinder.run (E := no_finders) s.
Proof.
  intros Hq. unfold CovidFinder.run. rewrite (covid_cleanup_quiet s Hq). reflexivity.
Qed.


(** C8: for the sentence "indiana reports 292 new coronavirus cases 9
    additional deaths", if the date finder reports nothing in it, [run]
    returns exactly one measurement, a case count of value 292 for the text
    "292 new coronavirus cases". *)
Theorem indiana_one_case {E : Finders} :
  let s := "indiana reports 292 new coronavirus cases 9 additional deaths" in
  run_date_finder (Py.lower s) = [] ->
  exists t, CovidFinder.run s = Ok [t]
            /\ CovidFinder.value_case t = Some (PInt 292)
            /\ CovidFinder.text_case t = Some "292 new coronavirus cases"
            /\ CovidFinder.case_start t = Some 16
            /\ CovidFinder.case_end t = Some 41.
Proof.
  intros s Hq. rewrite (covid_run_quiet s Hq).
  eexists. split; [vm_compute; reflexivity|]. repeat split.
Qed.

(** *** The captures of a range *)

Lemma convert_capture_endpoint gd (k v : string) :
  k ∈ ["int_to"; "tnum_to"; "enum_to"] ->
  CovidFinder.convert_capture gd k v = endpoint k v.
Proof.
  intros Hk. repeat (apply elem_of_cons in Hk as [->|Hk]); [..|by apply elem_of_nil in Hk];
    unfold CovidFinder.convert_capture, endpoint;
    cbn [String.eqb Ascii.eqb Bool.eqb andb orb].
  - destruct (CovidFinder._to_int v); reflexivity.
  - destruct (CovidFinder._tnum_to_int v); reflexivity.
  - reflexivity.
Qed.

Lemma case_values_step_inert gd (kv : string * option string) (values : list pynum) :
  inert kv ->
  (let '(k, v) := kv in
   match v with
   | None => Ok values
   | Some v =>
       CovidFinder.convert_capture gd k v ≫= fun val =>
       match val with
       | Some x => Ok (values ++ [x])
       | None => Ok values
       end
   end) = Ok values.
Proof.
  destruct kv as [k [v|]]; [|reflexivity].
  intros [Hn|Hk]; [discriminate|]. simpl in Hk.
  repeat (apply elem_of_cons in Hk as [->|Hk]); [..|by apply elem_of_nil in Hk];
    unfold CovidFinder.convert_capture;
    cbn [String.eqb Ascii.eqb Bool.eqb andb orb]; reflexivity.
Qed.

(** A candidate that matched a range appends the converted second endpoint
    and nothing else.  If the groups of the match other than the second
    endpoint [k] are without a value, or are the captures of the first
    endpoint or of the words, the values appended are those of
    [endpoint k v]; the capture of the first endpoint plays no part. *)
Lemma range_candidate_values (gd pre post : list (string * option string))
    (k v : string) :
  gd = pre ++ (k, Some v) :: post ->
  k ∈ ["int_to"; "tnum_to"; "enum_to"] ->
  Forall inert pre -> Forall inert post ->
  CovidFinder.case_values gd = option_list <$> endpoint k v.
Proof.
  intros -> Hk Hpre Hpost. unfold CovidFinder.case_values.
  set (gd := pre ++ (k, Some v) :: post) at 1. rewrite rfold_app.
  rewrite rfold_skip.
  2:{ eapply Forall_impl; [exact Hpre|]. intros kv Hkv a.
      apply (case_values_step_inert gd kv a Hkv). }
  simpl. rewrite (convert_capture_endpoint gd k v Hk).
  destruct (endpoint k v) as [[x|]|e]; simpl; [..|reflexivity].
  - apply rfold_skip. eapply Forall_impl; [exact Hpost|]. intros kv Hkv a.
    apply (case_values_step_inert gd kv a Hkv).
  - apply rfold_skip. eapply Forall_impl; [exact Hpost|]. intros kv Hkv a.
    apply (case_values_step_inert gd kv a Hkv).
Qed.

(** The second endpoint of "from 10 to 25 new cases". *)
Lemma endpoint_25 : endpoint "int_to" "25" = Ok (Some (PInt 25)).
Proof. vm_compute. reflexivity. Qed.

Lemma nineteenth_candidate :
  let s := "1,000,000th five to nineteenth case covid" in
  CovidFinder._cleanup (E := no_finders) s = s
  /\ on_candidates candidate_view
       (CovidFinder._regex_match s CovidFinder._CASE_REGEXES)
     = Ok [(12, 41, "five to nineteenth case covid",
            [("tnum_from", Some "five"); ("enum_to", Some "nineteenth")])]
  /\ on_candidates values_of
       (CovidFinder._regex_match s CovidFinder._CASE_REGEXES) = Ok [Ok []]
  /\ CovidFinder.run (E := no_finders) s = Ok [].
Proof. repeat split; vm_compute; reflexivity. Qed.

(** C10 fails: in "1,000,000th five to nineteenth case covid", if the date
    finder reports nothing, the one candidate that is kept matched the range
    "five to nineteenth"; the table [_enum_to_int_map] has the key
    "ninenteenth" and no key "nineteenth", so no value is appended for the
    candidate and [run] returns no measurement. *)
Theorem range_candidate_without_value {E : Finders} :
  let s := "1,000,000th five to nineteenth case covid" in
  run_date_finder (Py.lower s) = [] ->
  CovidFinder._cleanup s = s
  /\ on_candidates candidate_view
       (CovidFinder._regex_match s CovidFinder._CASE_REGEXES)
     = Ok [(12, 41, "five to nineteenth case covid",
            [("tnum_from", Some "five"); ("enum_to", Some "nineteenth")])]
  /\ on_candidates values_of
       (CovidFinder._regex_match s CovidFinder._CASE_REGEXES) = Ok [Ok []]
  /\ CovidFinder.run s = Ok [].
Proof.
  intros s Hq. rewrite (covid_cleanup_quiet s Hq), (covid_run_quiet s Hq).
  exact nineteenth_candidate.
Qed.

End Covid.

(** The groups of the match of "from 10 to 25 new cases": the value 25 of
    the second endpoint is the one value appended. *)
Lemma range_candidate_values_example :
  CovidFinder.case_values (F := decimal_float)
    [("int_from", Some "10"); ("tnum_from", None); ("enum_from", None);
     ("int_to", Some "25"); ("tnum_to", None); ("enum_to", None); ("no", None);
     ("floatnum", None); ("floatunits", None); ("int", None); ("tnum", None);
     ("enum", None)]
  = option_list <$> endpoint "int_to" "25"
  /\ endpoint (F := decimal_float) "int_to" "25" = Ok (Some (PInt 25)).
Proof.
  split; [|exact endpoint_25].
  apply (range_candidate_values (F := decimal_float) _
           [("int_from", Some "10"); ("tnum_from", None); ("enum_from", None)]
           [("tnum_to", None); ("enum_to", None); ("no", None);
            ("floatnum", None); ("floatunits", None); ("int", None);
            ("tnum", None); ("enum", None)]
           "int_to" "25").
  - reflexivity.
  - set_solver.
  - repeat constructor; (by left) || (right; set_solver).
  - repeat constructor; by left.
Qed.

Lemma range_candidate_without_value_witness :
  let s := "1,000,000th five to nineteenth case covid" in
  on_candidates (values_of (F := decimal_float))
    (CovidFinder._regex_match s CovidFinder._CASE_REGEXES) = Ok [Ok []]
  /\ CovidFinder.run (F := decimal_float) (E := no_finders) s = Ok [].
Proof.
  destruct (range_candidate_without_value (F := decimal_float) (E := no_finders))
    as (_ & _ & Hvalues & Hrun); [reflexivity|].
  split; [exact Hvalues|exact Hrun].
Defined.


Lemma indiana_one_case_witness :
  exists t, CovidFinder.run (F := decimal_float) (E := no_finders)
              "indiana reports 292 new coronavirus cases 9 additional deaths" = Ok [t]
            /\ CovidFinder.value_case t = Some (PInt 292)
            /\ CovidFinder.text_case t = Some "292 new coronavirus cases"
            /\ CovidFinder.case_start t = Some 16
            /\ CovidFinder.case_end t = Some 41.
Proof.
  apply (indiana_one_case (F := decimal_float) (E := no_finders)).
  reflexivity.
Defined.

(** ** Lists *)

Lemma ordered_pairs_lookup {A} (R : A -> A -> Prop) (l : list A) :
  ordered_pairs R l ->
  forall i j a b, i < j -> l !! i = Some a -> l !! j = Some b -> R a b.
Proof.
  induction l as [|x l IH]; intros Hl i j a b Hij Hi Hj; [done|].
  destruct Hl as [Hx Hl]. destruct j as [|j]; [lia|]. simpl in Hj.
  destruct i as [|i]; simpl in Hi.
  - injection Hi as ->. rewrite Forall_forall in Hx. apply Hx.
    apply list_elem_of_lookup. eauto.
  - apply (IH Hl i j); [lia|done..].
Qed.

Lemma ordered_pairs_filter {A} (R : A -> A -> Prop) (P : A -> Prop)
    `{!forall x, Decision (P x)} (l : list A) :
  ordered_pairs (fun x y => P x -> P y -> R x y) l ->
  ordered_pairs R (filter P l).
Proof.
  induction l as [|x l IH]; intros Hl; [done|]. destruct Hl as [Hx Hl].
  rewrite filter_cons. destruct (decide (P x)) as [Px|]; [|auto].
  split; [|auto]. apply Forall_forall. intros y [Py Hy]%list_elem_of_filter.
  rewrite Forall_forall in Hx. auto.
Qed.

Lemma ordered_pairs_impl {A} (R R' : A -> A -> Prop) (l : list A) :
  (forall x y, x ∈ l -> y ∈ l -> R x y -> R' x y) ->
  ordered_pairs R l -> ordered_pairs R' l.
Proof.
  induction l as [|x l IH]; intros HR Hl; [done|]. destruct Hl as [Hx Hl]. split.
  - apply Forall_forall. intros y Hy. rewrite Forall_forall in Hx.
    apply HR; [left|by right|auto].
  - apply IH; [|done]. intros a b Ha Hb. apply HR; by right.
Qed.

Lemma ordered_pairs_fmap {A B} (f : A -> B) (R : B -> B -> Prop) (l : list A) :
  ordered_pairs (fun x y => R (f x) (f y)) l -> ordered_pairs R (f <$> l).
Proof.
  induction l as [|x l IH]; intros Hl; [done|]. destruct Hl as [Hx Hl].
  split; [|auto]. by apply Forall_fmap.
Qed.

(** ** Sorting *)

Section Sorting.
Context {A : Type} (le : A -> A -> bool).

Lemma elem_of_insert_by (x y : A) (l : list A) :
  y ∈ insert_by le x l <-> y = x \/ y ∈ l.
Proof.
  induction l as [|z l IH]; simpl.
  - rewrite list_elem_of_singleton, elem_of_nil. tauto.
  - destruct (le x z); rewrite !elem_of_cons; [tauto|]. rewrite IH. tauto.
Qed.

Lemma elem_of_sorted_with (y : A) (l : list A) :
  y ∈ sorted_with le l <-> y ∈ l.
Proof.
  unfold sorted_with. induction l as [|x l IH]; simpl; [done|].
  rewrite elem_of_insert_by, elem_of_cons, IH. done.
Qed.

Lemma length_insert_by (x : A) (l : list A) :
  length (insert_by le x l) = S (length l).
Proof.
  induction l as [|z l IH]; simpl; [done|]. destruct (le x z); simpl; lia.
Qed.

Lemma length_sorted_with (l : list A) : length (sorted_with le l) = length l.
Proof.
  unfold sorted_with. induction l as [|x l IH]; simpl; [done|].
  by rewrite length_insert_by, IH.
Qed.

End Sorting.

(** [sorted(l, key=key)] is in ascending order of the key. *)
Lemma sorted_by_ordered {A} (key : A -> nat) (l : list A) :
  ordered_pairs (fun x y => key x <= key y) (sorted_by key l).
Proof.
  unfold sorted_by, sorted_with. induction l as [|x l IH]; simpl; [done|].
  revert IH. generalize (foldr (insert_by (fun x y => key x <=? key y)) [] l).
  intros s. induction s as [|z s IHs]; intros Hs; simpl; [done|].
  destruct Hs as [Hz Hs]. destruct (Nat.leb_spec (key x) (key z)) as [Hxz|Hxz].
  - split; [|done]. constructor; [done|].
    eapply Forall_impl; [exact Hz|]. simpl. lia.
  - split; [|auto]. apply Forall_forall. intros y [->|Hy]%elem_of_insert_by.
    + lia.
    + rewrite Forall_forall in Hz. auto.
Qed.

(** ** Overlapping results *)

Section Overlap.
Context {F : PyFloat}.
Import ValueExtractor.

Lemma num_eqb_refl (x : pynum) : num_eqb x x = true.
Proof.
  unfold num_eqb, num_cmp. destruct x as [z|f].
  - by rewrite Z.compare_refl.
  - by rewrite float_cmp_refl.
Qed.

Lemma pyval_eqb_refl (v : pyval) : pyval_eqb v v = true.
Proof.
  destruct v as [|n|s]; simpl; [done|apply num_eqb_refl|apply String.eqb_refl].
Qed.

Lemma vm_eqb_refl (r : ValueMeasurement) : vm_eqb r r = true.
Proof.
  unfold vm_eqb.
  rewrite !String.eqb_refl, !Nat.eqb_refl, !pyval_eqb_refl.
  by rewrite bool_decide_eq_true_2.
Qed.

Lemma vm_eqb_start (a b : ValueMeasurement) : vm_eqb a b = true -> start a = start b.
Proof.
  unfold vm_eqb. rewrite !andb_true_iff. intros [[[[[[_ H] _] _] _] _] _].
  by apply Nat.eqb_eq.
Qed.

Lemma vm_eqb_end (a b : ValueMeasurement) : vm_eqb a b = true -> end_ a = end_ b.
Proof.
  unfold vm_eqb. rewrite !andb_true_iff. intros [[[[[_ H] _] _] _] _].
  by apply Nat.eqb_eq.
Qed.


Lemma vm_in_elem (r : ValueMeasurement) (s : list ValueMeasurement) :
  r ∈ s -> vm_in r s = true.
Proof.
  intros Hr. unfold vm_in. apply existsb_exists. exists r. split.
  - by apply list_elem_of_In.
  - apply vm_eqb_refl.
Qed.

Lemma to_discard_cases (ri rj : ValueMeasurement) :
  to_discard ri rj = ri \/ to_discard ri rj = rj.
Proof. unfold to_discard. repeat case_match; auto. Qed.

(** The inner loop adds the result to discard of every pair that
    overlaps, and nothing else. *)
Lemma discard_against_spec ri D later D' :
  discard_against ri D later = Ok D' ->
  forall x, x ∈ D' <->
    x ∈ D \/ exists rj, rj ∈ later /\ start rj < end_ ri /\ x = to_discard ri rj.
Proof.
  unfold discard_against. revert D. induction later as [|rj later IH]; intros D HD x.
  - simpl in HD. injection HD as <-. split; [auto|].
    intros [?|(rj & []%elem_of_nil & _)]. done.
  - simpl in HD. destruct (start ri <=? start rj); simpl in HD; [|discriminate].
    destruct (Nat.ltb_spec (start rj) (end_ ri)) as [Hlt|Hge].
    + rewrite (IH _ HD x), elem_of_app, list_elem_of_singleton. split.
      * intros [[?| ->]|(r & Hr & ? & ?)]; [auto| |].
        -- right. exists rj. split; [left|done].
        -- right. exists r. split; [by right|done].
      * intros [?|(r & [->|Hr]%elem_of_cons & ? & ?)]; [auto..|].
        right. exists r. done.
    + rewrite (IH _ HD x). split.
      * intros [?|(r & Hr & ? & ?)]; [auto|]. right. exists r. split; [by right|done].
      * intros [?|(r & [->|Hr]%elem_of_cons & ? & ?)]; [auto|lia|].
        right. exists r. done.
Qed.

Lemma discard_pairs_incl D results D' :
  discard_pairs D results = Ok D' -> forall x, x ∈ D -> x ∈ D'.
Proof.
  revert D. induction results as [|ri later IH]; intros D HD x Hx; simpl in HD.
  - by injection HD as <-.
  - destruct (discard_against ri D later) as [D1|] eqn:H1; simpl in HD; [|discriminate].
    apply (IH _ HD). apply (discard_against_spec _ _ _ _ H1). auto.
Qed.

(** After the two loops, no two results that are both outside the set
    overlap. *)
Lemma discard_pairs_spec D results D' :
  discard_pairs D results = Ok D' ->
  ordered_pairs (fun a b => vm_in a D' = false -> vm_in b D' = false ->
                            end_ a <= start b) results.
Proof.
  revert D. induction results as [|ri later IH]; intros D HD; simpl in HD; [done|].
  destruct (discard_against ri D later) as [D1|] eqn:H1; simpl in HD; [|discriminate].
  split; [|by apply (IH D1)].
  apply Forall_forall. intros rj Hrj Hi Hj.
  destruct (Nat.ltb_spec (start rj) (end_ ri)) as [Hlt|]; [|done].
  assert (to_discard ri rj ∈ D') as Hd.
  { apply (discard_pairs_incl _ _ _ HD). apply (discard_against_spec _ _ _ _ H1).
    right. exists rj. done. }
  apply vm_in_elem in Hd. destruct (to_discard_cases ri rj) as [Hc|Hc];
    rewrite Hc in Hd; congruence.
Qed.

(** The results that [_resolve_overlap] returns. *)
Lemma resolve_overlap_filter terms results out :
  _resolve_overlap terms results = Ok (Some out) ->
  exists D, discard_pairs [] results = Ok D
            /\ out = filter (fun r => negb (vm_in r D)) results.
Proof.
  unfold _resolve_overlap. destruct (length results =? 0); [discriminate|].
  destruct (discard_pairs [] results) as [D|] eqn:HD; simpl; [|discriminate].
  destruct D as [|d D]; simpl; intros [= <-]; eexists; split; try done.
  clear. induction results as [|r rs IH]; [done|].
  rewrite filter_cons_True; [by f_equal|done].
Qed.

Lemma resolve_overlap_subset terms results out r :
  _resolve_overlap terms results = Ok (Some out) -> r ∈ out -> r ∈ results.
Proof.
  intros (D & _ & ->)%resolve_overlap_filter [_ ?]%list_elem_of_filter. done.
Qed.

(** No two results that [_resolve_overlap] returns overlap. *)
Lemma resolve_overlap_disjoint terms results out :
  _resolve_overlap terms results = Ok (Some out) ->
  ordered_pairs (fun a b => end_ a <= start b) out.
Proof.
  intros (D & HD & ->)%resolve_overlap_filter.
  apply ordered_pairs_filter.
  eapply ordered_pairs_impl; [|exact (discard_pairs_spec _ _ _ HD)].
  intros a b _ _ Hab Ha Hb. apply Hab.
  - by destruct (vm_in a D).
  - by destruct (vm_in b D).
Qed.

(** On results in the order of their start, the assertion of the inner
    loop holds and the loops end. *)
Lemma discard_against_ok ri D later :
  Forall (fun rj => start ri <= start rj) later ->
  exists D', discard_against ri D later = Ok D'.
Proof.
  unfold discard_against. intros Hl. revert D.
  induction Hl as [|rj later Hrj _ IH]; intros D; simpl; [eauto|].
  apply Nat.leb_le in Hrj. rewrite Hrj. simpl.
  destruct (start rj <? end_ ri); simpl; apply IH.
Qed.

Lemma discard_pairs_ok D results :
  ordered_pairs (fun a b => start a <= start b) results ->
  exists D', discard_pairs D results = Ok D'.
Proof.
  revert D. induction results as [|ri later IH]; intros D Hs; simpl; [eauto|].
  destruct Hs as [Hri Hs].
  destruct (discard_against_ok ri D later Hri) as [D1 ->]. simpl. by apply IH.
Qed.

Lemma resolve_overlap_ok terms results :
  results <> [] ->
  ordered_pairs (fun a b => start a <= start b) results ->
  exists out, _resolve_overlap terms results = Ok (Some out).
Proof.
  intros Hne Hs. unfold _resolve_overlap.
  destruct results as [|r rs]; [done|]. simpl length. simpl Nat.eqb.
  destruct (discard_pairs_ok [] (r :: rs) Hs) as [D ->]. simpl.
  destruct (length D =? 0); eauto.
Qed.

(** C1, amended: the roles are the other way round.  On results in the
    order of their start, if two results overlap without having the same
    span and the matched text of the earlier one ends with the matching
    term of the later one, the earlier one is the one to discard and is not
    among the results returned; if the two are the only results, the later
    one alone is returned. *)
Theorem earlier_discarded (terms : list string)
    (results : list ValueMeasurement) (i j : nat) (ri rj : ValueMeasurement) :
  ordered_pairs (fun a b => start a <= start b) results ->
  i < j -> results !! i = Some ri -> results !! j = Some rj ->
  start rj < end_ ri ->
  ~ (start ri = start rj /\ end_ ri = end_ rj) ->
  Py.endswith (matching_term rj) (text ri) = true ->
  to_discard ri rj = ri
  /\ exists out, _resolve_overlap terms results = Ok (Some out)
                 /\ (ri ∉ out)
                 /\ (results = [ri; rj] -> out = [rj]).
Proof.
  intros Hs Hij Hi Hj Hov Hne Hend.
  assert (to_discard ri rj = ri) as Hd.
  { unfold to_discard.
    destruct ((start ri =? start rj) && (end_ ri =? end_ rj)) eqn:Hid.
    - apply andb_true_iff in Hid as [?%Nat.eqb_eq ?%Nat.eqb_eq]. tauto.
    - by rewrite Hend. }
  split; [done|].
  destruct (resolve_overlap_ok terms results) as [out Hout]; [|done|].
  { intros ->. done. }
  exists out. split; [done|].
  destruct (resolve_overlap_filter _ _ _ Hout) as (D & HD & ->).
  assert (ri ∈ D) as HriD.
  { clear Hout. revert Hs i j Hij Hi Hj D HD. generalize (@nil ValueMeasurement).
    induction results as [|r rs IH]; intros D0 Hs i j Hij Hi Hj D HD; [done|].
    simpl in HD.
    destruct (discard_against r D0 rs) as [D1|] eqn:H1; simpl in HD; [|discriminate].
    destruct j as [|j]; [lia|]. simpl in Hj. destruct i as [|i]; simpl in Hi.
    - injection Hi as ->. apply (discard_pairs_incl _ _ _ HD).
      apply (discard_against_spec _ _ _ _ H1). right. exists rj.
      split; [|done]. apply list_elem_of_lookup. eauto.
    - destruct Hs as [_ Hs]. apply (IH D1 Hs i j); [lia|done..]. }
  split.
  - intros [Hin _]%list_elem_of_filter. apply vm_in_elem in HriD.
    rewrite HriD in Hin. done.
  - intros ->. simpl in HD. unfold discard_against in HD. simpl in HD.
    destruct (start ri <=? start rj); simpl in HD; [|discriminate].
    apply Nat.ltb_lt in Hov. rewrite Hov in HD. simpl in HD.
    injection HD as <-. rewrite Hd.
    rewrite filter_cons_False.
    2:{ simpl. rewrite vm_eqb_refl. simpl. tauto. }
    rewrite filter_cons_True; [done|]. simpl.
    destruct (vm_eqb rj ri) eqn:Heq; [|done].
    exfalso. apply Hne.
    split; symmetry; [by apply vm_eqb_start|by apply vm_eqb_end].
Qed.

End Overlap.

Lemma earlier_discarded_witness :
  ValueExtractor.to_discard rr_result sao2_result = rr_result
  /\ exists out,
       ValueExtractor._resolve_overlap ["sao2"; "rr"] [rr_result; sao2_result]
       = Ok (Some out)
       /\ (rr_result ∉ out)
       /\ ([rr_result; sao2_result] = [rr_result; sao2_result] -> out = [sao2_result]).
Proof.
  apply (earlier_discarded (F := decimal_float) ["sao2"; "rr"]
           [rr_result; sao2_result] 0 1 rr_result sao2_result).
  - simpl. repeat constructor.
  - lia.
  - reflexivity.
  - reflexivity.
  - simpl. lia.
  - simpl. lia.
  - reflexivity.
Defined.

(** C1, as stated, fails: for the terms "fio2, fio" and the sentence "FiO2
    40" the two results overlap without having the same span, the matched
    text "fio2" of the later one ends with the matching term "fio2" of the
    earlier one, and yet the later one is discarded and the earlier one is
    kept. *)
Lemma later_discarded :
  (sorted_by ValueExtractor.start <$>
     (ValueExtractor.extract (E := no_finders)
        "fio2, fio" "FiO2 40" None None None false false).2)
  = Ok [fio2_result; fio_result]
  /\ ValueExtractor.start fio_result < ValueExtractor.end_ fio2_result
  /\ ValueExtractor.end_ fio2_result <> ValueExtractor.end_ fio_result
  /\ Py.endswith (ValueExtractor.matching_term fio2_result)
                 (ValueExtractor.text fio_result) = true
  /\ ValueExtractor._resolve_overlap ["fio2"; "fio"] [fio2_result; fio_result]
     = Ok (Some [fio2_result]).
Proof.
  split; [reflexivity|]. split; [simpl; lia|]. split; [simpl; lia|].
  split; reflexivity.
Qed.

(** ** The document that [run] returns *)

Lemma rfold_ext {A B} (f g : B -> A -> result B) (acc : B) (l : list A) :
  (forall a x, x ∈ l -> f a x = g a x) -> rfold f acc l = rfold g acc l.
Proof.
  revert acc. induction l as [|y l IH]; intros acc Hfg; simpl; [done|].
  rewrite (Hfg acc y) by left. destruct (g acc y) as [acc'|]; simpl; [|done].
  apply IH. intros acc1 z Hz. apply Hfg. by right.
Qed.

(** A loop that appends one value for each element. *)
Lemma rfold_collect {A B} (f : A -> result B) (acc out : list B) (l : list A) :
  rfold (fun acc x => y ← f x; Ok (acc ++ [y])) acc l = Ok out ->
  exists ys, out = acc ++ ys /\ Forall2 (fun x y => f x = Ok y) l ys.
Proof.
  revert acc. induction l as [|x l IH]; intros acc H; simpl in H.
  - injection H as <-. exists []. by rewrite app_nil_r.
  - destruct (f x) as [y|] eqn:Hx; simpl in H; [|discriminate].
    destruct (IH _ H) as (ys & -> & Hys). exists (y :: ys).
    rewrite <- app_assoc. split; [done|]. by constructor.
Qed.

Section Documents.
Context {F : PyFloat} {E : Finders}.
Import ValueExtractor.

Lemma measurement_dict_span d os t m j :
  measurement_dict d os t m = Ok j ->
  span_of j = Some (Z.of_nat (start m), Z.of_nat (end_ m)).
Proof.
  unfold measurement_dict. intros H.
  destruct (d !! matching_term m); cbn [mbind result_bind] in H; [|discriminate].
  match type of H with
  | context [result_bind _ _ _ ?x] => destruct x as [[lo hi]|]
  | context [mbind _ ?x] => destruct x as [[lo hi]|]
  end; cbn [mbind result_bind] in H; [|discriminate].
  injection H as <-. reflexivity.
Qed.

(** The record that [_to_json] builds. *)
Lemma to_json_record d ot os out t doc :
  _to_json d ot os (Some out) t = Ok doc ->
  exists ms,
    doc = JDict [
      ("sentence", JStr os);
      ("measurementCount", JNum (PInt (Z.of_nat (length out))));
      ("terms", JList (JStr <$> ot));
      ("querySuccess", JBool (0 <? length out));
      ("measurementList", JList ms) ]
    /\ Forall2 (fun m j => measurement_dict d os t m = Ok j) out ms.
Proof.
  unfold _to_json. intros H.
  match type of H with
  | context [rfold ?f [] out] => destruct (rfold f [] out) as [ms|] eqn:Hms
  end; cbn [mbind result_bind] in H; [|discriminate].
  injection H as <-. apply rfold_collect in Hms as (ys & -> & Hys).
  exists ys. done.
Qed.

(** The two ways in which [run] returns a document. *)
Lemma run_cases term_string sentence str_minval str_maxval enumlist
    is_case_sensitive is_denom_only d doc :
  let ex := extract term_string sentence str_minval str_maxval enumlist
                    is_case_sensitive is_denom_only in
  let r := run term_string sentence str_minval str_maxval enumlist
               is_case_sensitive is_denom_only d in
  r.1 = Ok doc ->
  (ex.2 = Ok [] /\ doc = EMPTY_RESULT)
  \/ exists results out,
       ex.2 = Ok results /\ results <> []
       /\ _resolve_overlap ex.1.2 (sorted_by start results) = Ok (Some out)
       /\ _to_json r.2 ex.1.1 sentence (Some out) (given enumlist) = Ok doc.
Proof.
  intros ex r. subst r. unfold run. fold ex.
  destruct ex as [[ot terms] extracted]. cbn [fst snd].
  destruct extracted as [results|]; cbn [mbind result_bind]; [|discriminate].
  destruct results as [|r0 results]; cbn [length Nat.eqb].
  - intros [= <-]. by left.
  - intros H. right. exists (r0 :: results).
    destruct (_resolve_overlap terms (sorted_by start (r0 :: results)))
      as [[out|]|]; cbn [mbind result_bind] in H; try discriminate.
    exists out. done.
Qed.

(** C2: the measurements of one returned document do not overlap.  For any
    two measurements of the document that [run] returns, the one that
    stands first in the list ends at or before the start of the other. *)
Theorem measurements_do_not_overlap (term_string sentence : string)
    (str_minval str_maxval : option string) (enumlist : option enumlist_arg)
    (is_case_sensitive is_denom_only : bool) (_term_dict : gmap string string)
    (i j : nat) (a b : option (Z * Z)) :
  let returned :=
    returned_spans (run term_string sentence str_minval str_maxval enumlist
                        is_case_sensitive is_denom_only _term_dict).1 in
  i < j -> returned !! i = Some a -> returned !! j = Some b ->
  exists sa ea sb eb,
    a = Some (sa, ea) /\ b = Some (sb, eb) /\ (ea <= sb)%Z.
Proof.
  intros returned Hij Hi Hj. subst returned.
  destruct (run _ _ _ _ _ _ _ _).1 as [doc|] eqn:Hrun; [|done].
  apply run_cases in Hrun as [[_ ->]|(results & out & _ & _ & Hout & Hdoc)];
    [done|].
  apply to_json_record in Hdoc as (ms & -> & Hms).
  change (returned_spans (Ok (JDict _))) with (span_of <$> ms) in Hi, Hj.
  apply list_lookup_fmap_Some in Hi as (ja & -> & Hi).
  apply list_lookup_fmap_Some in Hj as (jb & -> & Hj).
  destruct (Forall2_lookup_r _ _ _ _ _ Hms Hi) as (ma & Hma & Hda).
  destruct (Forall2_lookup_r _ _ _ _ _ Hms Hj) as (mb & Hmb & Hdb).
  rewrite (measurement_dict_span _ _ _ _ _ Hda).
  rewrite (measurement_dict_span _ _ _ _ _ Hdb).
  do 4 eexists. split; [done|]. split; [done|].
  apply Nat2Z.inj_le.
  exact (ordered_pairs_lookup _ _ (resolve_overlap_disjoint _ _ _ Hout)
           i j ma mb Hij Hma Hmb).
Qed.

(** *** The matching term of a result *)

(** Case analysis on a body that ends in [Ok]: the binds, tests and
    matches are taken apart from the outside. *)
Ltac unravel H :=
  repeat (cbn [mbind result_bind fmap result_fmap] in H;
    lazymatch type of H with
    | Ok _ = Ok _ => injection H as H
    | Raise _ = Ok _ => discriminate H
    | mbind _ ?x = Ok _ => destruct x eqn:?
    | match ?x with _ => _ end = Ok _ => destruct x eqn:?
    | (if ?b then _ else _) = Ok _ => destruct b eqn:?
    | (let '(_, _) := ?p in _) = Ok _ => destruct p eqn:?
    end).

Lemma update_match_results_term mo a n1 n2 c q :
  results_of_term q a -> results_of_term q (_update_match_results mo a n1 n2 c q).
Proof.
  unfold _update_match_results, results_of_term. intros Ha.
  destruct (negb _); [|done]. cbn [a_results].
  apply Forall_app. split; [done|]. by constructor.
Qed.

Lemma for_matches_invariant (P : acc -> Prop) ptext sentence body a a' :
  (forall a mo a', P a -> body a mo = Ok a' -> P a') ->
  P a -> for_matches ptext sentence body a = Ok a' -> P a'.
Proof.
  unfold for_matches. intros Hbody Ha H.
  destruct (Re.compile ptext false) as [p|]; cbn [mbind result_bind] in H;
    [|discriminate].
  revert H. apply rfold_invariant; [|done]. intros ? ? ? _. apply Hbody.
Qed.

Lemma fraction_range_body_term q lo hi d chk a mo a' :
  results_of_term q a -> fraction_range_body q lo hi d chk a mo = Ok a' ->
  results_of_term q a'.
Proof.
  unfold fraction_range_body. intros Ha H. unravel H; subst; try done.
  - by apply update_match_results_term.
  - unfold results_of_term. cbn [a_results]. apply Forall_app. split; [done|].
    by constructor.
Qed.

Lemma fraction_body_term q lo hi d a mo a' :
  results_of_term q a -> fraction_body q lo hi d a mo = Ok a' ->
  results_of_term q a'.
Proof.
  unfold fraction_body. intros Ha H. unravel H; subst; try done.
  by apply update_match_results_term.
Qed.

Lemma units_range_body_term q lo hi a mo a' :
  results_of_term q a -> units_range_body q lo hi a mo = Ok a' ->
  results_of_term q a'.
Proof.
  unfold units_range_body. intros Ha H. unravel H; subst; try done.
  by apply update_match_results_term.
Qed.

Lemma range_body_term q lo hi a mo a' :
  results_of_term q a -> range_body q lo hi a mo = Ok a' ->
  results_of_term q a'.
Proof.
  unfold range_body. intros Ha H. unravel H; subst; try done.
  by apply update_match_results_term.
Qed.

Lemma op_val_body_term q lo hi a mo a' :
  results_of_term q a -> op_val_body q lo hi a mo = Ok a' ->
  results_of_term q a'.
Proof.
  unfold op_val_body. intros Ha H. unravel H; subst; try done.
  by apply update_match_results_term.
Qed.

Lemma wds_val_body_term q lo hi a mo a' :
  results_of_term q a -> wds_val_body q lo hi a mo = Ok a' ->
  results_of_term q a'.
Proof.
  unfold wds_val_body. intros Ha H. unravel H; subst; try done.
  by apply update_match_results_term.
Qed.

Lemma extract_value_term q sentence lo hi d vs :
  _extract_value q sentence lo hi d = Ok vs ->
  Forall (fun r => matching_term r = q) vs.
Proof.
  unfold _extract_value. intros H.
  destruct (Re.search _regex_digits sentence); [|by injection H as <-].
  repeat match type of H with
  | mbind _ (for_matches ?p ?s ?b ?a) = Ok _ =>
      let Hm := fresh "Hm" in
      destruct (for_matches p s b a) eqn:Hm;
      cbn [mbind result_bind] in H; [|discriminate H];
      apply (for_matches_invariant (results_of_term q)) in Hm;
      [|eauto using fraction_range_body_term, fraction_body_term,
          units_range_body_term, range_body_term, op_val_body_term,
          wds_val_body_term
       |first [assumption|by constructor]]
  end.
  injection H as <-. unfold _remove_hypotheticals.
  apply Forall_forall. intros r [_ Hr]%list_elem_of_filter.
  unfold results_of_term in *. rewrite Forall_forall in Hm6. auto.
Qed.

Lemma enum_match_body_term (P : string -> Prop) q fw bs st mo st' :
  P q -> Forall (fun r => P (matching_term r)) st.2 ->
  enum_match_body q fw bs st mo = Ok st' ->
  Forall (fun r => P (matching_term r)) st'.2.
Proof.
  unfold enum_match_body. intros Hq Hst H. destruct st as [found_it results].
  unravel H; subst; try done; cbn [snd] in *.
  apply Forall_app. split; [done|]. by constructor.
Qed.

Lemma extract_enumlist_values_term terms sentence fw vs :
  _extract_enumlist_values terms sentence fw = Ok vs ->
  Forall (fun r => matching_term r ∈ terms) vs.
Proof.
  unfold _extract_enumlist_values. intros H.
  match type of H with
  | mbind _ ?x = Ok _ => destruct x as [bs|]
  end; cbn [mbind result_bind] in H; [|discriminate].
  destruct (length bs =? 0); [by injection H as <-|].
  revert H. apply (rfold_invariant (Forall (fun r => matching_term r ∈ terms)));
    [|done].
  intros results q results' Hq Hres H.
  destruct (Re.compile _ false) as [p|]; cbn [mbind result_bind] in H;
    [|discriminate].
  match type of H with
  | mbind _ ?x = Ok _ => destruct x as [[b rs]|] eqn:Hloop
  end; cbn [mbind result_bind] in H; [|discriminate].
  injection H as <-.
  change rs with (b, rs).2. revert Hloop.
  apply (rfold_invariant
           (fun st => Forall (fun r => matching_term r ∈ terms) st.2)); [|done].
  intros st mo st' _ Hst.
  by apply (enum_match_body_term (fun t => t ∈ terms)).
Qed.

(** Every result found is a result of one of the terms searched. *)
Lemma extract_terms term_string sentence str_minval str_maxval enumlist
    is_case_sensitive is_denom_only results :
  let ex := extract term_string sentence str_minval str_maxval enumlist
                    is_case_sensitive is_denom_only in
  ex.2 = Ok results -> Forall (fun r => matching_term r ∈ ex.1.2) results.
Proof.
  unfold extract. cbn [fst snd]. intros H.
  match type of H with
  | mbind _ ?x = Ok _ => destruct x as [[[lo hi]|]|]
  end; cbn [mbind result_bind] in H; [| |discriminate].
  - revert H.
    match goal with
    | |- rfold _ _ ?ts = _ -> _ =>
        apply (rfold_invariant (Forall (fun r => matching_term r ∈ ts)));
          [|done]
    end.
    intros acc q acc' Hq Hacc H.
    destruct (_extract_value _ _ _ _ _) as [vs|] eqn:Hvs;
      cbn [mbind result_bind] in H; [|discriminate].
    injection H as <-. apply Forall_app. split; [done|].
    apply extract_value_term in Hvs. eapply Forall_impl; [exact Hvs|].
    intros r ->. done.
  - by apply extract_enumlist_values_term in H.
Qed.

(** *** The table of terms *)

Lemma remember_terms_lookup (terms original_terms : list string)
    (d d' : gmap string string) (t : string) :
  length terms = length original_terms -> t ∈ terms ->
  remember_terms terms original_terms d !! t
  = remember_terms terms original_terms d' !! t.
Proof.
  intros Hlen Ht. unfold remember_terms.
  assert (t ∈ (zip terms original_terms).*1 \/ d !! t = d' !! t) as Hl.
  { left. by rewrite fst_zip by lia. }
  clear Hlen Ht. revert d d' Hl.
  induction (zip terms original_terms) as [|[k v] l IH]; intros d d' Hl.
  - destruct Hl as [[]%elem_of_nil|]. done.
  - cbn [foldl]. apply IH. cbn [fmap list_fmap fst] in Hl.
    destruct (decide (t = k)) as [->|Hne].
    + right. by rewrite !lookup_insert_eq.
    + destruct Hl as [Hl|Hl].
      * left. apply elem_of_cons in Hl as [|]; done.
      * right. by rewrite !lookup_insert_ne.
Qed.

Lemma extract_terms_length term_string sentence str_minval str_maxval enumlist
    is_case_sensitive is_denom_only :
  let ex := extract term_string sentence str_minval str_maxval enumlist
                    is_case_sensitive is_denom_only in
  length ex.1.2 = length ex.1.1.
Proof.
  unfold extract. cbn [fst snd]. destruct (negb is_case_sensitive);
    by rewrite !length_fmap.
Qed.

Lemma measurement_dict_table d d' os t m :
  d !! matching_term m = d' !! matching_term m ->
  measurement_dict d os t m = measurement_dict d' os t m.
Proof. unfold measurement_dict. by intros ->. Qed.

(** The document does not depend on what the table held before the call. *)
Lemma run_table_irrelevant term_string sentence str_minval str_maxval enumlist
    is_case_sensitive is_denom_only (d d' : gmap string string) :
  (run term_string sentence str_minval str_maxval enumlist
       is_case_sensitive is_denom_only d).1
  = (run term_string sentence str_minval str_maxval enumlist
         is_case_sensitive is_denom_only d').1.
Proof.
  pose proof (extract_terms term_string sentence str_minval str_maxval enumlist
                is_case_sensitive is_denom_only) as Hterms.
  pose proof (extract_terms_length term_string sentence str_minval str_maxval
                enumlist is_case_sensitive is_denom_only) as Hlen.
  unfold run. cbv zeta in Hterms, Hlen.
  destruct (extract _ _ _ _ _ _ _) as [[ot terms] extracted].
  cbn [fst snd] in *.
  destruct extracted as [results|]; cbn [mbind result_bind]; [|done].
  specialize (Hterms results eq_refl).
  destruct (length results =? 0); [done|].
  destruct (_resolve_overlap terms (sorted_by start results))
    as [[out|]|] eqn:Hout; cbn [mbind result_bind]; [|done..].
  unfold _to_json. erewrite rfold_ext; [reflexivity|].
  intros acc m Hm. cbn beta. erewrite measurement_dict_table; [reflexivity|].
  apply remember_terms_lookup; [done|].
  rewrite Forall_forall in Hterms. apply Hterms.
  apply (elem_of_sorted_with (fun x y => start x <=? start y)).
  by apply (resolve_overlap_subset _ _ _ _ Hout).
Qed.

(** C9: two calls of [run] with the same arguments return the same
    document, whatever the table of terms holds between them; in particular
    a second call made on the table as the first call left it returns the
    document of the first. *)
Theorem run_twice_same_document (term_string sentence : string)
    (str_minval str_maxval : option string) (enumlist : option enumlist_arg)
    (is_case_sensitive is_denom_only : bool) (_term_dict : gmap string string) :
  let first := run term_string sentence str_minval str_maxval enumlist
                   is_case_sensitive is_denom_only _term_dict in
  (run term_string sentence str_minval str_maxval enumlist
       is_case_sensitive is_denom_only first.2).1 = first.1
  /\ forall later : gmap string string,
       (run term_string sentence str_minval str_maxval enumlist
            is_case_sensitive is_denom_only later).1 = first.1.
Proof.
  intros first. split; [|intros later]; apply run_table_irrelevant.
Qed.

(** *** The empty document *)


(** *** The condition of a value *)


(** The order of the tests decides where more than one pattern is found. *)
Lemma cond_to_string_examples :
  _cond_to_string "approx" "<=" = "APPROX"
  /\ _cond_to_string "" "<=" = "LESS_THAN_OR_EQUAL"
  /\ _cond_to_string "" ">=" = "GREATER_THAN_OR_EQUAL"
  /\ _cond_to_string "less than" ">" = "LESS_THAN"
  /\ _cond_to_string "" ">" = "GREATER_THAN"
  /\ _cond_to_string "is" "" = "EQUAL".
Proof. vm_compute. repeat split. Qed.

(** *** Quiet collaborators *)

Lemma clean_sentence_quiet sentence is_case_sensitive :
  quiet_on (_common_clean is_case_sensitive sentence) ->
  _clean_sentence sentence is_case_sensitive
  = _clean_sentence (E := no_finders) sentence is_case_sensitive.
Proof.
  intros (Hd & Hs & Ht). unfold _clean_sentence.
  rewrite Hd. cbn [foldl]. rewrite Hs. cbn [foldl]. rewrite Ht. reflexivity.
Qed.

Lemma run_quiet term_string sentence str_minval str_maxval enumlist
    is_case_sensitive is_denom_only d :
  quiet_on (_common_clean is_case_sensitive sentence) ->
  run term_string sentence str_minval str_maxval enumlist
      is_case_sensitive is_denom_only d
  = run (E := no_finders) term_string sentence str_minval str_maxval enumlist
        is_case_sensitive is_denom_only d.
Proof.
  intros Hq. unfold run, extract. by rewrite (clean_sentence_quiet _ _ Hq).
Qed.

(** C5 fails: for the terms "ab,abc", the sentence "ab x. abc x" and the
    enumerated list "x", if the three finders report nothing in the
    sentence, a first call of [run] returns two measurements, the second of
    which has the empty text and the span from 6 to 6. *)
Theorem empty_span_returned :
  quiet_on "ab x. abc x" ->
  (run "ab,abc" "ab x. abc x" None None (Some (EnumStr "x")) false false ∅).1
  = Ok (JDict [
      ("sentence", JStr "ab x. abc x");
      ("measurementCount", JNum (PInt 2));
      ("terms", JList [JStr "abc"; JStr "ab"]);
      ("querySuccess", JBool true);
      ("measurementList", JList [
         JDict [("text", JStr "ab x"); ("start", JNum (PInt 0));
                ("end", JNum (PInt 4)); ("condition", JStr "EQUAL");
                ("matchingTerm", JStr "ab"); ("x", JStr "x"); ("y", JNull);
                ("minValue", JNull); ("maxValue", JNull)];
         JDict [("text", JStr ""); ("start", JNum (PInt 6));
                ("end", JNum (PInt 6)); ("condition", JStr "EQUAL");
                ("matchingTerm", JStr "ab"); ("x", JStr ""); ("y", JNull);
                ("minValue", JNull); ("maxValue", JNull)] ]) ]).
Proof.
  intros Hq. rewrite run_quiet by exact Hq. vm_compute. reflexivity.
Qed.

End Documents.

Lemma measurements_do_not_overlap_witness :
  let returned :=
    returned_spans
      (ValueExtractor.run (F := decimal_float) (E := no_finders)
         "pt, ptt, inr(pt)" "BLOOD PT-10.8 PTT-32.6 INR(PT)-1.0"
         None None None false false ∅).1 in
  returned = [Some (6, 13)%Z; Some (14, 22)%Z; Some (23, 34)%Z]
  /\ exists sa ea sb eb,
       Some (6, 13)%Z = Some (sa, ea) /\ Some (14, 22)%Z = Some (sb, eb)
       /\ (ea <= sb)%Z.
Proof.
  split; [reflexivity|].
  apply (measurements_do_not_overlap (F := decimal_float) (E := no_finders)
           "pt, ptt, inr(pt)" "BLOOD PT-10.8 PTT-32.6 INR(PT)-1.0"
           None None None false false ∅ 0 1).
  - lia.
  - reflexivity.
  - reflexivity.
Defined.




Lemma empty_span_returned_witness :
  quiet_on (E := no_finders) "ab x. abc x"
  /\ returned_spans
       (ValueExtractor.run (F := decimal_float) (E := no_finders)
          "ab,abc" "ab x. abc x" None None
          (Some (ValueExtractor.EnumStr "x")) false false ∅).1
     = [Some (0, 4)%Z; Some (6, 6)%Z].
Proof.
  assert (quiet_on (E := no_finders) "ab x. abc x") as Hq by (repeat split).
  split; [exact Hq|].
  rewrite (empty_span_returned (F := decimal_float) (E := no_finders) Hq).
  reflexivity.
Defined.

(** ** Hypothetical phrases *)



Section Hypotheticals.
Context {F : PyFloat}.
Import ValueExtractor.






Lemma word_is_false words i w : words !! i <> Some w -> word_is words i w = false.
Proof. intros H. unfold word_is. by apply bool_decide_eq_false_2. Qed.




Lemma remove_hypotheticals_filter sentence results :
  _remove_hypotheticals sentence results
  = let words := Re.split word_break (Py.lower sentence) in
    filter (fun r => negb (vm_in r (omitted (triggers_of words)
                                      (result_spans_of word_break words results))))
           results.
Proof. reflexivity. Qed.


End Hypotheticals.



(** * Invariants of the code *)

(** ** Texts *)

Lemma length_append (a b : string) :
  String.length (a +:+ b) = String.length a + String.length b.
Proof. induction a as [|c a IH]; simpl; [done|]. by rewrite IH. Qed.

Lemma length_rev_app (a b : string) :
  String.length (String.rev_app a b) = String.length a + String.length b.
Proof.
  revert b. induction a as [|c a IH]; intros b; simpl; [done|].
  rewrite IH. simpl. lia.
Qed.

Lemma length_rev (a : string) : String.length (String.rev a) = String.length a.
Proof. unfold String.rev. rewrite length_rev_app. simpl. lia. Qed.


Lemma length_take (n : nat) (s : string) :
  String.length (Py.take n s) = Nat.min n (String.length s).
Proof.
  revert n. induction s as [|c s IH]; intros [|n]; simpl; try done.
  by rewrite IH.
Qed.

Lemma length_drop (n : nat) (s : string) :
  String.length (Py.drop n s) = String.length s - n.
Proof.
  revert n. induction s as [|c s IH]; intros [|n]; simpl; try done.
Qed.

Lemma length_slice (a b : nat) (s : string) :
  String.length (Py.slice a b s) = Nat.min (b - a) (String.length s - a).
Proof. unfold Py.slice. by rewrite length_take, length_drop. Qed.

Lemma length_spaces (n : nat) : String.length (Py.spaces n) = n.
Proof. induction n as [|n IH]; simpl; [done|]. by rewrite IH. Qed.

Lemma length_lstrip (s : string) :
  String.length (Py.lstrip s) <= String.length s.
Proof.
  induction s as [|c s IH]; simpl; [done|].
  destruct (Py.isspace_char c); simpl; lia.
Qed.

Lemma length_strip (s : string) :
  String.length (Py.strip s) <= String.length s.
Proof.
  unfold Py.strip, Py.rstrip. rewrite length_rev.
  etrans; [apply length_lstrip|]. rewrite length_rev. apply length_lstrip.
Qed.

(** ** Matches *)

Lemma cursor_of_start (s : string) : cursor_of s (Re.start_of s).
Proof. done. Qed.

Lemma cursor_of_pos s c : cursor_of s c -> Re.pos c <= String.length s.
Proof. intros [Hp <-]. rewrite length_rev_app. lia. Qed.

Lemma cursor_of_advance s c :
  cursor_of s c -> cursor_of s (Re.advance c) /\ Re.pos c <= Re.pos (Re.advance c).
Proof.
  intros [Hp Hs]. unfold Re.advance. destruct c as [p b a]. simpl in *.
  destruct a as [|y rest]; simpl; [by split|].
  split; [split; [by rewrite Hp|done]|lia].
Qed.

Section MatcherInvariant.
Context {R : Type} (s : string) (P : R -> Prop).

Lemma continues_further c c' k :
  Re.pos c <= Re.pos c' -> continues s P c k -> continues s P c' k.
Proof. intros Hc Hk c'' g x Hw Hp. apply Hk; [done|lia]. Qed.

Lemma rep_continues (body : Re.matcher) lo hi greedy k :
  (forall c g k0 x, cursor_of s c -> continues s P c k0 -> body c g k0 = Some x -> P x) ->
  forall fuel count c g x,
    cursor_of s c -> continues s P c k ->
    Re.rep body lo hi greedy k fuel count c g = Some x -> P x.
Proof.
  intros Hbody. induction fuel as [|fuel IH]; intros count c g x Hc Hk H;
    [discriminate|].
  assert (forall y,
    (if Re.may_repeat hi count
     then body c g (fun c' g' =>
            if Re.iteration_ok hi c c'
            then Re.rep body lo hi greedy k fuel (S count) c' g'
            else None)
     else None) = Some y -> P y) as Hmore.
  { intros y Hy. destruct (Re.may_repeat hi count); [|discriminate].
    revert Hy. apply (Hbody c g _ y Hc).
    intros c' g' z Hc' Hp Hz. destruct (Re.iteration_ok hi c c'); [|discriminate].
    revert Hz. apply (IH _ c' g' z Hc'). by apply (continues_further c). }
  assert (forall y, (if lo <=? count then k c g else None) = Some y -> P y) as Hstop.
  { intros y Hy. destruct (lo <=? count); [|discriminate].
    by apply (Hk c g y Hc). }
  simpl in H. destruct greedy.
  - match type of H with
    | match ?e with _ => _ end = _ => destruct e as [y|] eqn:He
    end.
    + injection H as <-. by apply Hmore.
    + by apply Hstop.
  - match type of H with
    | match ?e with _ => _ end = _ => destruct e as [y|] eqn:He
    end.
    + injection H as <-. by apply Hstop.
    + by apply Hmore.
Qed.

(** What follows a match of [r] is called at positions of the subject at
    or behind the position where the match began. *)
Lemma m_continues ic r :
  forall c g k x,
    cursor_of s c -> continues s P c k -> Re.m ic r c g k = Some x -> P x.
Proof.
  induction r as [| ch | | neg its | r1 IH1 r2 IH2 | r1 IH1 r2 IH2
                  | r' IH lo hi greedy | name r' IH | ahead neg r' IH
                  | neg | | | ];
    intros c g k x Hc Hk H; simpl in H.
  - revert H. by apply Hk.
  - destruct (Re.after c) as [|y rest] eqn:Ha; [discriminate|].
    destruct (Re.chr_matches ic _ y); [|discriminate].
    destruct (cursor_of_advance s c Hc). revert H. by apply Hk.
  - destruct (Re.after c) as [|y rest] eqn:Ha; [discriminate|].
    destruct (Ascii.eqb y _); [discriminate|].
    destruct (cursor_of_advance s c Hc). revert H. by apply Hk.
  - destruct (Re.after c) as [|y rest] eqn:Ha; [discriminate|].
    destruct (Re.cls_matches ic _ _ y); [|discriminate].
    destruct (cursor_of_advance s c Hc). revert H. by apply Hk.
  - revert H. apply (IH1 c g _ x Hc).
    intros c' g' y Hc' Hp. apply (IH2 c' g' k y Hc').
    by apply (continues_further c).
  - destruct (Re.m ic r1 c g k) as [y|] eqn:H1.
    + injection H as <-. by apply (IH1 _ _ _ _ Hc Hk H1).
    + by apply (IH2 _ _ _ _ Hc Hk H).
  - revert H. apply rep_continues; [|done..]. intros c0 g0 k0 y. apply IH.
  - revert H. apply (IH c g _ x Hc).
    intros c' g' y Hc' Hp Hy. revert Hy. by apply Hk.
  - destruct ahead.
    + destruct (Re.m ic r' c g _) as [g'|]; destruct neg; try discriminate;
        revert H; by apply Hk.
    + destruct (Re.width r') as [w|]; [|discriminate].
      destruct (Re.rewind w c) as [c0|].
      * destruct (Re.m ic r' c0 g _) as [g'|]; destruct neg; try discriminate;
          revert H; by apply Hk.
      * destruct neg; [|discriminate]. revert H; by apply Hk.
  - destruct (xorb _ _); [|discriminate]. revert H; by apply Hk.
  - destruct (Re.pos c =? 0); [|discriminate]. revert H; by apply Hk.
  - destruct (Re.after c); [|discriminate]. revert H; by apply Hk.
  - destruct (Re.after c) as [|y [|]]; [|destruct (Ascii.eqb y _)|];
      try discriminate; revert H; by apply Hk.
Qed.

End MatcherInvariant.

Lemma found_in_further s lo lo' f : lo' <= lo -> found_in s lo f -> found_in s lo' f.
Proof. intros Hlo (H1 & H2 & H3). split; [lia|done]. Qed.

Lemma match_here_found s ic r c must_advance f :
  cursor_of s c -> Re.match_here ic r c must_advance = Some f ->
  Re.f_start f = Re.pos c /\ found_in s (Re.pos c) f.
Proof.
  intros Hc. unfold Re.match_here.
  apply (m_continues s (fun f => Re.f_start f = Re.pos c /\ found_in s (Re.pos c) f));
    [done|].
  intros c' g' x Hc' Hp H. destruct (must_advance && _); [discriminate|].
  injection H as <-. split; [done|]. split; [simpl; lia|]. by split.
Qed.

Lemma scan_found s ic r fuel c must_advance f :
  cursor_of s c -> Re.scan ic r fuel c must_advance = Some f ->
  found_in s (Re.pos c) f.
Proof.
  revert c must_advance. induction fuel as [|fuel IH]; intros c ma Hc H;
    simpl in H; destruct (Re.match_here ic r c ma) as [f'|] eqn:Hm;
    try (injection H as <-; by apply (match_here_found s ic r c ma)).
  - by destruct (Re.after c).
  - destruct (Re.after c) eqn:Ha; [discriminate|].
    destruct (cursor_of_advance s c Hc) as [Hc' Hp].
    apply (found_in_further s (Re.pos (Re.advance c))); [done|].
    by apply (IH (Re.advance c) false).
Qed.

Lemma all_from_found s ic r fuel c must_advance :
  cursor_of s c ->
  Forall (found_in s (Re.pos c)) (Re.all_from ic r fuel c must_advance)
  /\ ordered_pairs (fun a b => Re.f_end a <= Re.f_start b)
       (Re.all_from ic r fuel c must_advance).
Proof.
  revert c must_advance. induction fuel as [|fuel IH]; intros c ma Hc; simpl;
    [by split|].
  destruct (Re.search_from ic r c ma) as [f|] eqn:Hf; [|by split].
  apply (scan_found s) in Hf as Hin; [|done].
  destruct Hin as (Hspan & Hrest & Hpos).
  destruct (IH (Re.f_rest f) (Re.f_end f =? Re.f_start f) Hrest) as [Hall Hord].
  rewrite Hpos in Hall. split.
  - constructor; [done|]. eapply Forall_impl; [exact Hall|].
    intros f'. apply found_in_further. lia.
  - split; [|done]. eapply Forall_impl; [exact Hall|].
    intros f' (Hf' & _). lia.
Qed.

(** The matches that [finditer] yields lie in the subject, one behind the
    other. *)
Lemma finditer_matches (p : Re.pattern) (s : string) :
  Forall (match_in s) (Re.finditer p s)
  /\ ordered_pairs (fun a b => Re.end_ a <= Re.start b) (Re.finditer p s).
Proof.
  unfold Re.finditer.
  destruct (all_from_found s (Re.p_ic p) (Re.p_code p) (2 * String.length s + 2)
              (Re.start_of s) false (cursor_of_start s)) as [Hall Hord].
  split.
  - apply Forall_fmap. eapply Forall_impl; [exact Hall|].
    intros f (Hspan & Hrest & Hpos). split; [done|].
    unfold Re.start, Re.end_. simpl. apply cursor_of_pos in Hrest. lia.
  - by apply ordered_pairs_fmap.
Qed.

Lemma length_group0 s mo :
  match_in s mo -> String.length (Re.group0 mo) = Re.end_ mo - Re.start mo.
Proof.
  intros [Hs Hspan]. unfold Re.group0. rewrite Hs, length_slice. lia.
Qed.

Lemma take_append (a b : string) : Py.take (String.length a) (a +:+ b) = a.
Proof. induction a as [|c a IH]; simpl; [by destruct b|]. by rewrite IH. Qed.

Lemma drop_append (a b : string) : Py.drop (String.length a) (a +:+ b) = b.
Proof. induction a as [|c a IH]; simpl; [by destruct b|]. done. Qed.

Lemma drop_append_more (a b : string) (n : nat) :
  Py.drop (String.length a + n) (a +:+ b) = Py.drop n b.
Proof. induction a as [|c a IH]; simpl; [by destruct b|]. done. Qed.

Lemma join_cons (sep x : string) (l : list string) :
  l <> [] -> Re.join sep (x :: l) = x +:+ sep +:+ Re.join sep l.
Proof. by destruct l. Qed.

Lemma pieces_nonempty s from ms : Re.pieces s from ms <> [].
Proof. by destruct ms. Qed.




Section Cleaning.
Context {F : PyFloat} {E : Finders}.
Import ValueExtractor.

(** X1: [_erase] overwrites the span with blanks and leaves the rest as it
    is: the length, the text before the span and the text behind it are
    kept. *)
Theorem erase_spec (sentence : string) (start end_ : nat) :
  start <= end_ <= String.length sentence ->
  String.length (_erase sentence start end_) = String.length sentence
  /\ Py.take start (_erase sentence start end_) = Py.take start sentence
  /\ Py.slice start end_ (_erase sentence start end_) = Py.spaces (end_ - start)
  /\ Py.drop end_ (_erase sentence start end_) = Py.drop end_ sentence.
Proof.
  intros Hspan. unfold _erase.
  assert (String.length (Py.take start sentence) = start) as Ht
    by (rewrite length_take; lia).
  split; [|split; [|split]].
  - rewrite !length_append, length_take, length_spaces, length_drop. lia.
  - rewrite <- Ht at 1. apply take_append.
  - unfold Py.slice. rewrite <- Ht at 2. rewrite drop_append.
    rewrite <- (length_spaces (end_ - start)) at 1. apply take_append.
  - replace end_ with (String.length (Py.take start sentence) + (end_ - start))
      at 1 by lia.
    rewrite drop_append_more.
    rewrite <- (length_spaces (end_ - start)) at 1. apply drop_append.
Qed.

Lemma foldl_length {A} (f : string -> A -> string) (n : nat) (l : list A)
    (init : string) :
  (forall cur x, x ∈ l -> String.length cur = n -> String.length (f cur x) = n) ->
  String.length init = n -> String.length (foldl f init l) = n.
Proof.
  revert init. induction l as [|x l IH]; intros init Hf Hinit; simpl; [done|].
  apply IH.
  - intros cur y Hy. apply Hf. by right.
  - apply Hf; [left|done].
Qed.




End Cleaning.

Section CleanSentence.
Context {F : PyFloat} {E : Finders}.
Import ValueExtractor.



End CleanSentence.

(** Case analysis on a loop body that returned: its binds, tests and
    matches are opened one after the other. *)
Ltac open_body H :=
  repeat (cbn [mbind result_bind fmap result_fmap] in H;
    lazymatch type of H with
    | Ok _ = Ok _ => injection H as H
    | Raise _ = Ok _ => discriminate H
    | mbind _ ?x = Ok _ => destruct x eqn:?
    | match ?x with _ => _ end = Ok _ => destruct x eqn:?
    | (if ?b then _ else _) = Ok _ => destruct b eqn:?
    | (let '(_, _) := ?p in _) = Ok _ => destruct p eqn:?
    end).

Section ValueResults.
Context {F : PyFloat}.
Import ValueExtractor.

Lemma for_matches_invariant_in (P : acc -> Prop) ptext sentence body a a' :
  (forall a mo a', match_in sentence mo -> P a -> body a mo = Ok a' -> P a') ->
  P a -> for_matches ptext sentence body a = Ok a' -> P a'.
Proof.
  unfold for_matches. intros Hbody Ha H.
  destruct (Re.compile ptext false) as [p|]; cbn [mbind result_bind] in H;
    [|discriminate].
  revert H. apply rfold_invariant; [|done]. intros a0 mo a1 Hmo.
  apply Hbody. destruct (finditer_matches p sentence) as [Hms _].
  rewrite Forall_forall in Hms. by apply Hms.
Qed.

Lemma match_text_within sentence mo :
  match_in sentence mo ->
  Re.start mo + String.length (Py.strip (Re.group0 mo)) <= String.length sentence.
Proof.
  intros Hmo. pose proof (length_strip (Re.group0 mo)) as Hs.
  rewrite (length_group0 _ _ Hmo) in Hs. destruct Hmo as [_ ?]. lia.
Qed.

Lemma new_result_ok q sentence lo hi mo n1 n2 c :
  match_in sentence mo ->
  numeric_in lo hi n1 -> (n2 = VNone \/ numeric_in lo hi n2) ->
  value_result q sentence lo hi
    (Build_ValueMeasurement (Py.strip (Re.group0 mo)) (Re.start mo)
       (Re.start mo + String.length (Py.strip (Re.group0 mo))) n1 n2 c q).
Proof.
  intros Hmo H1 H2. repeat split; simpl; try done. by apply match_text_within.
Qed.

Lemma update_match_results_ok q sentence lo hi mo a n1 n2 c :
  match_in sentence mo ->
  numeric_in lo hi n1 -> (n2 = VNone \/ numeric_in lo hi n2) ->
  value_results q sentence lo hi a ->
  value_results q sentence lo hi (_update_match_results mo a n1 n2 c q).
Proof.
  unfold _update_match_results, value_results. intros Hmo H1 H2 Ha.
  destruct (negb _); [|done]. cbn [a_results].
  apply Forall_app. split; [done|]. constructor; [|done].
  by apply new_result_ok.
Qed.

Ltac ranges :=
  repeat match goal with
  | H : _ && _ = true |- _ => apply andb_true_iff in H as [? ?]
  end.

Ltac numeric := first [by right; eexists | by left | by eexists].

Lemma fraction_range_body_ok q sentence lo hi d chk a mo a' :
  match_in sentence mo -> value_results q sentence lo hi a ->
  fraction_range_body q lo hi d chk a mo = Ok a' ->
  value_results q sentence lo hi a'.
Proof.
  unfold fraction_range_body. intros Hmo Ha H. open_body H; subst; try done; ranges.
  - apply update_match_results_ok; try done; numeric.
  - unfold value_results. cbn [a_results]. apply Forall_app. split; [done|].
    constructor; [|done]. apply new_result_ok; try done; numeric.
Qed.

Lemma fraction_body_ok q sentence lo hi d a mo a' :
  match_in sentence mo -> value_results q sentence lo hi a ->
  fraction_body q lo hi d a mo = Ok a' ->
  value_results q sentence lo hi a'.
Proof.
  unfold fraction_body. intros Hmo Ha H. open_body H; subst; try done; ranges.
  apply update_match_results_ok; try done; numeric.
Qed.

Lemma units_range_body_ok q sentence lo hi a mo a' :
  match_in sentence mo -> value_results q sentence lo hi a ->
  units_range_body q lo hi a mo = Ok a' ->
  value_results q sentence lo hi a'.
Proof.
  unfold units_range_body. intros Hmo Ha H. open_body H; subst; try done; ranges.
  apply update_match_results_ok; try done; numeric.
Qed.

Lemma range_body_ok q sentence lo hi a mo a' :
  match_in sentence mo -> value_results q sentence lo hi a ->
  range_body q lo hi a mo = Ok a' ->
  value_results q sentence lo hi a'.
Proof.
  unfold range_body. intros Hmo Ha H. open_body H; subst; try done; ranges.
  apply update_match_results_ok; try done; numeric.
Qed.

Lemma op_val_body_ok q sentence lo hi a mo a' :
  match_in sentence mo -> value_results q sentence lo hi a ->
  op_val_body q lo hi a mo = Ok a' ->
  value_results q sentence lo hi a'.
Proof.
  unfold op_val_body. intros Hmo Ha H. open_body H; subst; try done; ranges.
  apply update_match_results_ok; try done; numeric.
Qed.

Lemma wds_val_body_ok q sentence lo hi a mo a' :
  match_in sentence mo -> value_results q sentence lo hi a ->
  wds_val_body q lo hi a mo = Ok a' ->
  value_results q sentence lo hi a'.
Proof.
  unfold wds_val_body. intros Hmo Ha H. open_body H; subst; try done; ranges.
  apply update_match_results_ok; try done; numeric.
Qed.

Lemma extract_value_invariant (q sentence : string) (minval maxval : pyfloat)
    (denom_only : bool) (vs : list ValueMeasurement) :
  _extract_value q sentence minval maxval denom_only = Ok vs ->
  Forall (value_result q sentence minval maxval) vs.
Proof.
  unfold _extract_value. intros H.
  destruct (Re.search _regex_digits sentence); [|by injection H as <-].
  repeat match type of H with
  | mbind _ (for_matches ?p ?s ?b ?a) = Ok _ =>
      let Hm := fresh "Hm" in
      destruct (for_matches p s b a) eqn:Hm;
      cbn [mbind result_bind] in H; [|discriminate H];
      apply (for_matches_invariant_in (value_results q sentence minval maxval))
        in Hm;
      [|eauto using fraction_range_body_ok, fraction_body_ok,
          units_range_body_ok, range_body_ok, op_val_body_ok, wds_val_body_ok
       |first [assumption|by constructor]]
  end.
  injection H as <-. unfold _remove_hypotheticals.
  apply Forall_forall. intros r [_ Hr]%list_elem_of_filter.
  unfold value_results in *. rewrite Forall_forall in Hm6. auto.
Qed.

(** X3: every result of [_extract_value] is a result of the query term,
    spans its text inside the sentence, and holds numbers between the
    bounds. *)
Theorem extract_value_results (q sentence : string) (minval maxval : pyfloat)
    (denom_only : bool) (vs : list ValueMeasurement) (r : ValueMeasurement) :
  _extract_value q sentence minval maxval denom_only = Ok vs -> r ∈ vs ->
  value_result q sentence minval maxval r.
Proof.
  intros Hvs Hr. apply extract_value_invariant in Hvs.
  rewrite Forall_forall in Hvs. by apply Hvs.
Qed.

End ValueResults.

Section EnumResults.
Context {F : PyFloat}.
Import ValueExtractor.

Lemma index_of_lookup (x : nat) (l : list nat) (i : nat) :
  index_of x l = Some i -> l !! i = Some x.
Proof.
  revert i. induction l as [|y l IH]; intros i H; simpl in H; [discriminate|].
  destruct (Nat.eqb_spec x y) as [->|].
  - by injection H as <-.
  - destruct (index_of x l) as [j|]; [|discriminate]. injection H as <-.
    by apply IH.
Qed.

Lemma enum_word_choice (words : string) (words_start end_ : nat)
    (filter_words : list string) (init : bool * string) :
  init.2 = "" \/ init.2 ∈ filter_words ->
  let out :=
    foldl (fun '(found_it, word) fw =>
             match Py.find fw words with
             | Some pos =>
                 if words_start + pos <? end_
                 then (true, if String.length word <? String.length fw
                             then fw else word)
                 else (found_it, word)
             | None => (found_it, word)
             end)
          init filter_words in
  out.2 = "" \/ out.2 ∈ filter_words.
Proof.
  intros Hinit out. subst out.
  assert (forall l, (forall fw, fw ∈ l -> fw ∈ filter_words) ->
    forall init : bool * string, init.2 = "" \/ init.2 ∈ filter_words ->
    let out :=
      foldl (fun '(found_it, word) fw =>
               match Py.find fw words with
               | Some pos =>
                   if words_start + pos <? end_
                   then (true, if String.length word <? String.length fw
                               then fw else word)
                   else (found_it, word)
               | None => (found_it, word)
               end)
            init l in
    out.2 = "" \/ out.2 ∈ filter_words) as Hgen.
  { induction l as [|fw l IH]; intros Hl [b w] Hw; simpl; [done|].
    apply IH; [intros; apply Hl; by right|].
    assert (fw ∈ filter_words) by (apply Hl; left).
    repeat case_match; simpl in *; auto. }
  by apply Hgen.
Qed.

Lemma enum_match_body_ok terms fw sentence q bs st mo st' :
  q ∈ terms -> match_in sentence mo ->
  ordered_pairs (fun x y => x <= y) bs ->
  Forall (enum_result terms fw sentence) st.2 ->
  enum_match_body q fw bs st mo = Ok st' ->
  Forall (enum_result terms fw sentence) st'.2.
Proof.
  unfold enum_match_body. intros Hq [_ Hmo] Hbs Hst H.
  destruct st as [found_it results].
  destruct (index_of (Re.start mo) bs) as [index|] eqn:Hindex;
    [|by injection H as <-].
  apply index_of_lookup in Hindex.
  set (end_ := if index <? length bs - 1 then _ else _) in H.
  assert (Re.start mo <= end_ <= String.length sentence) as Hend.
  { subst end_. destruct (index <? length bs - 1); [|lia].
    destruct (bs !! (index + 1)) as [b|] eqn:Hb; [|lia].
    pose proof (ordered_pairs_lookup _ _ Hbs index (index + 1) _ _
                  ltac:(lia) Hindex Hb) as Hle.
    cbv beta in Hle. destruct (Nat.ltb_spec b (Re.end_ mo)); lia. }
  clearbody end_.
  destruct (group_text mo "words") as [words|]; cbn [mbind result_bind] in H;
    [|discriminate].
  destruct (Re.group_start mo "words") as [words_start|];
    cbn [mbind result_bind] in H; [|discriminate].
  pose proof (enum_word_choice words words_start end_ fw (found_it, "")
                (or_introl eq_refl)) as Hword.
  cbv zeta in Hword.
  destruct (foldl _ (found_it, "") fw) as [b word]. cbn [snd] in Hword.
  destruct b; injection H as <-; cbn [snd] in *; [|done].
  apply Forall_app. split; [done|]. constructor; [|done].
  repeat split; simpl; try done; lia.
Qed.

Lemma extract_enumlist_invariant (terms : list string) (sentence : string)
    (filter_words : list string) (vs : list ValueMeasurement) :
  _extract_enumlist_values terms sentence filter_words = Ok vs ->
  Forall (enum_result terms filter_words sentence) vs.
Proof.
  unfold _extract_enumlist_values. intros H.
  match type of H with
  | mbind _ ?x = Ok _ => destruct x as [bs|]
  end; cbn [mbind result_bind] in H; [|discriminate].
  destruct (length bs =? 0); [by injection H as <-|].
  revert H.
  apply (rfold_invariant (Forall (enum_result terms filter_words sentence)));
    [|done].
  intros results q results' Hq Hres H.
  destruct (Re.compile _ false) as [p|]; cbn [mbind result_bind] in H;
    [|discriminate].
  match type of H with
  | mbind _ ?x = Ok _ => destruct x as [[b rs]|] eqn:Hloop
  end; cbn [mbind result_bind] in H; [|discriminate].
  injection H as <-.
  change rs with (b, rs).2. revert Hloop.
  apply (rfold_invariant
           (fun st => Forall (enum_result terms filter_words sentence) st.2));
    [|done].
  intros st mo st' Hmo Hst.
  apply (enum_match_body_ok terms filter_words sentence); try done.
  - destruct (finditer_matches p sentence) as [Hms _].
    rewrite Forall_forall in Hms. by apply Hms.
  - apply (sorted_by_ordered (fun b => b)).
Qed.

(** X4: every result of [_extract_enumlist_values] is a result of one of
    the query terms; its value is its text, which is empty or one of the
    filter words; and its span lies in the sentence. *)
Theorem extract_enumlist_results (terms : list string) (sentence : string)
    (filter_words : list string) (vs : list ValueMeasurement)
    (r : ValueMeasurement) :
  _extract_enumlist_values terms sentence filter_words = Ok vs -> r ∈ vs ->
  enum_result terms filter_words sentence r.
Proof.
  intros Hvs Hr. apply extract_enumlist_invariant in Hvs.
  rewrite Forall_forall in Hvs. by apply Hvs.
Qed.

End EnumResults.

(** ** The measurements of a document *)

Lemma rfold_collect_ok {A B} (f : A -> result B) (acc : list B) (l : list A) :
  Forall (fun x => exists y, f x = Ok y) l ->
  exists out, rfold (fun acc x => y ← f x; Ok (acc ++ [y])) acc l = Ok out.
Proof.
  intros Hl. revert acc. induction Hl as [|x l [y Hy] _ IH]; intros acc; simpl.
  - by exists acc.
  - rewrite Hy. simpl. apply IH.
Qed.

Section Measurements.
Context {F : PyFloat} {E : Finders}.
Import ValueExtractor.

Lemma extract_spans term_string sentence str_minval str_maxval enumlist
    is_case_sensitive is_denom_only results :
  (extract term_string sentence str_minval str_maxval enumlist
           is_case_sensitive is_denom_only).2 = Ok results ->
  Forall (span_within (_clean_sentence sentence is_case_sensitive)) results
  /\ (given enumlist = false -> Forall numeric_result results).
Proof.
  unfold extract. cbn [fst snd]. intros H.
  destruct (given enumlist) eqn:Hgiven; cbn [negb] in H.
  - cbn [mbind mret result_bind result_ret] in H.
    apply extract_enumlist_invariant in H. split; [|done].
    eapply Forall_impl; [exact H|]. intros r (_ & _ & _ & _ & _ & Hspan). done.
  - match type of H with
    | mbind _ ?x = Ok _ => destruct x as [[[lo hi]|]|] eqn:Hb
    end; cbn [mbind result_bind] in H; try discriminate.
    + assert (Forall (fun r => span_within (_clean_sentence sentence is_case_sensitive) r
                               /\ numeric_result r) results) as Hall.
      { revert H. apply rfold_invariant; [|done].
        intros acc q acc' Hq Hacc H.
        destruct (_extract_value _ _ _ _ _) as [vs|] eqn:Hvs;
          cbn [mbind result_bind] in H; [|discriminate].
        injection H as <-. apply Forall_app. split; [done|].
        apply extract_value_invariant in Hvs. eapply Forall_impl; [exact Hvs|].
        intros r (_ & He & Hlen & (x & Hx & _) & Hy). split.
        - unfold span_within. lia.
        - split; [by exists x|]. destruct Hy as [|(y & ? & _)]; [by left|].
          right. by exists y. }
      split; [|intros _]; eapply Forall_impl; try exact Hall; by intros r [? ?].
    + cbn [negb] in Hb.
      do 2 (destruct (bound _); cbn [mbind result_bind] in Hb;
            try discriminate Hb).
Qed.


Lemma measurement_dict_ok d os t m :
  is_Some (d !! matching_term m) -> (t = false -> numeric_result m) ->
  exists j, measurement_dict d os t m = Ok j.
Proof.
  intros [o Ho] Hnum. unfold measurement_dict. rewrite Ho.
  cbn [mbind result_bind]. destruct t; cbn [mbind result_bind]; [by eexists|].
  destruct (Hnum eq_refl) as [[x Hx] [Hy|[y Hy]]]; rewrite ?Hx, Hy;
    cbn [min2 max2 mbind result_bind]; by eexists.
Qed.

Lemma remember_terms_original (terms original_terms : list string)
    (d : gmap string string) (t : string) :
  length terms = length original_terms -> t ∈ terms ->
  exists o, remember_terms terms original_terms d !! t = Some o
            /\ o ∈ original_terms.
Proof.
  intros Hlen Ht. unfold remember_terms.
  assert (t ∈ (zip terms original_terms).*1
          \/ exists o, d !! t = Some o /\ o ∈ original_terms) as Hl.
  { left. by rewrite fst_zip by lia. }
  assert (forall kv, kv ∈ zip terms original_terms -> kv.2 ∈ original_terms) as Hz.
  { intros [k v] Hkv. by apply elem_of_zip_r in Hkv. }
  clear Hlen Ht. revert d Hl Hz.
  induction (zip terms original_terms) as [|[k v] l IH]; intros d Hl Hz.
  - destruct Hl as [[]%elem_of_nil|]. done.
  - cbn [foldl]. apply IH; [|intros kv Hkv; apply Hz; by right].
    cbn [fmap list_fmap fst] in Hl.
    destruct (decide (t = k)) as [->|Hne].
    + right. exists v. rewrite lookup_insert_eq. split; [done|].
      apply (Hz (k, v)). left.
    + destruct Hl as [Hl|Hl].
      * left. apply elem_of_cons in Hl as [|]; done.
      * right. by rewrite lookup_insert_ne.
Qed.


(** X6: once the terms have been searched without an error, [run] returns a
    document: the assertion of [_resolve_overlap] holds and every lookup
    and comparison of [_to_json] succeeds. *)
Theorem run_returns_after_extraction (term_string sentence : string)
    (str_minval str_maxval : option string) (enumlist : option enumlist_arg)
    (is_case_sensitive is_denom_only : bool) (_term_dict : gmap string string)
    (results : list ValueMeasurement) :
  (extract term_string sentence str_minval str_maxval enumlist
           is_case_sensitive is_denom_only).2 = Ok results ->
  exists doc,
    (run term_string sentence str_minval str_maxval enumlist
         is_case_sensitive is_denom_only _term_dict).1 = Ok doc.
Proof.
  intros Hex.
  pose proof (extract_terms term_string sentence str_minval str_maxval enumlist
                is_case_sensitive is_denom_only) as Hterms.
  pose proof (extract_terms_length term_string sentence str_minval str_maxval
                enumlist is_case_sensitive is_denom_only) as Hlen.
  destruct (extract_spans term_string sentence str_minval str_maxval enumlist
              is_case_sensitive is_denom_only results Hex) as [_ Hnum].
  cbv zeta in Hterms, Hlen. specialize (Hterms results Hex).
  unfold run.
  destruct (extract term_string sentence str_minval str_maxval enumlist
              is_case_sensitive is_denom_only) as [[ot terms] extracted].
  cbn [fst snd] in *. subst extracted. cbn [mbind result_bind].
  destruct results as [|r0 results]; [by eexists|].
  cbn [length Nat.eqb].
  destruct (resolve_overlap_ok terms (sorted_by start (r0 :: results)))
    as [out Hout].
  { intros Hnil. apply (f_equal length) in Hnil. unfold sorted_by in Hnil.
    rewrite length_sorted_with in Hnil. discriminate. }
  { apply sorted_by_ordered. }
  rewrite Hout. cbn [mbind result_bind]. unfold _to_json.
  match goal with
  | |- context [rfold ?f [] out] =>
      destruct (rfold_collect_ok
                  (measurement_dict (remember_terms terms ot _term_dict)
                     sentence (given enumlist)) [] out) as [ms Hms]
  end.
  - apply Forall_forall. intros m Hm.
    assert (m ∈ r0 :: results) as Hin.
    { apply (elem_of_sorted_with (fun x y => start x <=? start y)).
      by apply (resolve_overlap_subset _ _ _ _ Hout). }
    rewrite Forall_forall in Hterms.
    apply measurement_dict_ok.
    + destruct (remember_terms_original terms ot _term_dict (matching_term m)
                  Hlen (Hterms m Hin)) as (o & -> & _). by eexists.
    + intros Hg. specialize (Hnum Hg). rewrite Forall_forall in Hnum. auto.
  - rewrite Hms. cbn [mbind result_bind]. by eexists.
Qed.

End Measurements.

(** ** COVID tuples *)

Section CovidTuples.
Context {F : PyFloat} {E : Finders}.
Import CovidFinder.

Lemma assemble_tuples s count starts ends texts values results :
  assemble s count starts ends texts values = Ok results ->
  length results = count /\ Forall (case_tuple s) results.
Proof.
  revert starts ends texts values results.
  induction count as [|count IH]; intros starts ends texts values results H;
    simpl in H.
  - by injection H as <-.
  - destruct starts as [|s0 starts]; [discriminate|].
    destruct ends as [|e0 ends]; [discriminate|].
    destruct texts as [|t0 texts]; [discriminate|].
    destruct values as [|v0 values]; [discriminate|].
    cbn [pop0 mbind result_bind] in H.
    destruct (assemble s count starts ends texts values) as [rest|] eqn:Hrest;
      cbn [mbind result_bind] in H; [|discriminate].
    injection H as <-. destruct (IH _ _ _ _ _ Hrest) as [Hlen Hall].
    split; [simpl; by rewrite Hlen|]. constructor; [|done].
    repeat split; simpl; by eexists.
Qed.

(** X12: every tuple that [run] returns is a tuple of case counts in the cleaned
    sentence, without any field for hospitalizations or deaths, and the
    tuples are in the order of their start. *)
Theorem covid_run_tuples (s : string) (results : list CovidTuple) :
  run s = Ok results ->
  Forall (case_tuple (_cleanup s)) results
  /\ ordered_pairs (fun a b => default 0 (case_start a) <= default 0 (case_start b))
       results.
Proof.
  unfold run. intros H.
  destruct (_regex_match (_cleanup s) _CASE_REGEXES) as [cs|];
    cbn [mbind result_bind] in H; [|discriminate].
  match type of H with
  | mbind _ ?x = Ok _ => destruct x as [values|]
  end; cbn [mbind result_bind] in H; [|discriminate].
  match type of H with
  | mbind _ ?x = Ok _ => destruct x as [tuples|] eqn:Ht
  end; cbn [mbind result_bind] in H; [|discriminate].
  injection H as <-. apply assemble_tuples in Ht as [_ Hall]. split.
  - apply Forall_forall. intros t Ht%elem_of_sorted_with.
    rewrite Forall_forall in Hall. auto.
  - apply sorted_by_ordered.
Qed.

End CovidTuples.

(** One tuple is found in "3 new cases". *)
Lemma three_new_cases {F : PyFloat} :
  length <$> CovidFinder.run (E := no_finders) "3 new cases" = Ok 1.
Proof. vm_compute. reflexivity. Qed.

(** ** Numbers in words *)

Lemma tnum_values :
  map_Forall (fun _ v => (0 <= v)%Z) CovidFinder._tnum_to_int_map.
Proof. apply (bool_decide_unpack _). vm_compute. reflexivity. Qed.

Lemma getitem_tnum k v :
  CovidFinder.getitem CovidFinder._tnum_to_int_map k = Ok v -> (0 <= v)%Z.
Proof.
  unfold CovidFinder.getitem.
  destruct (CovidFinder._tnum_to_int_map !! k) as [v'|] eqn:Hk; [|discriminate].
  intros [= <-]. exact (tnum_values k v' Hk).
Qed.

(** X13: with tracing off, [_tnum_to_int] never returns [None]: it returns a
    number that is not negative, or raises. *)
Theorem tnum_to_int_number (_str_tnum : string) (val : option Z) :
  CovidFinder._tnum_to_int _str_tnum = Ok val ->
  exists n, val = Some n /\ (0 <= n)%Z.
Proof.
  unfold CovidFinder._tnum_to_int, CovidFinder._TRACE. intros H.
  destruct (CovidFinder._tnum_to_int_map !! _) as [v|] eqn:Hv.
  { injection H as <-. exists v. split; [done|]. exact (tnum_values _ v Hv). }
  match type of H with
  | mbind _ ?x = Ok _ => destruct x as [[[]|[val_h text]]|] eqn:Hh
  end; cbn [mbind result_bind] in H; try discriminate.
  { exfalso. clear H. open_body Hh; congruence. }
  assert (0 <= val_h)%Z as Hpos.
  { open_body Hh; try congruence;
      subst; first [lia|
        match goal with
        | Hl : _ !! _ = Some ?v |- (0 <= ?v)%Z => exact (tnum_values _ _ Hl)
        end]. }
  clear Hh Hv.
  open_body H; subst;
    repeat match goal with
    | Hg : CovidFinder.getitem _ _ = Ok _ |- _ => apply getitem_tnum in Hg
    end;
    eexists; (split; [reflexivity|lia]).
Qed.

(** ** Erasing in the COVID finder *)

Section CovidErasing.
Context {F : PyFloat} {E : Finders}.
Import CovidFinder.

Lemma length_erase_segment (sentence : string) (start end_ : nat) :
  start <= end_ <= String.length sentence ->
  String.length (_erase_segment sentence start end_) = String.length sentence.
Proof.
  intros H. unfold _erase_segment.
  rewrite !length_append, length_take, length_spaces, length_drop. lia.
Qed.

Lemma length_erase_segments (s sentence : string) (segments : list (nat * nat)) :
  Forall (fun se => se.1 <= se.2 <= String.length s) segments ->
  String.length sentence = String.length s ->
  String.length (erase_segments sentence segments) = String.length s.
Proof.
  intros Hseg Hlen. unfold erase_segments. apply foldl_length; [|done].
  intros cur [a b] Hab Hcur. rewrite Forall_forall in Hseg.
  specialize (Hseg _ Hab). simpl in Hseg.
  rewrite length_erase_segment; [done|lia].
Qed.

Lemma spans_in_subject (p : Re.pattern) (s : string) :
  Forall (fun se => se.1 <= se.2 <= String.length s) (spans (Re.finditer p s)).
Proof.
  unfold spans. apply Forall_fmap.
  destruct (finditer_matches p s) as [Hms _].
  eapply Forall_impl; [exact Hms|]. by intros mo [_ ?].
Qed.

(** X14: erasing durations, clock times and dates puts blanks in their place:
    the sentence keeps its length. *)
Theorem covid_erasing_keeps_length (sentence : string) :
  String.length (_erase_time_expressions sentence) = String.length sentence
  /\ (spans_within sentence (run_date_finder sentence) ->
      String.length (_erase_dates sentence) = String.length sentence).
Proof.
  split.
  - unfold _erase_time_expressions. apply length_erase_segments; [|done].
    apply Forall_app. split; apply spans_in_subject.
  - intros Hdates. unfold _erase_dates.
    match goal with
    | |- context [foldl ?f sentence (run_date_finder sentence)] =>
        set (s1 := foldl f sentence (run_date_finder sentence))
    end.
    assert (String.length s1 = String.length sentence) as H1.
    { apply foldl_length; [|done]. intros cur fv Hfv Hcur.
      unfold spans_within in Hdates. rewrite Forall_forall in Hdates.
      specialize (Hdates fv Hfv).
      destruct (Re.match_ _ _); [done|].
      rewrite length_erase_segment; [done|lia]. }
    rewrite <- H1. apply length_erase_segments; [|done]. apply spans_in_subject.
Qed.

End CovidErasing.

Lemma tnum_to_int_number_witness :
  CovidFinder._tnum_to_int "one hundred and twenty-three" = Ok (Some 123%Z)
  /\ exists n, Some 123%Z = Some n /\ (0 <= n)%Z.
Proof.
  split; [vm_compute; reflexivity|].
  apply (tnum_to_int_number "one hundred and twenty-three").
  vm_compute. reflexivity.
Defined.

Lemma covid_run_tuples_witness :
  let s := "3 new cases" in
  exists results,
    CovidFinder.run (F := decimal_float) (E := no_finders) s = Ok results
    /\ length results = 1
    /\ Forall (case_tuple (CovidFinder._cleanup (E := no_finders) s)) results
    /\ ordered_pairs (fun a b => default 0 (CovidFinder.case_start a)
                                 <= default 0 (CovidFinder.case_start b)) results.
Proof.
  intros s. pose proof (three_new_cases (F := decimal_float)) as Hlen.
  fold s in Hlen.
  destruct (CovidFinder.run (F := decimal_float) (E := no_finders) s)
    as [results|] eqn:Hrun; [|discriminate Hlen].
  exists results. split; [done|]. split; [by injection Hlen|].
  exact (covid_run_tuples (F := decimal_float) (E := no_finders) _ _ Hrun).
Defined.

(** ** Aggregation pipelines *)

Section Pipelines.
Import MongoLogicOps.

(** X15: [logic_expr_a_b] puts three, four or five stages behind the stages of
    the list passed, grouping on the join field, for the operators "or",
    "and" and "not"; "not" on fewer than two features raises [IndexError];
    and for any other operator the list passed is left as it is and a new
    empty list is returned.  [logic_expr_not_a] puts three stages behind the
    stages of the list passed and groups on the text of the feature. *)
Theorem logic_expr_outcomes (pipeline : list value) (operator : string)
    (field_to_join_on : string) (nlpql_feature_list : list string)
    (nlpql_feature : string) :
  let stage_count :=
    if String.eqb operator "or" then 3
    else if String.eqb operator "and" then 4 else 5 in
  (operator ∈ ["or"; "and"] \/ (operator = "not" /\ 2 <= length nlpql_feature_list) ->
   exists o stages,
     logic_expr_a_b pipeline operator field_to_join_on nlpql_feature_list = Ok o
     /\ extended_by pipeline stages o
     /\ length stages = stage_count
     /\ Forall plain_stage stages
     /\ omap group_id stages = [VStr ("$" +:+ field_to_join_on)])
  /\ (operator = "not" -> length nlpql_feature_list < 2 ->
      logic_expr_a_b pipeline operator field_to_join_on nlpql_feature_list
      = Raise "IndexError")
  /\ (operator ∉ ["or"; "and"; "not"] ->
      logic_expr_a_b pipeline operator field_to_join_on nlpql_feature_list
      = Ok {| passed := pipeline; returned := []; returned_is_passed := false |})
  /\ (exists stages,
        extended_by pipeline stages (logic_expr_not_a pipeline nlpql_feature)
        /\ length stages = 3
        /\ Forall plain_stage stages
        /\ omap group_id stages = [VStr nlpql_feature]).
Proof.
  intros stage_count. subst stage_count.
  assert (forall st : value,
            stage_operator st = Some "$match" \/ stage_operator st = Some "$group"
            \/ stage_operator st = Some "$project" -> plain_stage st) as Hplain.
  { intros st Hst. unfold plain_stage. rewrite !elem_of_cons. tauto. }
  split; [|split; [|split]].
  - intros [Hop|[-> Hlen]].
    + apply elem_of_cons in Hop as [->|Hop].
      * do 2 eexists. split; [reflexivity|]. split; [by split|].
        split; [reflexivity|]. split; [|reflexivity].
        repeat constructor; apply Hplain; simpl; auto.
      * apply list_elem_of_singleton in Hop as ->.
        do 2 eexists. split; [reflexivity|]. split; [by split|].
        split; [reflexivity|]. split; [|reflexivity].
        repeat constructor; apply Hplain; simpl; auto.
    + destruct nlpql_feature_list as [|a [|b l]]; simpl in Hlen; try lia.
      do 2 eexists. split; [reflexivity|]. split; [by split|].
      split; [reflexivity|]. split; [|reflexivity].
      repeat constructor; apply Hplain; simpl; auto.
  - intros -> Hlen. destruct nlpql_feature_list as [|a [|b l]]; simpl in Hlen;
      try lia; reflexivity.
  - intros Hop. unfold logic_expr_a_b.
    destruct (String.eqb_spec "or" operator) as [<-|_]; [set_solver|].
    destruct (String.eqb_spec "and" operator) as [<-|_]; [set_solver|].
    destruct (String.eqb_spec "not" operator) as [<-|_]; [set_solver|].
    reflexivity.
  - eexists. split; [by split|]. split; [reflexivity|]. split; [|reflexivity].
    repeat constructor; apply Hplain; simpl; auto.
Qed.

End Pipelines.

(** ** Fractions *)

Lemma digit_char_facts (c : ascii) :
  Py.isdigit_char c = true ->
  Py.isspace_char c = false /\ c <> "/"%char /\ c <> "-"%char /\ c <> "+"%char.
Proof.
  destruct c as [[] [] [] [] [] [] [] []]; vm_compute; intros H;
    first [discriminate H | by repeat split].
Qed.

Lemma space_char_facts (c : ascii) :
  Py.isspace_char c = true -> c <> "/"%char.
Proof.
  destruct c as [[] [] [] [] [] [] [] []]; vm_compute; intros H;
    first [discriminate H | done].
Qed.

Lemma rev_app_append (a b c : string) :
  String.rev_app (a +:+ b) c = String.rev_app b (String.rev_app a c).
Proof. revert c. induction a as [|x a IH]; intros c; simpl; [done|]. apply IH. Qed.

Lemma rev_app_rev_app (a b : string) :
  String.rev_app (String.rev_app a b) "" = String.rev_app b a.
Proof.
  revert b. induction a as [|x a IH]; intros b; simpl; [done|]. by rewrite IH.
Qed.

Lemma rev_rev (a : string) : String.rev (String.rev a) = a.
Proof. unfold String.rev. by rewrite rev_app_rev_app. Qed.

Lemma rev_app_spaces (w acc : string) :
  Py.all_space w = true ->
  Py.lstrip (String.rev_app w acc) = Py.lstrip acc.
Proof.
  revert acc. induction w as [|c w IH]; intros acc Hw; simpl in *; [done|].
  apply andb_true_iff in Hw as [Hc Hw]. rewrite IH by done. simpl. by rewrite Hc.
Qed.

Lemma lstrip_spaces (w s : string) :
  Py.all_space w = true -> Py.lstrip (w +:+ s) = Py.lstrip s.
Proof.
  intros Hw. induction w as [|c w IH]; simpl in *; [done|].
  apply andb_true_iff in Hw as [Hc Hw]. rewrite Hc. by apply IH.
Qed.

Lemma lstrip_numeral (a s : string) : numeral a -> Py.lstrip (a +:+ s) = a +:+ s.
Proof.
  intros [Hne Ha]. destruct a as [|c a]; [done|]. simpl in *.
  apply andb_true_iff in Ha as [Hc _].
  by destruct (digit_char_facts c Hc) as (-> & _).
Qed.

Lemma lstrip_rev_numeral (a acc : string) :
  numeral a -> Py.lstrip (String.rev_app a acc) = String.rev_app a acc.
Proof.
  intros [Hne Ha]. revert acc Hne.
  induction a as [|c a IH]; intros acc Hne; [done|]. simpl in *.
  apply andb_true_iff in Ha as [Hc Ha].
  destruct a as [|c' a'].
  - simpl. by destruct (digit_char_facts c Hc) as (-> & _).
  - by apply IH.
Qed.

(** Blanks around a numeral are stripped. *)
Lemma strip_numeral (w1 a w2 : string) :
  numeral a -> Py.all_space w1 = true -> Py.all_space w2 = true ->
  Py.strip (w1 +:+ a +:+ w2) = a.
Proof.
  intros Ha H1 H2. unfold Py.strip, Py.rstrip.
  rewrite lstrip_spaces, lstrip_numeral by done.
  unfold String.rev at 2. rewrite rev_app_append, rev_app_spaces by done.
  rewrite lstrip_rev_numeral by done. apply rev_rev.
Qed.

Lemma int_numeral (w1 a w2 : string) :
  numeral a -> Py.all_space w1 = true -> Py.all_space w2 = true ->
  Py.int (w1 +:+ a +:+ w2) = Ok (Z.of_N (Py.digits_value 0 a)).
Proof.
  intros Ha H1 H2. unfold Py.int. rewrite strip_numeral by done.
  destruct Ha as [Hne Ha]. destruct a as [|c a]; [done|].
  pose proof Ha as Ha'. simpl in Ha'. apply andb_true_iff in Ha' as [Hc _].
  destruct (digit_char_facts c Hc) as (_ & _ & Hm & Hp).
  assert (forall x y : string * bool,
            (let '(neg, ds) := (false, String c a) in
             match ds with
             | "" => Raise "ValueError"
             | _ => if Py.all_digits ds
                    then Ok (if neg then (- Z.of_N (Py.digits_value 0 ds))%Z
                             else Z.of_N (Py.digits_value 0 ds))
                    else Raise "ValueError"
             end) = Ok (Z.of_N (Py.digits_value 0 (String c a)))) as Hgo.
  { intros _ _. cbv zeta iota beta. by rewrite Ha. }
  destruct c as [b0 b1 b2 b3 b4 b5 b6 b7].
  destruct b0, b1, b2, b3, b4, b5, b6, b7;
    first [exact (Hgo ("", true) ("", true)) | done].
Qed.

Lemma split_on_plain (sep : ascii) (s : string) :
  (forall i c, String.get i s = Some c -> c <> sep) -> Py.split_on sep s = [s].
Proof.
  induction s as [|c s IH]; intros Hs; simpl; [done|].
  destruct (Ascii.eqb_spec c sep) as [->|_].
  - by destruct (Hs 0 sep eq_refl).
  - rewrite IH; [done|]. intros i c' Hi. apply (Hs (S i)). done.
Qed.

Lemma split_on_once (sep : ascii) (s t : string) :
  (forall i c, String.get i s = Some c -> c <> sep) ->
  (forall i c, String.get i t = Some c -> c <> sep) ->
  Py.split_on sep (s +:+ String sep t) = [s; t].
Proof.
  intros Hs Ht. induction s as [|c s IH]; simpl.
  - rewrite Ascii.eqb_refl. by rewrite split_on_plain.
  - destruct (Ascii.eqb_spec c sep) as [->|_].
    + by destruct (Hs 0 sep eq_refl).
    + rewrite IH; [done|]. intros i c' Hi. apply (Hs (S i)). done.
Qed.

Lemma get_append (a b : string) (i : nat) (c : ascii) :
  String.get i (a +:+ b) = Some c ->
  (exists j, String.get j a = Some c) \/ (exists j, String.get j b = Some c).
Proof.
  revert i. induction a as [|x a IH]; intros i H; simpl in H; [right; eauto|].
  destruct i as [|i].
  - left. exists 0. done.
  - destruct (IH _ H) as [[j Hj]|?]; [|by right]. left. by exists (S j).
Qed.

Lemma digits_no_slash (a : string) (i : nat) (c : ascii) :
  Py.all_digits a = true -> String.get i a = Some c -> c <> "/"%char.
Proof.
  revert i. induction a as [|x a IH]; intros i Ha H; simpl in *; [done|].
  apply andb_true_iff in Ha as [Hx Ha]. destruct i as [|i].
  - injection H as <-. by destruct (digit_char_facts x Hx) as (_ & ? & _).
  - by apply (IH i).
Qed.

Lemma spaces_no_slash (w : string) (i : nat) (c : ascii) :
  Py.all_space w = true -> String.get i w = Some c -> c <> "/"%char.
Proof.
  revert i. induction w as [|x w IH]; intros i Hw H; simpl in *; [done|].
  apply andb_true_iff in Hw as [Hx Hw]. destruct i as [|i].
  - injection H as <-. by apply space_char_facts.
  - by apply (IH i).
Qed.

Lemma append_assoc (a b c : string) : (a +:+ b) +:+ c = a +:+ b +:+ c.
Proof.
  induction a as [|x a IH]; [done|].
  change (String x ((a +:+ b) +:+ c) = String x (a +:+ b +:+ c)). by rewrite IH.
Qed.

Lemma append_nil_r (a : string) : a +:+ "" = a.
Proof.
  induction a as [|x a IH]; [done|].
  change (String x (a +:+ "") = String x a). by rewrite IH.
Qed.

(** A text that begins and ends with a numeral has no blanks to strip. *)
Lemma strip_between (a mid b : string) :
  numeral a -> numeral b -> Py.strip (a +:+ mid +:+ b) = a +:+ mid +:+ b.
Proof.
  intros Ha Hb. unfold Py.strip, Py.rstrip. rewrite lstrip_numeral by done.
  rewrite <- append_assoc. unfold String.rev at 2. rewrite rev_app_append.
  rewrite lstrip_rev_numeral by done. rewrite <- rev_app_append.
  apply rev_rev.
Qed.

(** X11: [_get_num_and_denom] reads what the pattern of a fraction matches: a
    numeral, a slash and a numeral, with blanks on either side of the
    slash, give the two numbers. *)
Theorem get_num_and_denom_fraction (a w1 w2 b : string) :
  numeral a -> numeral b ->
  Py.all_space w1 = true -> Py.all_space w2 = true ->
  ValueExtractor._get_num_and_denom (a +:+ w1 +:+ "/" +:+ w2 +:+ b)
  = Ok (Z.of_N (Py.digits_value 0 a), Z.of_N (Py.digits_value 0 b)).
Proof.
  intros Ha Hb H1 H2. unfold ValueExtractor._get_num_and_denom.
  assert (a +:+ w1 +:+ "/" +:+ w2 +:+ b = a +:+ (w1 +:+ "/" +:+ w2) +:+ b) as Hmid.
  { by rewrite !append_assoc. }
  rewrite Hmid, strip_between, <- Hmid by done.
  assert (a +:+ w1 +:+ "/" +:+ w2 +:+ b = (a +:+ w1) +:+ String "/" (w2 +:+ b))
    as -> by (by rewrite append_assoc).
  rewrite split_on_once.
  - pose proof (int_numeral "" a w1 Ha eq_refl H1) as Hn.
    pose proof (int_numeral w2 b "" Hb H2 eq_refl) as Hd.
    rewrite append_nil_r in Hd. change ("" +:+ a +:+ w1) with (a +:+ w1) in Hn.
    cbv beta iota zeta. rewrite Hn. cbn [mbind result_bind]. rewrite Hd.
    reflexivity.
  - intros i c Hi. apply get_append in Hi as [[j Hj]|[j Hj]].
    + destruct Ha as [_ Ha]. by apply (digits_no_slash a j).
    + by apply (spaces_no_slash w1 j).
  - intros i c Hi. apply get_append in Hi as [[j Hj]|[j Hj]].
    + by apply (spaces_no_slash w2 j).
    + destruct Hb as [_ Hb]. by apply (digits_no_slash b j).
Qed.

Lemma get_num_and_denom_fraction_witness :
  ValueExtractor._get_num_and_denom "120 / 80" = Ok (120%Z, 80%Z).
Proof.
  apply (get_num_and_denom_fraction "120" " " " " "80"); by repeat split.
Defined.

(** ** The rules of [_resolve_overlap] *)

Section OverlapRules.
Context {F : PyFloat}.
Import ValueExtractor.

Lemma discard_against_raises ri D later e :
  discard_against ri D later = Raise e ->
  e = "AssertionError" /\ ~ Forall (fun rj => start ri <= start rj) later.
Proof.
  unfold discard_against. revert D.
  induction later as [|rj later IH]; intros D H; simpl in H; [discriminate|].
  destruct (Nat.leb_spec (start ri) (start rj)) as [Hle|Hgt]; simpl in H.
  - destruct (start rj <? end_ ri); simpl in H;
      apply IH in H as [-> Hn]; (split; [done|]);
      intros Hall; apply Hn; by apply Forall_cons in Hall as [_ ?].
  - injection H as <-. split; [done|]. intros Hall.
    apply Forall_cons in Hall as [? _]. lia.
Qed.

Lemma discard_pairs_raises D results e :
  discard_pairs D results = Raise e ->
  e = "AssertionError"
  /\ ~ ordered_pairs (fun a b => start a <= start b) results.
Proof.
  revert D. induction results as [|ri later IH]; intros D H; simpl in H;
    [discriminate|].
  destruct (discard_against ri D later) as [D1|e1] eqn:H1; simpl in H.
  - apply IH in H as [-> Hn]. split; [done|]. intros [_ Hs]. by apply Hn.
  - injection H as <-. apply discard_against_raises in H1 as [-> Hn].
    split; [done|]. intros [Hs _]. by apply Hn.
Qed.

Lemma discard_against_order ri D later D' :
  discard_against ri D later = Ok D' ->
  Forall (fun rj => start ri <= start rj) later.
Proof.
  unfold discard_against. revert D.
  induction later as [|rj later IH]; intros D H; simpl in H; [done|].
  destruct (Nat.leb_spec (start ri) (start rj)) as [Hle|Hgt]; simpl in H;
    [|discriminate].
  constructor; [done|]. destruct (start rj <? end_ ri); simpl in H;
    by apply IH in H.
Qed.

Lemma discard_pairs_order D results D' :
  discard_pairs D results = Ok D' ->
  ordered_pairs (fun a b => start a <= start b) results.
Proof.
  revert D. induction results as [|ri later IH]; intros D H; simpl in H; [done|].
  destruct (discard_against ri D later) as [D1|] eqn:H1; simpl in H;
    [|discriminate].
  split; [by apply (discard_against_order _ _ _ _ H1)|by apply (IH D1)].
Qed.

Lemma resolve_overlap_order terms results out :
  _resolve_overlap terms results = Ok out ->
  ordered_pairs (fun a b => start a <= start b) results.
Proof.
  unfold _resolve_overlap. destruct results as [|r rs]; [done|].
  cbn [length Nat.eqb].
  destruct (discard_pairs [] (r :: rs)) as [D|e] eqn:HD; cbn [mbind result_bind];
    [|discriminate].
  intros _. by apply (discard_pairs_order _ _ _ HD).
Qed.

(** X7: [_resolve_overlap] returns exactly when the results are in the
    order of their start; otherwise its assertion fails. *)
Theorem resolve_overlap_asserts_order (terms : list string)
    (results : list ValueMeasurement) :
  match _resolve_overlap terms results with
  | Ok _ => ordered_pairs (fun a b => start a <= start b) results
  | Raise e =>
      e = "AssertionError"
      /\ ~ ordered_pairs (fun a b => start a <= start b) results
  end.
Proof.
  destruct (_resolve_overlap terms results) as [out|e] eqn:H.
  - by apply (resolve_overlap_order terms results out).
  - unfold _resolve_overlap in H. destruct results as [|r rs]; [discriminate|].
    cbn [length Nat.eqb] in H.
    destruct (discard_pairs [] (r :: rs)) as [D|e'] eqn:HD;
      cbn [mbind result_bind] in H.
    + by destruct (length D =? 0).
    + injection H as <-. by apply discard_pairs_raises in HD.
Qed.

Lemma discard_against_disjoint ri D later :
  Forall (fun rj => start ri <= start rj /\ end_ ri <= start rj) later ->
  discard_against ri D later = Ok D.
Proof.
  unfold discard_against. intros Hl. revert D.
  induction Hl as [|rj later [H1 H2] _ IH]; intros D; simpl; [done|].
  apply Nat.leb_le in H1. rewrite H1. simpl.
  apply Nat.ltb_ge in H2. rewrite H2. simpl. apply IH.
Qed.

Lemma discard_pairs_disjoint D results :
  ordered_pairs (fun a b => start a <= start b) results ->
  ordered_pairs (fun a b => end_ a <= start b) results ->
  discard_pairs D results = Ok D.
Proof.
  induction results as [|ri later IH]; intros Hs Hd; simpl; [done|].
  destruct Hs as [Hs1 Hs]. destruct Hd as [Hd1 Hd].
  rewrite discard_against_disjoint; [simpl; by apply IH|].
  rewrite Forall_forall in Hs1, Hd1. apply Forall_forall. intros rj Hrj.
  split; auto.
Qed.

(** X8: results that do not overlap are all returned, and so resolving the
    results returned once more changes nothing. *)
Theorem resolve_overlap_stable (terms terms' : list string)
    (results out : list ValueMeasurement) :
  (results <> [] ->
   ordered_pairs (fun a b => start a <= start b) results ->
   ordered_pairs (fun a b => end_ a <= start b) results ->
   _resolve_overlap terms results = Ok (Some results))
  /\ (_resolve_overlap terms results = Ok (Some out) -> out <> [] ->
      _resolve_overlap terms' out = Ok (Some out)).
Proof.
  assert (forall ts l, l <> [] ->
            ordered_pairs (fun a b => start a <= start b) l ->
            ordered_pairs (fun a b => end_ a <= start b) l ->
            _resolve_overlap ts l = Ok (Some l)) as Hsame.
  { intros ts l Hne Hs Hd. unfold _resolve_overlap.
    destruct l as [|r rs]; [done|]. cbn [length Nat.eqb].
    by rewrite discard_pairs_disjoint. }
  split; [apply Hsame|]. intros Hout Hne. apply Hsame; [done| |].
  - pose proof (resolve_overlap_order terms results _ Hout) as Hs.
    destruct (resolve_overlap_filter _ _ _ Hout) as (D & _ & ->).
    apply ordered_pairs_filter. eapply ordered_pairs_impl; [|exact Hs]. auto.
  - by apply (resolve_overlap_disjoint terms results).
Qed.

(** Of two overlapping results, the one that [to_discard] names is not
    returned. *)
Lemma overlap_loser_absent terms results i j ri rj :
  ordered_pairs (fun a b => start a <= start b) results ->
  i < j -> results !! i = Some ri -> results !! j = Some rj ->
  start rj < end_ ri ->
  exists out, _resolve_overlap terms results = Ok (Some out)
              /\ to_discard ri rj ∉ out.
Proof.
  intros Hs Hij Hi Hj Hov.
  destruct (resolve_overlap_ok terms results) as [out Hout]; [|done|].
  { intros ->. done. }
  exists out. split; [done|].
  destruct (resolve_overlap_filter _ _ _ Hout) as (D & HD & ->).
  assert (to_discard ri rj ∈ D) as Hin.
  { clear Hout. revert Hs i j Hij Hi Hj D HD. generalize (@nil ValueMeasurement).
    induction results as [|r rs IH]; intros D0 Hs i j Hij Hi Hj D HD; [done|].
    simpl in HD.
    destruct (discard_against r D0 rs) as [D1|] eqn:H1; simpl in HD; [|discriminate].
    destruct j as [|j]; [lia|]. simpl in Hj. destruct i as [|i]; simpl in Hi.
    - injection Hi as ->. apply (discard_pairs_incl _ _ _ HD).
      apply (discard_against_spec _ _ _ _ H1). right. exists rj.
      split; [|done]. apply list_elem_of_lookup. eauto.
    - destruct Hs as [_ Hs]. apply (IH D1 Hs i j); [lia|done..]. }
  intros [Hn _]%list_elem_of_filter. apply vm_in_elem in Hin.
  by rewrite Hin in Hn.
Qed.

(** X9: the first and the third rule of [_resolve_overlap].  Of two
    overlapping results, one is not returned: if their spans are the same,
    the later one if its matching term is the shorter, else the earlier
    one; if their spans differ and the text of the earlier one does not end
    with the term of the later one, the one with the shorter term if the
    terms overlap (the later one if the terms are equally long), and the
    earlier one if the terms do not overlap. *)
Theorem overlap_rules (terms : list string) (results : list ValueMeasurement)
    (i j : nat) (ri rj : ValueMeasurement) :
  ordered_pairs (fun a b => start a <= start b) results ->
  i < j -> results !! i = Some ri -> results !! j = Some rj ->
  start rj < end_ ri ->
  let term1 := String.length (matching_term ri) in
  let term2 := String.length (matching_term rj) in
  let same_span := start ri = start rj /\ end_ ri = end_ rj in
  exists out loser,
    _resolve_overlap terms results = Ok (Some out) /\ (loser ∉ out)
    /\ (same_span -> loser = if term2 <? term1 then rj else ri)
    /\ (~ same_span -> Py.endswith (matching_term rj) (text ri) = false ->
        loser = if start rj <? start ri + term1
                then (if term1 <? term2 then ri else rj)
                else ri).
Proof.
  intros Hs Hij Hi Hj Hov term1 term2 same_span.
  destruct (overlap_loser_absent terms results i j ri rj Hs Hij Hi Hj Hov)
    as (out & Hout & Hloser).
  exists out, (to_discard ri rj). split; [done|]. split; [done|].
  unfold to_discard. cbn [fst snd]. fold term1 term2. split.
  - intros [H1 H2]. by rewrite H1, H2, !Nat.eqb_refl.
  - intros Hne Hend.
    destruct ((start ri =? start rj) && (end_ ri =? end_ rj)) eqn:Hid.
    + apply andb_true_iff in Hid as [?%Nat.eqb_eq ?%Nat.eqb_eq].
      by destruct Hne.
    + by rewrite Hend.
Qed.

End OverlapRules.

(** ** Sentences without a trigger *)

Section NoTrigger.
Context {F : PyFloat}.
Import ValueExtractor.

Lemma trigger_at_none (words : list string) (i : nat) :
  (forall w, words !! i = Some w -> w ∉ ["call"; "if"; "in"; "should"]) ->
  trigger_at words i = None.
Proof.
  intros Hw. unfold trigger_at.
  rewrite (word_is_false words i "call"), (word_is_false words i "if"),
    (word_is_false words i "in"), (word_is_false words i "should");
    [done|intros H; apply (Hw _ H); set_solver..].
Qed.

(** X10: [_remove_hypotheticals] returns results of the list given, and
    all of them if none of the words "call", "if", "in" and "should" is a
    word of the sentence. *)
Theorem remove_hypotheticals_keeps (sentence : string)
    (results : list ValueMeasurement) :
  (forall r, r ∈ _remove_hypotheticals sentence results -> r ∈ results)
  /\ ((forall w, w ∈ Re.split word_break (Py.lower sentence) ->
                 w ∉ ["call"; "if"; "in"; "should"]) ->
      _remove_hypotheticals sentence results = results).
Proof.
  rewrite remove_hypotheticals_filter. cbv zeta. split.
  - by intros r [_ ?]%list_elem_of_filter.
  - intros Hw.
    assert (triggers_of (Re.split word_break (Py.lower sentence)) = []) as ->.
    { unfold triggers_of. generalize (seq 0 (length (Re.split word_break (Py.lower sentence)))).
      intros l. induction l as [|i l IH]; [done|]. cbn [omap list_omap].
      rewrite trigger_at_none; [exact IH|].
      intros w Hi. apply Hw. apply list_elem_of_lookup. eauto. }
    unfold omitted. cbn [foldl]. unfold vm_in. cbn [existsb negb].
    induction results as [|r rs IH]; [done|].
    rewrite filter_cons_True by done. by rewrite IH.
Qed.

End NoTrigger.

(** ** Lower case *)

Lemma lower_char_lower (c : ascii) :
  Py.between "A" "Z" (Py.lower_char c) = false.
Proof. destruct c as [[] [] [] [] [] [] [] []]; vm_compute; reflexivity. Qed.

Lemma no_upper_lower (s : string) : no_upper (Py.lower s) = true.
Proof.
  induction s as [|c s IH]; simpl; [done|]. by rewrite lower_char_lower, IH.
Qed.

Lemma lower_no_upper (s : string) : no_upper s = true -> Py.lower s = s.
Proof.
  induction s as [|c s IH]; simpl; [done|].
  intros [Hc Hs]%andb_true_iff. rewrite IH by done.
  unfold Py.lower_char. by destruct (Py.between "A" "Z" c).
Qed.

Lemma no_upper_append (a b : string) :
  no_upper a = true -> no_upper b = true -> no_upper (a +:+ b) = true.
Proof.
  intros Ha Hb. induction a as [|c a IH]; [done|].
  change (no_upper (String c (a +:+ b)) = true). simpl in *.
  apply andb_true_iff in Ha as [-> Ha]. by apply IH.
Qed.

Lemma no_upper_take (n : nat) (s : string) :
  no_upper s = true -> no_upper (Py.take n s) = true.
Proof.
  revert n. induction s as [|c s IH]; intros [|n] Hs; simpl in *; try done.
  apply andb_true_iff in Hs as [-> Hs]. by apply IH.
Qed.

Lemma no_upper_drop (n : nat) (s : string) :
  no_upper s = true -> no_upper (Py.drop n s) = true.
Proof.
  revert n. induction s as [|c s IH]; intros [|n] Hs; simpl in *; try done.
  apply andb_true_iff in Hs as [_ Hs]. by apply IH.
Qed.

Lemma no_upper_spaces (n : nat) : no_upper (Py.spaces n) = true.
Proof. induction n as [|n IH]; simpl; done. Qed.

Lemma no_upper_sub (p : Re.pattern) (repl s : string) :
  no_upper repl = true -> no_upper s = true ->
  no_upper (Re.sub p repl s) = true.
Proof.
  intros Hr Hs. unfold Re.sub, Re.split.
  generalize (Re.finditer p s) 0. intros ms. induction ms as [|mo ms IH]; intros from.
  - simpl. by apply no_upper_drop.
  - cbn [Re.pieces]. rewrite join_cons by apply pieces_nonempty.
    apply no_upper_append; [by apply no_upper_take, no_upper_drop|].
    apply no_upper_append; [done|apply IH].
Qed.

Lemma no_upper_foldl {A} (f : string -> A -> string) (l : list A) (init : string) :
  (forall cur x, no_upper cur = true -> no_upper (f cur x) = true) ->
  no_upper init = true -> no_upper (foldl f init l) = true.
Proof.
  intros Hf. revert init. induction l as [|x l IH]; intros init Hinit; simpl;
    [done|]. apply IH. by apply Hf.
Qed.

Section LowerCase.
Context {F : PyFloat} {E : Finders}.

Lemma no_upper_erase_segment s a b :
  no_upper s = true -> no_upper (CovidFinder._erase_segment s a b) = true.
Proof.
  intros Hs. unfold CovidFinder._erase_segment.
  apply no_upper_append; [by apply no_upper_take|].
  apply no_upper_append; [apply no_upper_spaces|by apply no_upper_drop].
Qed.

Lemma no_upper_erase_segments s segments :
  no_upper s = true -> no_upper (CovidFinder.erase_segments s segments) = true.
Proof.
  unfold CovidFinder.erase_segments. apply no_upper_foldl.
  intros cur [a b] Hcur. by apply no_upper_erase_segment.
Qed.

Lemma no_upper_erase s a b :
  no_upper s = true -> no_upper (ValueExtractor._erase s a b) = true.
Proof.
  intros Hs. unfold ValueExtractor._erase.
  apply no_upper_append; [by apply no_upper_take|].
  apply no_upper_append; [apply no_upper_spaces|by apply no_upper_drop].
Qed.

Lemma no_upper_cleanup (sentence : string) :
  no_upper (CovidFinder._cleanup sentence) = true.
Proof.
  unfold CovidFinder._cleanup, CovidFinder.re_sub.
  apply no_upper_sub; [done|]. apply no_upper_foldl.
  { intros cur pos Hcur. apply no_upper_append; [by apply no_upper_take|].
    apply no_upper_append; [done|by apply no_upper_drop]. }
  do 3 (apply no_upper_sub; [done|]).
  unfold CovidFinder._erase_time_expressions. apply no_upper_erase_segments.
  unfold CovidFinder._erase_dates. apply no_upper_erase_segments.
  apply no_upper_foldl; [|apply no_upper_lower].
  intros cur fv Hcur. destruct (Re.match_ _ _); [done|].
  by apply no_upper_erase_segment.
Qed.

Lemma no_upper_clean_sentence (sentence : string) :
  no_upper (ValueExtractor._clean_sentence sentence false) = true.
Proof.
  unfold ValueExtractor._clean_sentence.
  unfold ValueExtractor._erase_durations. apply no_upper_foldl.
  { intros cur mo Hcur. repeat case_match; try done; by apply no_upper_erase. }
  apply no_upper_foldl.
  { intros cur fv Hcur. repeat case_match; try done; by apply no_upper_erase. }
  apply no_upper_foldl.
  { intros cur fv Hcur. repeat case_match; try done; by apply no_upper_erase. }
  apply no_upper_foldl.
  { intros cur fv Hcur. repeat case_match; try done; by apply no_upper_erase. }
  unfold ValueExtractor._common_clean. cbn [negb]. apply no_upper_lower.
Qed.

(** X16: a cleaned sentence is in lower case, in the COVID finder always
    and in the value extractor unless the search is case sensitive,
    whatever the finders report. *)
Theorem cleaned_sentence_lower_case (sentence : string) :
  Py.lower (CovidFinder._cleanup sentence) = CovidFinder._cleanup sentence
  /\ Py.lower (ValueExtractor._clean_sentence sentence false)
     = ValueExtractor._clean_sentence sentence false.
Proof.
  split; apply lower_no_upper; [apply no_upper_cleanup|apply no_upper_clean_sentence].
Qed.

End LowerCase.

(** ** Closed examples *)


Lemma erase_spec_witness :
  String.length (ValueExtractor._erase "temp 101 F" 5 8) = 10
  /\ ValueExtractor._erase "temp 101 F" 5 8 = "temp     F".
Proof.
  destruct (erase_spec "temp 101 F" 5 8) as (Hlen & _); [simpl; lia|].
  split; [exact Hlen|reflexivity].
Defined.


Lemma extract_value_results_witness :
  exists vs r,
    ValueExtractor._extract_value (F := decimal_float) "temp" "temp 101"
      (float_of_int 0) (float_of_int 1000) false = Ok vs
    /\ r ∈ vs
    /\ value_result "temp" "temp 101" (float_of_int 0) (float_of_int 1000) r.
Proof.
  eexists _, _. split; [reflexivity|]. split; [apply list_elem_of_here|].
  eapply (extract_value_results (F := decimal_float) "temp" "temp 101"
            (float_of_int 0) (float_of_int 1000) false); [reflexivity|].
  apply list_elem_of_here.
Defined.

Lemma extract_enumlist_results_witness :
  exists vs r,
    ValueExtractor._extract_enumlist_values (F := decimal_float)
      ["abc"; "ab"] "ab x. abc x" ["x"] = Ok vs
    /\ r ∈ vs
    /\ enum_result ["abc"; "ab"] ["x"] "ab x. abc x" r.
Proof.
  eexists _, _. split; [reflexivity|]. split; [apply list_elem_of_here|].
  eapply (extract_enumlist_results (F := decimal_float)
            ["abc"; "ab"] "ab x. abc x" ["x"]); [reflexivity|].
  apply list_elem_of_here.
Defined.


Lemma run_returns_after_extraction_witness :
  (ValueExtractor.extract (F := decimal_float) (E := no_finders)
     "bp,bp" "bp 120" None None None false false).2 = Ok [bp_result; bp_result]
  /\ exists doc,
       (ValueExtractor.run (F := decimal_float) (E := no_finders)
          "bp,bp" "bp 120" None None None false false ∅).1 = Ok doc.
Proof.
  split; [reflexivity|].
  apply (run_returns_after_extraction (F := decimal_float) (E := no_finders)
           "bp,bp" "bp 120" None None None false false ∅ [bp_result; bp_result]).
  reflexivity.
Defined.

Lemma overlap_rules_witness :
  exists out loser,
    ValueExtractor._resolve_overlap ["o2 sat"; "o2"] [o2_sat_result; o2_result]
    = Ok (Some out)
    /\ (loser ∉ out) /\ loser = o2_result.
Proof.
  destruct (overlap_rules (F := decimal_float) ["o2 sat"; "o2"]
              [o2_sat_result; o2_result] 0 1 o2_sat_result o2_result)
    as (out & loser & Hout & Hloser & Hsame & _).
  - simpl. repeat constructor.
  - lia.
  - reflexivity.
  - reflexivity.
  - simpl. lia.
  - exists out, loser. split; [exact Hout|]. split; [exact Hloser|].
    apply Hsame. by split.
Defined.
